(** * git-changelog-ai: the changelog assembly pipeline

    A shallow embedding of [constants.py], [core.py], [git.py], [config.py],
    [ai/base.py] and [notify.py], and the properties of the classification,
    formatting, truncation and fallback logic.

    Python [str] values are sequences of Unicode code points; they are
    modelled as lists of code points, so that [len], slicing and [in] count
    characters as Python does, and the UTF-8 encoding is a separate
    function.  Dictionaries used as maps are [gmap]s; [COMMIT_KEYWORDS],
    whose iteration order decides the classification, is an association
    list in the order of its declaration.

    What the program does to the outside (the lines it prints, the git
    commands it runs, the request it sends to the AI service) is kept as a
    list of events beside the outcome of each call; what the outside
    answers is a [World] of functions.  An exception that propagates is an
    outcome of its own.

    Two things are parameters: the case mapping of the Unicode database
    behind [str.lower] and [str.upper], and the system prompt of
    [ai/prompts.py]. *)

From Stdlib Require Import ZArith NArith List Ascii String Lia.
From stdpp Require Import base option list gmap pretty.
Import ListNotations.

Local Open Scope Z_scope.

(* ===================================================================== *)
(** * Python strings *)
(* ===================================================================== *)

(** A code point. *)
Definition char := N.

(** A Python [str]. *)
Abbreviation pystr := (list char) (only parsing).

(** ** Literals

    Literals are written as in the Python sources: the bytes of the Rocq
    string are decoded as UTF-8, and the escape [\n] stands for a line
    feed, the only escape the sources use. *)

Fixpoint bytes_of_string (s : string) : list N :=
  match s with
  | EmptyString => []
  | String a s' => N_of_ascii a :: bytes_of_string s'
  end.

Fixpoint utf8_decode (bs : list N) : pystr :=
  match bs with
  | [] => []
  | b0 :: r0 =>
    if (b0 <? 128)%N then b0 :: utf8_decode r0
    else if (b0 <? 224)%N then
      match r0 with
      | b1 :: r1 => ((b0 - 192) * 64 + (b1 - 128))%N :: utf8_decode r1
      | _ => []
      end
    else if (b0 <? 240)%N then
      match r0 with
      | b1 :: b2 :: r2 =>
        ((b0 - 224) * 4096 + (b1 - 128) * 64 + (b2 - 128))%N :: utf8_decode r2
      | _ => []
      end
    else
      match r0 with
      | b1 :: b2 :: b3 :: r3 =>
        ((b0 - 240) * 262144 + (b1 - 128) * 4096 + (b2 - 128) * 64 + (b3 - 128))%N
          :: utf8_decode r3
      | _ => []
      end
  end.

Fixpoint unescape (s : pystr) : pystr :=
  match s with
  | 92%N :: 110%N :: r => 10%N :: unescape r
  | c :: r => c :: unescape r
  | [] => []
  end.

Definition py (s : string) : pystr := unescape (utf8_decode (bytes_of_string s)).

(** The characters that a Rocq string cannot hold unescaped. *)
Definition LF : char := 10%N.
Definition DQUOTE : pystr := [34%N].

(** ** Encoding

    [s.encode('utf-8')]: one to four bytes per code point.  A surrogate
    (U+D800..U+DFFF) has no UTF-8 encoding and Python raises
    [UnicodeEncodeError]; a [str] holds no code point above U+10FFFF. *)

Definition utf8_encode_char (c : char) : option (list N) :=
  if (c <? 128)%N then Some [c]
  else if (c <? 2048)%N then Some [192 + c / 64; 128 + c mod 64]%N
  else if (c <? 55296)%N || ((57343 <? c)%N && (c <? 65536)%N) then
    Some [224 + c / 4096; 128 + (c / 64) mod 64; 128 + c mod 64]%N
  else if (65535 <? c)%N && (c <? 1114112)%N then
    Some [240 + c / 262144; 128 + (c / 4096) mod 64;
          128 + (c / 64) mod 64; 128 + c mod 64]%N
  else None.

Fixpoint encode_utf8 (s : pystr) : option (list N) :=
  match s with
  | [] => Some []
  | c :: r =>
    match utf8_encode_char c, encode_utf8 r with
    | Some bs, Some br => Some (bs ++ br)
    | _, _ => None
    end
  end.

(** ** Operations of [str] *)

(** [len(s)], an [int]. *)
Definition len {A} (l : list A) : Z := Z.of_nat (length l).

Definition char_eqb (a b : char) : bool := (a =? b)%N.

(** [s.startswith(p)] *)
Fixpoint startswith (s p : pystr) : bool :=
  match p, s with
  | [], _ => true
  | y :: p', x :: s' => char_eqb x y && startswith s' p'
  | _ :: _, [] => false
  end.

(** [needle in hay]: [needle] occurs as a substring of [hay]; the empty
    string occurs in every string. *)
Fixpoint contains (needle hay : pystr) : bool :=
  startswith hay needle ||
  match hay with
  | [] => false
  | _ :: hay' => contains needle hay'
  end.

(** [str.isspace] on one character: the characters [str.strip()] removes. *)
Definition isspace (c : char) : bool :=
  ((9 <=? c) && (c <=? 13) || (28 <=? c) && (c <=? 32) ||
   (c =? 133) || (c =? 160) || (c =? 5760) ||
   (8192 <=? c) && (c <=? 8202) || (c =? 8232) || (c =? 8233) ||
   (c =? 8239) || (c =? 8287) || (c =? 12288))%N.

Fixpoint lstrip (s : pystr) : pystr :=
  match s with
  | c :: r => if isspace c then lstrip r else s
  | [] => []
  end.

(** [s.strip()] *)
Definition strip (s : pystr) : pystr := rev (lstrip (rev (lstrip s))).

(** [s[:k]] for an [int] [k]: a negative [k] counts from the end, and
    both ends are clamped to the string. *)
Definition slice_to {A} (k : Z) (s : list A) : list A :=
  if k <? 0 then firstn (Z.to_nat (len s + k)) s else firstn (Z.to_nat k) s.

(** [s[k:]] for an [int] [k], with the same treatment of a negative [k]. *)
Definition slice_from {A} (k : Z) (s : list A) : list A :=
  if k <? 0 then skipn (Z.to_nat (len s + k)) s else skipn (Z.to_nat k) s.

(** [s.split(sep)] for a separator of one character. *)
Fixpoint split (sep : char) (s : pystr) : list pystr :=
  match s with
  | [] => [[]]
  | c :: r =>
    if char_eqb c sep then [] :: split sep r
    else match split sep r with
         | w :: ws => (c :: w) :: ws
         | [] => [[c]]
         end
  end.

(** [sep.join(parts)] *)
Fixpoint join (sep : pystr) (parts : list pystr) : pystr :=
  match parts with
  | [] => []
  | [p] => p
  | p :: ps => p ++ sep ++ join sep ps
  end.

(** [s.rfind(c)] for one character: the highest index of [c] in [s], or
    [-1]. *)
Fixpoint rfind_from (c : char) (s : pystr) (i : Z) (last : Z) : Z :=
  match s with
  | [] => last
  | x :: r => rfind_from c r (i + 1) (if char_eqb x c then i else last)
  end.

Definition rfind (c : char) (s : pystr) : Z := rfind_from c s 0 (-1).

(** [str(n)] for an [int]. *)
Definition str_of_Z (n : Z) : pystr := py (pretty n).

(** ** Case mapping

    [str.lower] and [str.upper] follow the case-mapping tables of the
    Unicode database of the interpreter.  The development takes them as
    given: every theorem holds for any pair of functions. *)
Class CaseMapping := {
  lower : pystr -> pystr;
  upper : pystr -> pystr;
}.

(** The mapping on the letters of ASCII, every other code point left as
    it is.  It is [str.lower] and [str.upper] on every string whose cased
    characters are ASCII letters, and serves to run the model on such
    inputs. *)
Definition ascii_lower_char (c : char) : char :=
  if ((65 <=? c) && (c <=? 90))%N then (c + 32)%N else c.

Definition ascii_upper_char (c : char) : char :=
  if ((97 <=? c) && (c <=? 122))%N then (c - 32)%N else c.

Definition ascii_case : CaseMapping :=
  {| lower := map ascii_lower_char; upper := map ascii_upper_char |}.

(* ===================================================================== *)
(** * Exceptions *)
(* ===================================================================== *)

Inductive exn :=
| KeyError (key : pystr)
| UnicodeEncodeError.

(** The outcome of a call: a value, or an exception that propagates to
    the caller. *)
Inductive res (A : Type) :=
| Ok (a : A)
| Raise (e : exn).
Arguments Ok {A} a.
Arguments Raise {A} e.

#[global] Instance res_ret : MRet res := fun A a => Ok a.
#[global] Instance res_bind : MBind res := fun A B f r =>
  match r with
  | Ok a => f a
  | Raise e => Raise e
  end.

(** Truth value of a sequence: [if s:] holds when [s] is not empty. *)
Definition truthy {A} (s : list A) : bool :=
  match s with
  | [] => false
  | _ :: _ => true
  end.

(* ===================================================================== *)
(** * types.py, constants.py *)
(* ===================================================================== *)

Record CommitInfo := {
  hash : pystr;
  author : pystr;
  email : pystr;
  date : pystr;
  message : pystr;
}.

Definition DEFAULT_MAX_DIFF_LINES : Z := 3000.
Definition DEFAULT_MAX_DIFF_CHARS : Z := 50000.
Definition DEFAULT_AI_PROVIDER : pystr := py "gemini".
(** The temperature [0.3], by the text [json.dumps] prints for it. *)
Definition DEFAULT_AI_TEMPERATURE : pystr := py "0.3".
Definition DEFAULT_AI_MAX_OUTPUT_TOKENS : Z := 4000.

Definition IGNORE_PATTERNS : list pystr :=
  [ py "CHANGELOG.md";
    py "CHANGELOG*.md";
    py "package-lock.json";
    py "yarn.lock";
    py "pnpm-lock.yaml" ].

(** The dictionary [COMMIT_KEYWORDS], in the order of its declaration,
    which is the order [COMMIT_KEYWORDS.items()] yields. *)
Definition COMMIT_KEYWORDS : list (pystr * list pystr) :=
  [ (py "new_features",
      [py "新增"; py "添加"; py "add"; py "feat"; py "feature"; py "功能";
       py "new"; py "implement"; py "支持"]);
    (py "bug_fixes",
      [py "修复"; py "修正"; py "fix"; py "bug"; py "问题"; py "issue";
       py "错误"; py "resolve"; py "hotfix"]);
    (py "performance",
      [py "优化"; py "性能"; py "perf"; py "performance"; py "提升";
       py "改进"; py "improve"; py "optimize"; py "加速"]);
    (py "refactoring",
      [py "重构"; py "refactor"; py "调整"; py "重写"; py "rewrite";
       py "restructure"; py "改造"]);
    (py "documentation",
      [py "文档"; py "doc"; py "documentation"; py "注释"; py "comment";
       py "readme"; py "changelog"]);
    (py "styling",
      [py "样式"; py "style"; py "css"; py "ui"; py "界面"; py "美化";
       py "format"; py "布局"]);
    (py "configuration",
      [py "配置"; py "config"; py "configuration"; py "设置"; py "setting";
       py "build"; py "ci"; py "chore"; py "deps"]) ].

Definition CATEGORY_DISPLAY : list (pystr * pystr) :=
  [ (py "new_features", py "✨ 新功能");
    (py "bug_fixes", py "🐛 问题修复");
    (py "performance", py "⚡ 性能优化");
    (py "refactoring", py "🔨 代码重构");
    (py "styling", py "🎨 样式调整");
    (py "configuration", py "🔧 配置变更");
    (py "documentation", py "📝 文档更新");
    (py "others", py "📦 其他变更") ].

Definition SKIP_COMMIT_KEYWORDS : list pystr :=
  [py "merge"; py "version"; py "版本"; py "release"].

Definition COMMIT_PREFIXES : list pystr :=
  [py "feat:"; py "fix:"; py "chore:"; py "docs:"; py "style:";
   py "refactor:"; py "perf:"; py "test:"].

(* ===================================================================== *)
(** * core.py: classification, formatting and the basic report *)
(* ===================================================================== *)

Section Core.
Context {U : CaseMapping}.

(** [d[key]] *)
Definition dict_get {V} (d : gmap pystr V) (key : pystr) : res V :=
  match d !! key with
  | Some v => Ok v
  | None => Raise (KeyError key)
  end.

(** [categories[category].append(commit)] *)
Definition dict_append (categories : gmap pystr (list CommitInfo))
    (category : pystr) (commit : CommitInfo) : res (gmap pystr (list CommitInfo)) :=
  items ← dict_get categories category;
  mret (<[category := items ++ [commit]]> categories).

(** [{key: [] for key, _ in CATEGORY_DISPLAY}] *)
Definition empty_categories : gmap pystr (list CommitInfo) :=
  fold_left (fun d kt => <[kt.1 := []]> d) CATEGORY_DISPLAY ∅.

(** [any(keyword in message for keyword in keywords)] *)
Definition any_in (keywords : list pystr) (message : pystr) : bool :=
  existsb (fun keyword => contains keyword message) keywords.

(** The inner loop of [classify_commits]: the first category of the table
    one of whose keywords occurs in the message, [None] when the loop ends
    with [classified] still false. *)
Fixpoint first_match (table : list (pystr * list pystr)) (message : pystr)
    : option pystr :=
  match table with
  | [] => None
  | (category, keywords) :: rest =>
    if any_in keywords message then Some category
    else first_match rest message
  end.

(** One turn of the loop over the commits. *)
Definition classify_commit (categories : gmap pystr (list CommitInfo))
    (commit : CommitInfo) : res (gmap pystr (list CommitInfo)) :=
  let message := lower (message commit) in
  if any_in SKIP_COMMIT_KEYWORDS message then mret categories
  else
    match first_match COMMIT_KEYWORDS message with
    | Some category => dict_append categories category commit
    | None => dict_append categories (py "others") commit
    end.

Fixpoint classify_loop (commits : list CommitInfo)
    (categories : gmap pystr (list CommitInfo))
    : res (gmap pystr (list CommitInfo)) :=
  match commits with
  | [] => mret categories
  | commit :: rest =>
    categories' ← classify_commit categories commit;
    classify_loop rest categories'
  end.

Definition classify_commits (commits : list CommitInfo)
    : res (gmap pystr (list CommitInfo)) :=
  classify_loop commits empty_categories.

(** The loop over [COMMIT_PREFIXES]: the first prefix the lower-cased
    message starts with is cut off, by its length, and the rest is
    stripped; then the loop ends. *)
Fixpoint strip_prefix (prefixes : list pystr) (formatted : pystr) : pystr :=
  match prefixes with
  | [] => formatted
  | prefix :: rest =>
    if startswith (lower formatted) prefix
    then strip (slice_from (len prefix) formatted)
    else strip_prefix rest formatted
  end.

Definition format_commit_message (message : pystr) : pystr :=
  let formatted := strip_prefix COMMIT_PREFIXES message in
  match formatted with
  | c :: r => upper [c] ++ r
  | [] => formatted
  end.

(** [sum(len(v) for v in categories.values())] *)
Definition total_len (categories : gmap pystr (list CommitInfo)) : Z :=
  map_fold (fun _ v acc => len v + acc) 0 categories.

Definition render_item (verbose : bool) (item : CommitInfo) : pystr :=
  let msg := format_commit_message (message item) in
  let suffix :=
    if verbose then py " (" ++ slice_to 7 (hash item) ++ py ")" else [] in
  py "- " ++ msg ++ suffix.

Definition render_section (verbose : bool) (title : pystr)
    (items : list CommitInfo) : pystr :=
  join [LF] ((py "## " ++ title ++ py "\n") :: map (render_item verbose) items).

(** The loop over [CATEGORY_DISPLAY] that fills [changelog_parts]. *)
Fixpoint render_sections (verbose : bool)
    (categories : gmap pystr (list CommitInfo))
    (display : list (pystr * pystr)) : res (list pystr) :=
  match display with
  | [] => mret []
  | (key, title) :: rest =>
    items ← dict_get categories key;
    parts ← render_sections verbose categories rest;
    mret (if truthy items then render_section verbose title items :: parts
          else parts)
  end.

Definition stats_footer (total_categorized : Z) (changed_files : list pystr)
    : pystr :=
  py "\n\n---\n\n**变更统计**: " ++ str_of_Z total_categorized ++
  py " 项变更，涉及 " ++ str_of_Z (len changed_files) ++ py " 个文件\n".

Definition details_block (diff_stat : pystr) : pystr :=
  py "\n<details>\n<summary>📈 文件变更详情</summary>\n\n```\n" ++ diff_stat ++
  py "\n```\n</details>\n".

Definition generate_basic_changelog (commits : list CommitInfo)
    (changed_files : list pystr) (diff_stat : pystr) (verbose : bool)
    : res pystr :=
  if negb (truthy commits) then mret (py "⚠️ No changes found\n")
  else
    categories ← classify_commits commits;
    let total_categorized := total_len categories in
    changelog_parts ← render_sections verbose categories CATEGORY_DISPLAY;
    let changelog := join (py "\n\n") changelog_parts in
    let changelog := changelog ++ stats_footer total_categorized changed_files in
    let changelog :=
      if truthy diff_stat then changelog ++ details_block diff_stat
      else changelog in
    mret changelog.

End Core.

(* ===================================================================== *)
(** * The outside world *)
(* ===================================================================== *)

(** A JSON value handed to [json.dumps]; a number is kept by the text
    that [json.dumps] prints for it. *)
#[local] Set Warnings "-register-all".
Inductive json :=
| JStr (s : pystr)
| JNum (repr : pystr)
| JList (items : list json)
| JDict (fields : list (pystr * json)).
#[local] Set Warnings "register-all".

(** The request built by [call_ai_api]: [urllib.request.Request(url,
    data=json.dumps(data).encode('utf-8'), headers=headers, method='POST')]. *)
Record http_request := {
  req_url : pystr;
  req_headers : list (pystr * pystr);
  req_data : json;
}.

(** What the [try] block of [call_ai_api] comes to, once the request is
    built: one of the exceptions it handles, or the value found in the
    parsed reply at [['candidates'][0]['content']['parts'][0]['text']]
    (for gemini) or [['choices'][0]['message']['content']].  The function
    is declared to return [Optional[str]]: the value is a string, or
    [None] for a JSON [null].  A reply that is not JSON, or that lacks the
    path, raises inside the [try] and is an [OtherException].  A reply
    that holds a value of another JSON type at the path is not
    represented. *)
Inductive http_outcome :=
| HTTPError (code : Z) (body : option pystr)
| URLError (reason : pystr)
| OtherException (text : pystr)
| Reply (content : option pystr).

(** The collaborators: the git executable run by [subprocess.run], the
    process environment, and the network. *)
Record World := {
  (** [(result.returncode == 0, stdout or stderr)], or [(False, str(e))] *)
  subprocess_run : pystr -> bool * pystr;
  (** [os.environ] *)
  environ : gmap pystr pystr;
  urlopen : http_request -> http_outcome;
}.

(** What a run does that is visible outside the returned value. *)
Inductive event :=
| Print (text : pystr)
| RunGit (cmd : pystr)
| UrlOpen (req : http_request).

(** A computation: the events in the order they happen, and the outcome. *)
Definition M (A : Type) : Type := list event * res A.

#[global] Instance M_ret : MRet M := fun A a => ([], Ok a).
#[global] Instance M_bind : MBind M := fun A B f m =>
  match m with
  | (evs, Ok a) => let '(evs', r) := f a in (evs ++ evs', r)
  | (evs, Raise e) => (evs, Raise e)
  end.

Definition emit (e : event) : M unit := ([e], Ok tt).
Definition print (text : pystr) : M unit := emit (Print text).
Definition lift {A} (r : res A) : M A := ([], r).

Fixpoint for_each {A} (l : list A) (body : A -> M unit) : M unit :=
  match l with
  | [] => mret tt
  | x :: r => body x;; for_each r body
  end.

Definition trace {A} (m : M A) : list event := m.1.
Definition outcome {A} (m : M A) : res A := m.2.

(** [s * n] *)
Definition str_mul (s : pystr) (n : nat) : pystr := concat (replicate n s).

(* ===================================================================== *)
(** * git.py *)
(* ===================================================================== *)

Section Git.
Variable w : World.

Definition run_git_command (cmd : pystr) : M (bool * pystr) :=
  emit (RunGit cmd);; mret (subprocess_run w cmd).

(** One line of [git log --pretty=format:'%H|%an|%ae|%ad|%s']. *)
Definition parse_commit_line (line : pystr) : option CommitInfo :=
  match split 124%N line with
  | p0 :: p1 :: p2 :: p3 :: p4 :: ps =>
    Some {| hash := p0; author := p1; email := p2; date := p3;
            message := join (py "|") (p4 :: ps) |}
  | _ => None
  end.

Definition get_git_commits (from_ref to_ref : pystr) : M (list CommitInfo) :=
  '(success, output) ← run_git_command
    (py "git log " ++ from_ref ++ py ".." ++ to_ref ++
     py " --pretty=format:'%H|%an|%ae|%ad|%s' --date=short");
  if negb success || negb (truthy (strip output)) then mret []
  else
    mret (omap (fun line => if truthy line then parse_commit_line line else None)
               (split LF (strip output))).

(** [os.path.basename] *)
Definition basename (filepath : pystr) : pystr :=
  List.last (split 47%N filepath) [].

(** [fnmatch.fnmatch(name, pat)] for a pattern made of [*] and of
    characters that stand for themselves, as are all of [IGNORE_PATTERNS]:
    [*] matches any run of characters. *)
Fixpoint fnmatch_pat (pat : pystr) (name : pystr) : bool :=
  match pat with
  | [] => negb (truthy name)
  | c :: pat' =>
    if char_eqb c 42%N then
      (fix star (name : pystr) : bool :=
         fnmatch_pat pat' name ||
         match name with
         | [] => false
         | _ :: name' => star name'
         end) name
    else
      match name with
      | [] => false
      | x :: name' => char_eqb x c && fnmatch_pat pat' name'
      end
  end.

Definition fnmatch (name pat : pystr) : bool := fnmatch_pat pat name.

Definition should_ignore_file (filepath : pystr) : bool :=
  let basename := basename filepath in
  existsb (fun pattern => fnmatch filepath pattern || fnmatch basename pattern)
          IGNORE_PATTERNS.

Definition get_git_diff_files (from_ref to_ref : pystr) (include_ignored : bool)
    : M (list pystr) :=
  '(success, output) ← run_git_command
    (py "git diff " ++ from_ref ++ py ".." ++ to_ref ++ py " --name-only");
  if negb success || negb (truthy (strip output)) then mret []
  else
    let files := split LF (strip output) in
    if include_ignored then mret files
    else mret (List.filter (fun f => negb (should_ignore_file f)) files).

(** [' '.join(f'"{f}"' for f in files)] *)
Definition files_arg (files : list pystr) : pystr :=
  join (py " ") (map (fun f => DQUOTE ++ f ++ DQUOTE) files).

Definition get_git_diff (from_ref to_ref : pystr) (files : list pystr)
    (max_lines : Z) : M pystr :=
  if negb (truthy files) then mret []
  else
    '(success, output) ← run_git_command
      (py "git diff " ++ from_ref ++ py ".." ++ to_ref ++ py " -- " ++
       files_arg files);
    '(success, output) ←
      (if negb success
       then run_git_command (py "git diff " ++ from_ref ++ py ".." ++ to_ref)
       else mret (success, output));
    if negb success then mret []
    else
      let lines := split LF output in
      if len lines >? max_lines then
        mret (join (py "\n") (slice_to max_lines lines) ++
              py "\n\n... (diff too long, truncated, total " ++
              str_of_Z (len lines) ++ py " lines) ...")
      else mret output.

Definition get_git_diff_stat (from_ref to_ref : pystr) (files : list pystr)
    : M pystr :=
  if negb (truthy files) then mret []
  else
    '(success, output) ← run_git_command
      (py "git diff " ++ from_ref ++ py ".." ++ to_ref ++ py " --stat -- " ++
       files_arg files);
    '(success, output) ←
      (if negb success
       then run_git_command
              (py "git diff " ++ from_ref ++ py ".." ++ to_ref ++ py " --stat")
       else mret (success, output));
    mret (if (success : bool) then output else []).

End Git.

(* ===================================================================== *)
(** * config.py *)
(* ===================================================================== *)

Record AIConfig := {
  base_url : pystr;
  api_key_env : pystr;
  model : pystr;
}.

Definition AI_CONFIGS : gmap pystr AIConfig :=
  list_to_map
    [ (py "gemini",
        {| base_url := py "https://generativelanguage.googleapis.com/v1beta/models/{model}:generateContent";
           api_key_env := py "GOOGLE_API_KEY";
           model := py "gemini-3-flash-preview" |});
      (py "openai",
        {| base_url := py "https://api.openai.com/v1/chat/completions";
           api_key_env := py "OPENAI_API_KEY";
           model := py "gpt-4o" |});
      (py "deepseek",
        {| base_url := py "https://api.deepseek.com/v1/chat/completions";
           api_key_env := py "DEEPSEEK_API_KEY";
           model := py "deepseek-chat" |}) ].

Definition get_ai_config (provider : pystr) : option AIConfig :=
  AI_CONFIGS !! provider.

(** The property [AIConfig.api_key]: [os.environ.get(self.api_key_env, "")]. *)
Definition api_key (w : World) (config : AIConfig) : pystr :=
  default [] (environ w !! api_key_env config).

(** [template.format(model=model)] for a template whose only replacement
    field is [{model}]; [skip] counts the characters of a field still to
    pass over. *)
Fixpoint format_model (skip : nat) (template model : pystr) : pystr :=
  match template with
  | [] => []
  | c :: r =>
    match skip with
    | S k => format_model k r model
    | O =>
      if startswith template (py "{model}")
      then model ++ format_model 6 r model
      else c :: format_model 0 r model
    end
  end.

(* ===================================================================== *)
(** * ai/base.py *)
(* ===================================================================== *)

Section AI.
(** [ai/prompts.py] is not part of the sources at hand: the system prompt
    is a parameter. *)
Variable AI_SYSTEM_PROMPT : pystr.
Variable w : World.

Definition gemini_request (config : AIConfig) (api_key prompt : pystr)
    : http_request :=
  {| req_url := format_model 0 (base_url config) (model config) ++
                py "?key=" ++ api_key;
     req_headers := [(py "Content-Type", py "application/json")];
     req_data :=
       JDict
         [ (py "contents",
             JList [JDict [(py "parts",
               JList [JDict [(py "text",
                 JStr (AI_SYSTEM_PROMPT ++ py "\n\n" ++ prompt))]])]]);
           (py "generationConfig",
             JDict [ (py "temperature", JNum DEFAULT_AI_TEMPERATURE);
                     (py "maxOutputTokens",
                       JNum (str_of_Z DEFAULT_AI_MAX_OUTPUT_TOKENS)) ]) ] |}.

Definition chat_request (config : AIConfig) (api_key prompt : pystr)
    : http_request :=
  {| req_url := base_url config;
     req_headers := [ (py "Content-Type", py "application/json");
                      (py "Authorization", py "Bearer " ++ api_key) ];
     req_data :=
       JDict
         [ (py "model", JStr (model config));
           (py "messages",
             JList [ JDict [(py "role", JStr (py "system"));
                            (py "content", JStr AI_SYSTEM_PROMPT)];
                     JDict [(py "role", JStr (py "user"));
                            (py "content", JStr prompt)] ]);
           (py "temperature", JNum DEFAULT_AI_TEMPERATURE);
           (py "max_tokens", JNum (str_of_Z DEFAULT_AI_MAX_OUTPUT_TOKENS)) ] |}.

Definition call_ai_api (prompt provider : pystr) : M (option pystr) :=
  match get_ai_config provider with
  | None =>
    print (py "❌ Unsupported AI provider: " ++ provider);;
    mret None
  | Some config =>
    let api_key := api_key w config in
    if negb (truthy api_key) then
      print (py "❌ API key not configured for " ++ provider);;
      print (py "   Please set the " ++ api_key_env config ++
             py " environment variable");;
      mret None
    else
      let req :=
        if bool_decide (provider = py "gemini")
        then gemini_request config api_key prompt
        else chat_request config api_key prompt in
      emit (UrlOpen req);;
      match urlopen w req with
      | Reply content => mret content
      | HTTPError code body =>
        print (py "❌ AI API request failed: HTTP " ++ str_of_Z code);;
        match body with
        | Some text => print (py "   Error details: " ++ slice_to 200 text)
        | None => mret tt
        end;;
        mret None
      | URLError reason =>
        print (py "❌ Network error: " ++ reason);;
        mret None
      | OtherException text =>
        print (py "❌ AI call exception: " ++ text);;
        mret None
      end
  end.

Definition commit_line (c : CommitInfo) : pystr :=
  py "- [" ++ slice_to 7 (hash c) ++ py "] " ++ message c ++ py " (by " ++
  author c ++ py ", " ++ date c ++ py ")".

(** The template of the prompt up to the diff, and after it. *)
Definition prompt_head (from_ref to_ref : pystr) (commits : list CommitInfo)
    (diff_stat : pystr) : pystr :=
  let commit_text := join (py "\n") (map commit_line commits) in
  py "请分析以下代码变更，生成版本更新摘要：\n\n## 版本信息\n从: " ++ from_ref ++
  py "\n到: " ++ to_ref ++
  py "\n\n## 提交记录 (" ++ str_of_Z (len commits) ++ py "个提交)\n" ++
  commit_text ++
  py "\n\n## 文件变更统计\n" ++ diff_stat ++
  py "\n\n## 代码差异 (Git Diff)\n```diff\n".

Definition prompt_tail : pystr :=
  py "\n```\n\n请根据以上信息，生成结构清晰的版本更新摘要。重点关注：\n1. 实际的功能变化（不要简单复述commit message）\n2. 用户可感知的改进\n3. 修复的问题\n4. 技术层面的优化\n\n注意合并相关的变更，使输出简洁有序。".

Definition build_ai_prompt (from_ref to_ref : pystr)
    (commits : list CommitInfo) (diff diff_stat : pystr) : pystr :=
  let diff_content :=
    if len diff >? DEFAULT_MAX_DIFF_CHARS
    then slice_to DEFAULT_MAX_DIFF_CHARS diff
    else diff in
  prompt_head from_ref to_ref commits diff_stat ++ diff_content ++ prompt_tail.

End AI.

(* ===================================================================== *)
(** * core.py: the pipeline *)
(* ===================================================================== *)

Section Pipeline.
Context {U : CaseMapping}.
Variable AI_SYSTEM_PROMPT : pystr.
Variable w : World.

Definition print_dry_run_info (commits : list CommitInfo)
    (diff diff_stat prompt : pystr) : M unit :=
  let separator := str_mul (py "=") 80 in
  let sub_separator := str_mul (py "-") 40 in
  print (py "\n" ++ separator);;
  print (py "🔍 [DRY-RUN Debug Mode] - AI API will not be called");;
  print separator;;
  print (py "\n" ++ sub_separator);;
  print (py "🚫 Ignored file patterns:");;
  print sub_separator;;
  for_each IGNORE_PATTERNS (fun pattern => print (py "  - " ++ pattern));;
  print (py "\n" ++ sub_separator);;
  print (py "📋 Raw Git commits:");;
  print sub_separator;;
  for_each commits (fun c =>
    print (py "  [" ++ slice_to 7 (hash c) ++ py "] " ++ date c ++ py " | " ++
           author c);;
    print (py "           " ++ message c));;
  print (py "\n" ++ sub_separator);;
  print (py "📊 Git Diff statistics:");;
  print sub_separator;;
  print diff_stat;;
  print (py "\n" ++ sub_separator);;
  print (py "📝 Git Diff content (first 100 lines):");;
  print sub_separator;;
  let diff_lines := split LF diff in
  for_each (slice_to 100 diff_lines) print;;
  (if len diff_lines >? 100
   then print (py "\n... (total " ++ str_of_Z (len diff_lines) ++
               py " lines, showing first 100) ...")
   else mret tt);;
  print (py "\n" ++ separator);;
  print (py "🤖 Full prompt to be sent to AI:");;
  print separator;;
  print (py "\n[System Prompt]:\n" ++ sub_separator);;
  print AI_SYSTEM_PROMPT;;
  print (py "\n[User Prompt]:\n" ++ sub_separator);;
  print prompt;;
  print (py "\n" ++ separator);;
  print (py "📏 Prompt stats: System=" ++ str_of_Z (len AI_SYSTEM_PROMPT) ++
         py " chars, User=" ++ str_of_Z (len prompt) ++ py " chars, Total=" ++
         str_of_Z (len AI_SYSTEM_PROMPT + len prompt) ++ py " chars");;
  print (separator ++ py "\n").

Definition DRY_RUN_SENTINEL : pystr := py "[DRY-RUN Mode - AI not called]".

Definition generate_ai_changelog (from_ref to_ref : pystr)
    (commits : list CommitInfo) (all_files : list pystr)
    (diff diff_stat provider : pystr) (dry_run : bool) : M (option pystr) :=
  if negb (truthy commits) then mret None
  else
    let prompt := build_ai_prompt from_ref to_ref commits diff diff_stat in
    if dry_run then
      let ignored_files := List.filter should_ignore_file all_files in
      print_dry_run_info commits diff diff_stat prompt;;
      (if truthy ignored_files then
         print (py "\n  Excluded " ++ str_of_Z (len ignored_files) ++
                py " files:");;
         for_each ignored_files (fun f => print (py "    × " ++ f))
       else mret tt);;
      mret (Some DRY_RUN_SENTINEL)
    else
      print (py "🤖 Using AI (" ++ provider ++
             py ") to analyze code changes...");;
      call_ai_api AI_SYSTEM_PROMPT w prompt provider.

(** The range header, and the date line added when there are commits:
    [commits[-1]] is the oldest commit and [commits[0]] the newest. *)
Definition range_header (from_ref to_ref : pystr) : pystr :=
  py "# 更新日志\n\n**" ++ from_ref ++ py " → " ++ to_ref ++ py "**\n\n".

Definition make_header (from_ref to_ref : pystr) (commits : list CommitInfo)
    : pystr :=
  let header := range_header from_ref to_ref in
  match commits with
  | [] => header
  | newest :: _ =>
    let first_date := date (List.last commits newest) in
    let last_date := date newest in
    let date_info :=
      if bool_decide (first_date = last_date)
      then py "📅 发布日期: " ++ last_date
      else py "📅 变更周期: " ++ first_date ++ py " ~ " ++ last_date in
    header ++ date_info ++ py "\n\n"
  end.

(** The statistics added to the AI content. *)
Definition ai_stats_footer (commits : list CommitInfo)
    (changed_files : list pystr) : pystr :=
  py "\n\n---\n\n**变更统计**: " ++ str_of_Z (len commits) ++
  py " 次提交，涉及 " ++ str_of_Z (len changed_files) ++ py " 个文件\n".

Definition DRY_RUN_BODY : pystr :=
  py "\n[DRY-RUN Mode - Debug output above, no content generated]\n".

Definition generate_changelog (from_ref to_ref : pystr) (use_ai : bool)
    (ai_provider : pystr) (verbose dry_run : bool) : M pystr :=
  print (py "📊 Analyzing version changes: " ++ from_ref ++ py " → " ++ to_ref);;
  commits ← get_git_commits w from_ref to_ref;
  if negb (truthy commits) then
    mret (py "# 更新日志\n\n**" ++ from_ref ++ py " → " ++ to_ref ++
          py "**\n\n⚠️ 未发现任何变更\n")
  else
    print (py "✅ Found " ++ str_of_Z (len commits) ++ py " commits");;
    all_files ← get_git_diff_files w from_ref to_ref true;
    let changed_files :=
      List.filter (fun f => negb (should_ignore_file f)) all_files in
    let ignored_count := len all_files - len changed_files in
    (if ignored_count >? 0
     then print (py "📁 " ++ str_of_Z (len changed_files) ++
                 py " file changes (" ++ str_of_Z ignored_count ++
                 py " files ignored)")
     else print (py "📁 " ++ str_of_Z (len changed_files) ++
                 py " file changes"));;
    diff ← get_git_diff w from_ref to_ref changed_files DEFAULT_MAX_DIFF_LINES;
    diff_stat ← get_git_diff_stat w from_ref to_ref changed_files;
    let header := make_header from_ref to_ref commits in
    if use_ai || dry_run then
      ai_content ← generate_ai_changelog from_ref to_ref commits all_files
                     diff diff_stat ai_provider dry_run;
      if dry_run then mret (header ++ DRY_RUN_BODY)
      else
        content ←
          (if truthy (default [] ai_content) then
             let content := default [] ai_content in
             mret (if truthy diff_stat
                   then content ++ ai_stats_footer commits changed_files ++
                        details_block diff_stat
                   else content)
           else
             print (py "⚠️ AI analysis failed, falling back to basic mode");;
             lift (generate_basic_changelog commits changed_files diff_stat
                     verbose));
        mret (header ++ content)
    else
      print (py "🔍 Classifying commits...");;
      content ← lift (generate_basic_changelog commits changed_files diff_stat
                        verbose);
      mret (header ++ content).

End Pipeline.

(* ===================================================================== *)
(** * notify.py *)
(* ===================================================================== *)

(** [len(s.encode('utf-8'))] *)
Definition utf8_len (s : pystr) : res Z :=
  match encode_utf8 s with
  | Some bs => Ok (len bs)
  | None => Raise UnicodeEncodeError
  end.

Definition TRUNCATION_NOTICE : pystr :=
  py "\n\n⚠️ 内容过长已截断，完整内容请查看控制台或文件输出".

(** The [while] loop of [truncate_content_for_wecom].  [fuel] bounds the
    number of tests of the loop condition; [None] is a run that has not
    left the loop within the bound. *)
Fixpoint truncate_loop (fuel : nat) (target_bytes : Z) (truncated : pystr)
    : option (res pystr) :=
  match fuel with
  | O => None
  | S fuel' =>
    match utf8_len truncated with
    | Raise e => Some (Raise e)
    | Ok n =>
      if n >? target_bytes
      then truncate_loop fuel' target_bytes
             (slice_to (len truncated - 100) truncated)
      else Some (Ok truncated)
    end
  end.

(** The cut at the last line feed, when it lies past the middle of what
    the loop has kept. *)
Definition cut_at_newline (truncated : pystr) : pystr :=
  let last_newline := rfind LF truncated in
  if last_newline >? len truncated / 2
  then slice_to last_newline truncated
  else truncated.

Definition truncate_content_for_wecom (fuel : nat) (content : pystr)
    (max_bytes : Z) : option (res pystr) :=
  match utf8_len content with
  | Raise e => Some (Raise e)
  | Ok n =>
    if n <=? max_bytes then Some (Ok content)
    else
      let target_bytes := max_bytes - 100 in
      match truncate_loop fuel target_bytes content with
      | None => None
      | Some (Raise e) => Some (Raise e)
      | Some (Ok truncated) =>
        Some (Ok (cut_at_newline truncated ++ TRUNCATION_NOTICE))
      end
  end.

(** The default of [max_bytes]. *)
Definition WECOM_MAX_BYTES : Z := 4096.

(* ===================================================================== *)
(** * Vocabulary of the properties *)
(* ===================================================================== *)

Section Vocabulary.
Context {U : CaseMapping}.

(** The keys of the classification, in display order. *)
Definition CATEGORIES : list pystr := CATEGORY_DISPLAY.*1.

(** [COMMIT_KEYWORDS[category]] *)
Definition keywords_of (category : pystr) : list pystr :=
  default [] (snd <$> List.find (fun p => bool_decide (p.1 = category))
                                COMMIT_KEYWORDS).

(** A commit that the classifier drops. *)
Definition skipped (commit : CommitInfo) : bool :=
  any_in SKIP_COMMIT_KEYWORDS (lower (message commit)).

(** The category a commit that is not dropped is filed under. *)
Definition category_of (commit : CommitInfo) : pystr :=
  default (py "others") (first_match COMMIT_KEYWORDS (lower (message commit))).

Definition in_category (category : pystr) (commit : CommitInfo) : bool :=
  negb (skipped commit) && bool_decide (category_of commit = category).

(** All the commits a classification holds. *)
Definition members (categories : gmap pystr (list CommitInfo))
    : list CommitInfo :=
  concat (map_to_list categories).*2.

End Vocabulary.

(** An event that reaches the AI completion service. *)
Definition is_ai_call (e : event) : bool :=
  match e with
  | UrlOpen _ => true
  | _ => false
  end.

(** A result of the orchestrator that the pipeline takes for content. *)
Definition usable (ai_content : option pystr) : bool :=
  truthy (default [] ai_content).

(** A run that makes no call to the AI completion service. *)
Definition no_ai_call {A} (m : M A) : Prop :=
  Forall (fun e => is_ai_call e = false) (trace m).

(** A run that makes no such call and returns. *)
Definition quiet {A} (m : M A) : Prop :=
  no_ai_call m /\ exists a, outcome m = Ok a.

(** The files of a range that are not ignored: the list [changed_files]
    of [generate_changelog]. *)
Definition kept_files (all_files : list pystr) : list pystr :=
  List.filter (fun f => negb (should_ignore_file f)) all_files.

(* ===================================================================== *)
(** * Concrete inputs *)
(* ===================================================================== *)

(** A commit with the given date and message. *)
Definition commit_of (d m : string) : CommitInfo :=
  {| hash := py "3f2a9c1d5e7b8a6f4c2d1e0f9a8b7c6d5e4f3a2b";
     author := py "dev";
     email := py "dev@example.org";
     date := py d;
     message := py m |}.

(** A commit that touches the style sheet and the readme. *)
Definition css_readme_commit : CommitInfo :=
  commit_of "2024-01-05" "css readme".

(** A repository in which the range holds two commits and two changed
    files, one of them the changelog. *)
Definition sample_diff : pystr :=
  py "diff --git a/src/app.py b/src/app.py\n-    return run(x)\n+    return run(x or [])\n".

Definition sample_diff_stat : pystr :=
  py " src/app.py | 2 +-\n 1 file changed, 1 insertion(+), 1 deletion(-)\n".

Definition sample_git (cmd : pystr) : bool * pystr :=
  if contains (py "git log ") cmd then
    (true, py "3f2a9c1d5e7b8a6f4c2d1e0f9a8b7c6d5e4f3a2b|dev|dev@example.org|2024-01-05|fix: crash on empty input\n9b8c7d6e5f4a3b2c1d0e9f8a7b6c5d4e3f2a1b0c|dev|dev@example.org|2024-01-01|feat: add export")
  else if contains (py "--name-only") cmd then
    (true, py "src/app.py\nCHANGELOG.md\n")
  else if contains (py "--stat") cmd then (true, sample_diff_stat)
  else (true, sample_diff).

Definition sample_commits : list CommitInfo :=
  [ {| hash := py "3f2a9c1d5e7b8a6f4c2d1e0f9a8b7c6d5e4f3a2b"; author := py "dev";
       email := py "dev@example.org"; date := py "2024-01-05";
       message := py "fix: crash on empty input" |};
    {| hash := py "9b8c7d6e5f4a3b2c1d0e9f8a7b6c5d4e3f2a1b0c"; author := py "dev";
       email := py "dev@example.org"; date := py "2024-01-01";
       message := py "feat: add export" |} ].

Definition sample_files : list pystr := [py "src/app.py"; py "CHANGELOG.md"].

(** A repository in which the range holds one commit, which changes the
    changelog only. *)
Definition changelog_only_git (cmd : pystr) : bool * pystr :=
  if contains (py "git log ") cmd then
    (true, py "3f2a9c1d5e7b8a6f4c2d1e0f9a8b7c6d5e4f3a2b|dev|dev@example.org|2024-01-05|docs: update changelog")
  else if contains (py "--name-only") cmd then
    (true, py "CHANGELOG.md\n")
  else (true, []).

Definition changelog_commit : CommitInfo :=
  commit_of "2024-01-05" "docs: update changelog".

Definition sample_summary : pystr := py "## Summary\n\nExport added, crash fixed.".

(** The AI service answers, and the key of gemini is set. *)
Definition world_ai_ok : World :=
  {| subprocess_run := sample_git;
     environ := {[ py "GOOGLE_API_KEY" := py "secret" ]};
     urlopen := fun _ => Reply (Some sample_summary) |}.

(** The same, with no key in the environment. *)
Definition world_no_key : World :=
  {| subprocess_run := sample_git;
     environ := ∅;
     urlopen := fun _ => Reply (Some sample_summary) |}.

(** The AI service answers, on the repository that changes the changelog
    only. *)
Definition world_changelog_only : World :=
  {| subprocess_run := changelog_only_git;
     environ := {[ py "GOOGLE_API_KEY" := py "secret" ]};
     urlopen := fun _ => Reply (Some sample_summary) |}.

(** A range without commits: [git log] prints nothing. *)
Definition world_empty_range : World :=
  {| subprocess_run := fun _ => (true, []);
     environ := {[ py "GOOGLE_API_KEY" := py "secret" ]};
     urlopen := fun _ => Reply (Some sample_summary) |}.

Definition sample_system_prompt : pystr := py "You write release notes.".

(** A diff of 50001 characters. *)
Definition long_diff : pystr := replicate (Z.to_nat 50001) 97%N.

(** A document of 5000 ASCII bytes: a hundred lines of 49 letters. *)
Definition doc5000 : pystr :=
  concat (replicate 100 (replicate 49 97%N ++ [LF])).

(* ===================================================================== *)
(** * config.py: the key of a provider *)
(* ===================================================================== *)

Definition get_api_key (w : World) (provider : pystr) : pystr :=
  match get_ai_config provider with
  | Some config => api_key w config
  | None => []
  end.

Definition validate_api_key (w : World) (provider : pystr) : bool :=
  truthy (get_api_key w provider).

(* ===================================================================== *)
(** * notify.py: the delivery *)
(* ===================================================================== *)

(** What the [try] block of [send_wecom_message] comes to, from the
    building of the request to the parsing of the reply: one of the
    exceptions it handles, or the parsed reply, a JSON object of which the
    function reads [errcode] and [errmsg]; a field is [None] when the
    reply lacks it.  The fields are typed as the service documents them,
    an integer and a string. *)
Inductive wecom_outcome :=
| WHTTPError (code : Z) (reason : pystr)
| WURLError (reason : pystr)
| WJSONDecodeError (text : pystr)
| WOtherException (text : pystr)
| WResult (errcode : option Z) (errmsg : option pystr).

Definition wecom_payload (content : pystr) : json :=
  JDict [ (py "msgtype", JStr (py "markdown"));
          (py "markdown", JDict [(py "content", JStr content)]) ].

(** The requests the [try] block sets out to send, in order, and the
    pair returned. *)
Definition send_wecom_message (post : http_request -> wecom_outcome)
    (webhook_url content : pystr) : list http_request * (bool * pystr) :=
  if negb (truthy webhook_url) then
    ([], (false, py "Webhook URL is not configured"))
  else
    let req :=
      {| req_url := webhook_url;
         req_headers := [(py "Content-Type", py "application/json")];
         req_data := wecom_payload content |} in
    ([req],
     match post req with
     | WResult errcode errmsg =>
       if bool_decide (errcode = Some 0)
       then (true, py "Message sent successfully")
       else (false, py "API Error: " ++ default (py "Unknown error") errmsg)
     | WHTTPError code reason =>
       (false, py "HTTP Error: " ++ str_of_Z code ++ py " - " ++ reason)
     | WURLError reason => (false, py "URL Error: " ++ reason)
     | WJSONDecodeError text => (false, py "JSON Parse Error: " ++ text)
     | WOtherException text => (false, py "Unexpected Error: " ++ text)
     end).

(** The truncation comes first: its exception, or its endless loop, is
    that of the call. *)
Definition send_changelog_to_wecom (fuel : nat)
    (post : http_request -> wecom_outcome) (webhook_url changelog : pystr)
    : option (res (list http_request * (bool * pystr))) :=
  match truncate_content_for_wecom fuel changelog WECOM_MAX_BYTES with
  | None => None
  | Some (Raise e) => Some (Raise e)
  | Some (Ok content) => Some (Ok (send_wecom_message post webhook_url content))
  end.

(* ===================================================================== *)
(** * cli.py: the .env file *)
(* ===================================================================== *)

(** [s.endswith(p)] *)
Definition endswith (s p : pystr) : bool := startswith (rev s) (rev p).

(** [s.partition(sep)] for a separator of one character: the text before
    its first occurrence, the separator, the text after; the whole text
    and two empty strings when it does not occur. *)
Fixpoint partition (sep : char) (s : pystr) : pystr * pystr * pystr :=
  match s with
  | [] => ([], [], [])
  | c :: r =>
    if char_eqb c sep then ([], [sep], r)
    else match partition sep r with
         | (before, [], _) => (s, [], [])
         | (before, found, after) => (c :: before, found, after)
         end
  end.

(** [s[i:j]] for [int]s [i] and [j]: negative indices count from the
    end, and both are clamped to the string. *)
Definition slice {A} (i j : Z) (s : list A) : list A :=
  let n := len s in
  let i' := Z.max 0 (Z.min n (if i <? 0 then i + n else i)) in
  let j' := Z.max 0 (Z.min n (if j <? 0 then j + n else j)) in
  firstn (Z.to_nat (j' - i')) (skipn (Z.to_nat i') s).

(** [os.environ[key] = value]: a NUL character in either raises
    [ValueError]; [None] stands for the exception. *)
Definition setenv (key value : pystr) (env : gmap pystr pystr)
    : option (gmap pystr pystr) :=
  if existsb (char_eqb 0%N) key || existsb (char_eqb 0%N) value then None
  else Some (<[key := value]> env).

(** The body of the loop of [load_env_file] on one line of the file. *)
Definition load_env_line (line : pystr) (env : gmap pystr pystr)
    : option (gmap pystr pystr) :=
  let line := strip line in
  if negb (truthy line) || startswith line (py "#") then Some env
  else if contains (py "=") line then
    let '(key, _, value) := partition 61%N line in
    let key := strip key in
    let value := strip value in
    let value :=
      if (startswith value DQUOTE && endswith value DQUOTE) ||
         (startswith value (py "'") && endswith value (py "'"))
      then slice 1 (-1) value
      else value in
    if truthy key && negb (bool_decide (is_Some (env !! key)))
    then setenv key value env
    else Some env
  else Some env.

(** The loop: an exception ends it, and is swallowed. *)
Fixpoint load_env_lines (lines : list pystr) (env : gmap pystr pystr)
    : gmap pystr pystr :=
  match lines with
  | [] => env
  | line :: rest =>
    match load_env_line line env with
    | Some env' => load_env_lines rest env'
    | None => env
    end
  end.

(** [file] holds the lines of the [.env] file, [None] when there is no
    such file; the result is [os.environ] after the call. *)
Definition load_env_file (file : option (list pystr))
    (env : gmap pystr pystr) : gmap pystr pystr :=
  match file with
  | None => env
  | Some lines => load_env_lines lines env
  end.

(* ===================================================================== *)
(** * More vocabulary *)
(* ===================================================================== *)

(** The number of events of a run that satisfy [p]. *)
Definition count_events {A} (p : event -> bool) (m : M A) : nat :=
  length (List.filter p (trace m)).

Definition is_git_call (e : event) : bool :=
  match e with
  | RunGit _ => true
  | _ => false
  end.

(** The line [git log --pretty=format:'%H|%an|%ae|%ad|%s'] prints for a
    commit. *)
Definition log_line (c : CommitInfo) : pystr :=
  hash c ++ py "|" ++ author c ++ py "|" ++ email c ++ py "|" ++ date c ++
  py "|" ++ message c.

(** A commit as git prints it: no field holds a line feed, the first
    four hold no bar, the hash begins with no white space and the
    message ends with none. *)
Definition printable (c : CommitInfo) : Prop :=
  (LF ∉ hash c) /\ (LF ∉ author c) /\ (LF ∉ email c) /\ (LF ∉ date c) /\
  (LF ∉ message c) /\
  (124%N ∉ hash c) /\ (124%N ∉ author c) /\ (124%N ∉ email c) /\
  (124%N ∉ date c) /\
  (exists x r, hash c = x :: r /\ isspace x = false) /\
  (exists r x, message c = r ++ [x] /\ isspace x = false).

(** A pattern character that stands for itself. *)
Definition plain (p : pystr) : Prop := Forall (fun c => c <> 42%N) p.

(** The section of the basic report for a category, [None] when no
    commit of the list is filed under it. *)
Definition section_of {U : CaseMapping} (verbose : bool)
    (commits : list CommitInfo) (kt : pystr * pystr) : option pystr :=
  let items := List.filter (in_category kt.1) commits in
  if truthy items then Some (render_section verbose kt.2 items) else None.

(** A name that the ignore patterns match: one of the three lock files,
    or [CHANGELOG], any text, [.md]. *)
Definition ignored_name (name : pystr) : Prop :=
  name ∈ [py "package-lock.json"; py "yarn.lock"; py "pnpm-lock.yaml"] \/
  exists x, name = py "CHANGELOG" ++ x ++ py ".md".

(** A run that returns and holds at most [n] events that satisfy [p]. *)
Definition within {A} (p : event -> bool) (n : nat) (m : M A) : Prop :=
  (count_events p m <= n)%nat /\ exists a, outcome m = Ok a.


(* ===================================================================== *)
(** * The model on small inputs *)
(* ===================================================================== *)

Example py_escape : py "fix: a\nb" = [102; 105; 120; 58; 32; 97; 10; 98]%N.
Proof. vm_compute. reflexivity. Qed.

Example py_utf8 : py "新增 ⚠️" = [26032; 22686; 32; 9888; 65039]%N.
Proof. vm_compute. reflexivity. Qed.

Example encode_literal :
  encode_utf8 (py "内容过长 ⚠️ 📈") = Some (bytes_of_string "内容过长 ⚠️ 📈").
Proof. vm_compute. reflexivity. Qed.

Example encode_surrogate : encode_utf8 [55357%N] = None.
Proof. vm_compute. reflexivity. Qed.

Example contains_empty : contains [] (py "abc") = true.
Proof. vm_compute. reflexivity. Qed.

Example contains_inner : contains (py "merge") (py "auto-merge of dev") = true.
Proof. vm_compute. reflexivity. Qed.

Example split_lines : split LF (py "a\n\nb") = [py "a"; []; py "b"].
Proof. vm_compute. reflexivity. Qed.

Example split_empty : split LF [] = [[]].
Proof. vm_compute. reflexivity. Qed.

Example strip_both : strip (py "  add x \n") = py "add x".
Proof. vm_compute. reflexivity. Qed.

Example rfind_last : rfind LF (py "a\nb\nc") = 3.
Proof. vm_compute. reflexivity. Qed.

Example rfind_absent : rfind LF (py "abc") = -1.
Proof. vm_compute. reflexivity. Qed.

Example slice_negative : slice_to (-1) (py "abc") = py "ab".
Proof. vm_compute. reflexivity. Qed.

Example slice_clamped : slice_to (-100) (py "abc") = [].
Proof. vm_compute. reflexivity. Qed.

Example join_two : join (py ", ") [py "a"; py "b"] = py "a, b".
Proof. vm_compute. reflexivity. Qed.

Example str_of_Z_4096 : str_of_Z 4096 = py "4096".
Proof. vm_compute. reflexivity. Qed.

Example ignore_changelog : should_ignore_file (py "docs/CHANGELOG-v2.md") = true.
Proof. vm_compute. reflexivity. Qed.

Example ignore_lock : should_ignore_file (py "web/yarn.lock") = true.
Proof. vm_compute. reflexivity. Qed.

Example keep_source : should_ignore_file (py "src/app.py") = false.
Proof. vm_compute. reflexivity. Qed.

Example format_model_url : format_model 0 (py "a/{model}:b") (py "m") = py "a/m:b".
Proof. vm_compute. reflexivity. Qed.

Example parse_line_with_bar :
  parse_commit_line (py "h|a|e|d|m|x") =
  Some {| hash := py "h"; author := py "a"; email := py "e"; date := py "d";
          message := py "m|x" |}.
Proof. vm_compute. reflexivity. Qed.

Example parse_short_line : parse_commit_line (py "h|a|e|d") = None.
Proof. vm_compute. reflexivity. Qed.

Example format_strips_one_prefix :
  format_commit_message (U := ascii_case) (py "FEAT: fix: login ") = py "Fix: login".
Proof. vm_compute. reflexivity. Qed.

Example sample_commits_read :
  get_git_commits world_ai_ok (py "v1.0") (py "v1.1") =
  ([RunGit (py "git log v1.0..v1.1 --pretty=format:'%H|%an|%ae|%ad|%s' --date=short")],
   Ok sample_commits).
Proof. vm_compute. reflexivity. Qed.

Example sample_basic_report :
  generate_basic_changelog (U := ascii_case) sample_commits [py "src/app.py"] []
    true =
  Ok (py "## ✨ 新功能\n\n- Add export (9b8c7d6)\n\n## 🐛 问题修复\n\n- Crash on empty input (3f2a9c1)\n\n---\n\n**变更统计**: 2 项变更，涉及 1 个文件\n").
Proof. vm_compute. reflexivity. Qed.
(* ===================================================================== *)
(** * Strings and lists *)
(* ===================================================================== *)

Lemma len_nonneg {A} (l : list A) : 0 <= len l.
Proof. unfold len. lia. Qed.

Lemma len_app {A} (l k : list A) : len (l ++ k) = len l + len k.
Proof. unfold len. rewrite length_app. lia. Qed.

Lemma truthy_true {A} (l : list A) : truthy l = true <-> l <> [].
Proof. destruct l; simpl; split; congruence. Qed.

(* ===================================================================== *)
(** * The classifier *)
(* ===================================================================== *)

Section ClassifierFacts.
Context {U : CaseMapping}.

Lemma CATEGORIES_NoDup : NoDup CATEGORIES.
Proof. apply (bool_decide_unpack _). vm_compute. exact I. Qed.

Lemma first_match_in table message category :
  first_match table message = Some category -> category ∈ table.*1.
Proof.
  induction table as [|[k kws] table IH]; simpl; [discriminate|].
  destruct (any_in kws message).
  - intros [= ->]. left.
  - intros H. right. auto.
Qed.

Lemma category_of_in commit : category_of commit ∈ CATEGORIES.
Proof.
  unfold category_of.
  destruct (first_match COMMIT_KEYWORDS (lower (message commit))) as [k|] eqn:E;
    simpl.
  - apply first_match_in in E. revert E.
    assert (H : Forall (fun k => k ∈ CATEGORIES) COMMIT_KEYWORDS.*1).
    { apply (bool_decide_unpack _). vm_compute. exact I. }
    rewrite Forall_forall in H. apply H.
  - apply (bool_decide_unpack _). vm_compute. exact I.
Qed.

Lemma empty_categories_fold (display : list (pystr * pystr))
    (d : gmap pystr (list CommitInfo)) (k : pystr) :
  fold_left (fun d kt => <[kt.1 := []]> d) display d !! k =
  if decide (k ∈ display.*1) then Some [] else d !! k.
Proof.
  revert d. induction display as [|[key title] display IH]; intros d; simpl.
  - done.
  - rewrite IH. destruct (decide (k ∈ display.*1)) as [H|H].
    + rewrite decide_True; [done | by right].
    + destruct (decide (k = key)) as [->|Hne].
      * rewrite lookup_insert_eq. rewrite decide_True; [done | by left].
      * rewrite lookup_insert_ne by done.
        rewrite decide_False; [done|]. intros Hin. inversion Hin; subst; done.
Qed.

Lemma empty_categories_lookup (k : pystr) :
  empty_categories !! k = if decide (k ∈ CATEGORIES) then Some [] else None.
Proof. unfold empty_categories. by rewrite empty_categories_fold, lookup_empty. Qed.

Lemma in_category_unique k commit :
  in_category k commit = true -> k = category_of commit.
Proof.
  unfold in_category. intros [_ H]%andb_true_iff.
  by apply bool_decide_eq_true in H.
Qed.

Lemma in_category_skipped k commit :
  skipped commit = true -> in_category k commit = false.
Proof. unfold in_category. by intros ->. Qed.

Lemma in_category_other k commit :
  category_of commit <> k -> in_category k commit = false.
Proof.
  unfold in_category. intros H. rewrite (bool_decide_eq_false_2 _ H).
  apply andb_false_r.
Qed.

Lemma in_category_own commit :
  skipped commit = false -> in_category (category_of commit) commit = true.
Proof.
  unfold in_category. intros ->. by rewrite bool_decide_eq_true_2.
Qed.

Lemma filter_one {A} (f : A -> bool) (x : A) :
  List.filter f [x] = if f x then [x] else [].
Proof. reflexivity. Qed.

Lemma fmap_app_nil {A} (o : option (list A)) :
  (fun items => items ++ []) <$> o = o.
Proof. destruct o; simpl; [by rewrite app_nil_r | done]. Qed.

Lemma classify_commit_spec categories commit :
  (forall k, k ∈ CATEGORIES -> is_Some (categories !! k)) ->
  exists categories',
    classify_commit categories commit = Ok categories' /\
    forall k, categories' !! k =
      (fun items => items ++ List.filter (in_category k) [commit]) <$> categories !! k.
Proof.
  intros Hdom. unfold classify_commit.
  destruct (any_in SKIP_COMMIT_KEYWORDS (lower (message commit))) eqn:Hskip.
  - exists categories. split; [done|]. intros k.
    rewrite filter_one, in_category_skipped by exact Hskip.
    by rewrite fmap_app_nil.
  - assert (Hgoal : exists categories',
        dict_append categories (category_of commit) commit = Ok categories' /\
        forall k, categories' !! k =
          (fun items => items ++ List.filter (in_category k) [commit])
            <$> categories !! k).
    { destruct (Hdom _ (category_of_in commit)) as [items Hitems].
      unfold dict_append, dict_get. rewrite Hitems.
      eexists. split; [reflexivity|]. intros k. rewrite filter_one.
      destruct (decide (category_of commit = k)) as [<-|Hne].
      - rewrite lookup_insert_eq, Hitems, in_category_own by exact Hskip.
        reflexivity.
      - rewrite lookup_insert_ne, in_category_other by done.
        by rewrite fmap_app_nil. }
    unfold category_of in Hgoal.
    destruct (first_match COMMIT_KEYWORDS (lower (message commit))); exact Hgoal.
Qed.

Lemma classify_loop_spec commits : forall categories,
  (forall k, k ∈ CATEGORIES -> is_Some (categories !! k)) ->
  exists categories',
    classify_loop commits categories = Ok categories' /\
    forall k, categories' !! k =
      (fun items => items ++ List.filter (in_category k) commits) <$> categories !! k.
Proof.
  induction commits as [|commit commits IH]; intros categories Hdom.
  - exists categories. split; [done|]. intros k.
    cbn [List.filter]. by rewrite fmap_app_nil.
  - destruct (classify_commit_spec categories commit Hdom) as (c1 & Hc1 & Hl1).
    destruct (IH c1) as (c2 & Hc2 & Hl2).
    { intros k Hk. rewrite Hl1. destruct (Hdom k Hk) as [x ->]. by eexists. }
    exists c2. split.
    + cbn [classify_loop]. rewrite Hc1. exact Hc2.
    + intros k. rewrite Hl2, Hl1. destruct (categories !! k); [|done].
      cbn [fmap option_fmap option_map]. f_equal. rewrite <- app_assoc. f_equal.
      symmetry. apply (List.filter_app _ [commit] commits).
Qed.

(** The classifier returns, and files under each key the commits of that
    category, in their order. *)
Lemma classify_commits_spec commits :
  exists categories,
    classify_commits commits = Ok categories /\
    forall k, categories !! k =
      if decide (k ∈ CATEGORIES)
      then Some (List.filter (in_category k) commits) else None.
Proof.
  destruct (classify_loop_spec commits empty_categories) as (c & Hc & Hl).
  { intros k Hk. rewrite empty_categories_lookup, decide_True by done. by eexists. }
  exists c. split; [exact Hc|]. intros k. rewrite Hl, empty_categories_lookup.
  case_decide; done.
Qed.

Lemma first_match_none table message :
  first_match table message = None <->
  forall category keywords,
    (category, keywords) ∈ table -> any_in keywords message = false.
Proof.
  induction table as [|[k kws] table IH]; cbn [first_match].
  - split; [|done]. intros _ c ks H. inversion H.
  - destruct (any_in kws message) eqn:E.
    + split; [discriminate|]. intros H.
      rewrite (H k kws) in E; [discriminate | left].
    + rewrite IH. split.
      * intros H c ks Hin. inversion Hin; subst; [done | by eapply H].
      * intros H c ks Hin. apply (H c). by right.
Qed.

Lemma concat_fmap_app {A B} (f g : A -> list B) (ks : list A) :
  concat ((fun k => f k ++ g k) <$> ks) ≡ₚ concat (f <$> ks) ++ concat (g <$> ks).
Proof.
  induction ks as [|k ks IH]; [done|].
  cbn [fmap list_fmap concat]. rewrite IH.
  rewrite <- !app_assoc. apply Permutation_app_head.
  rewrite !app_assoc. apply Permutation_app_tail. apply Permutation_app_comm.
Qed.

Lemma concat_pick (ks : list pystr) (commit : CommitInfo) :
  NoDup ks ->
  concat ((fun k => if in_category k commit then [commit] else []) <$> ks) =
  if negb (skipped commit) && bool_decide (category_of commit ∈ ks)
  then [commit] else [].
Proof.
  destruct (skipped commit) eqn:Hs.
  - intros _. cbn [negb andb]. induction ks as [|k ks IH]; [done|].
    cbn [fmap list_fmap concat]. by rewrite in_category_skipped.
  - cbn [negb andb].
    induction ks as [|k ks IH]; intros Hnd.
    + reflexivity.
    + inversion Hnd as [|? ? Hk Hnd']; subst.
      cbn [fmap list_fmap concat]. rewrite (IH Hnd').
      destruct (decide (category_of commit = k)) as [<-|Hne].
      * rewrite in_category_own by done.
        rewrite (bool_decide_eq_false_2 _ Hk).
        rewrite bool_decide_eq_true_2; [done | left].
      * rewrite in_category_other by done. cbn [app].
        apply (f_equal (fun b : bool => if b then [commit] else [])).
        apply bool_decide_ext. split; [by right|].
        intros H. inversion H; subst; done.
Qed.

(** The commits of all the categories, with the skipped ones, are the
    commits given. *)
Lemma partition_perm (commits : list CommitInfo) :
  concat ((fun k => List.filter (in_category k) commits) <$> CATEGORIES) ++
  List.filter skipped commits ≡ₚ commits.
Proof.
  induction commits as [|c commits IH].
  - cbn [List.filter]. rewrite app_nil_r.
    induction CATEGORIES as [|k ks IHk]; [done | exact IHk].
  - transitivity
      ((concat ((fun k => if in_category k c then [c] else []) <$> CATEGORIES) ++
        concat ((fun k => List.filter (in_category k) commits) <$> CATEGORIES)) ++
       List.filter skipped (c :: commits)).
    { apply Permutation_app_tail. rewrite <- concat_fmap_app.
      apply eq_subrelation; [typeclasses eauto|]. f_equal.
      apply list_fmap_ext. intros _ k _. cbn [List.filter].
      by destruct (in_category k c). }
    rewrite concat_pick by apply CATEGORIES_NoDup.
    rewrite (bool_decide_eq_true_2 _ (category_of_in c)), andb_true_r.
    cbn [List.filter]. destruct (skipped c); cbn [negb app].
    + rewrite <- Permutation_middle. by constructor.
    + by constructor.
Qed.

Lemma classify_commits_to_list commits categories :
  classify_commits commits = Ok categories ->
  map_to_list categories ≡ₚ
  (fun k => (k, List.filter (in_category k) commits)) <$> CATEGORIES.
Proof.
  intros Hc. destruct (classify_commits_spec commits) as (c & Hc' & Hl).
  rewrite Hc in Hc'. injection Hc' as <-.
  set (l := (fun k => (k, List.filter (in_category k) commits)) <$> CATEGORIES).
  assert (Hfst : l.*1 = CATEGORIES).
  { unfold l. rewrite <- list_fmap_compose. apply list_fmap_id. }
  assert (Hnd : NoDup l.*1) by (rewrite Hfst; apply CATEGORIES_NoDup).
  rewrite <- (map_to_list_to_map l Hnd).
  apply eq_subrelation; [typeclasses eauto|]. f_equal.
  apply map_eq. intros k. rewrite Hl. symmetry. case_decide as Hk.
  - apply elem_of_list_to_map; [done|].
    unfold l. apply list_elem_of_fmap. by exists k.
  - apply not_elem_of_list_to_map. by rewrite Hfst.
Qed.

Lemma classify_commits_members commits categories :
  classify_commits commits = Ok categories ->
  members categories ≡ₚ
  concat ((fun k => List.filter (in_category k) commits) <$> CATEGORIES).
Proof.
  intros Hc. unfold members.
  rewrite (classify_commits_to_list _ _ Hc).
  rewrite <- list_fmap_compose. done.
Qed.

Lemma total_len_members (categories : gmap pystr (list CommitInfo)) :
  total_len categories = len (members categories).
Proof.
  unfold total_len, members. rewrite map_fold_foldr.
  induction (map_to_list categories) as [|[k v] l IH]; [done|].
  cbn [foldr fmap list_fmap concat snd uncurry]. by rewrite len_app, IH.
Qed.

End ClassifierFacts.

(** C1.  Classification is a partition-or-drop.  For every list of commits
    the classifier returns a mapping in which: a commit whose lower-cased
    message contains a skip keyword is in no category; every other commit
    is in exactly one category, which is [others] when no keyword list
    matches; the members of all the categories together with the skipped
    commits are the commits given, each as often as it was given; and the
    total classified count is at most the number of commits given. *)
Theorem C1_classify_partition_or_drop {U : CaseMapping}
    (commits : list CommitInfo) :
  exists categories,
    classify_commits commits = Ok categories /\
    (forall c, c ∈ commits ->
       any_in SKIP_COMMIT_KEYWORDS (lower (message c)) = true ->
       forall k items, categories !! k = Some items -> c ∉ items) /\
    (forall c, c ∈ commits ->
       any_in SKIP_COMMIT_KEYWORDS (lower (message c)) = false ->
       exists k,
         (exists items, categories !! k = Some items /\ c ∈ items) /\
         (forall k' items', categories !! k' = Some items' -> c ∈ items' -> k' = k) /\
         ((forall category keywords,
             (category, keywords) ∈ COMMIT_KEYWORDS ->
             any_in keywords (lower (message c)) = false) ->
          k = py "others")) /\
    members categories ++ List.filter skipped commits ≡ₚ commits /\
    total_len categories <= len commits.
Proof.
  destruct (classify_commits_spec commits) as (categories & Hc & Hl).
  exists categories. split; [exact Hc|].
  assert (Hin : forall c k items,
            categories !! k = Some items -> c ∈ items ->
            in_category k c = true).
  { intros c k items Hk Hc'. rewrite Hl in Hk. case_decide; [|done].
    injection Hk as <-. apply list_elem_of_In, List.filter_In in Hc'. tauto. }
  assert (Hperm : members categories ++ List.filter skipped commits ≡ₚ commits).
  { rewrite (classify_commits_members _ _ Hc). apply partition_perm. }
  repeat split.
  - intros c _ Hskip k items Hk Hc'.
    pose proof (Hin c k items Hk Hc') as H.
    rewrite in_category_skipped in H; done.
  - intros c Hc' Hskip. exists (category_of c). repeat split.
    + exists (List.filter (in_category (category_of c)) commits). split.
      * rewrite Hl. by rewrite decide_True by apply category_of_in.
      * apply list_elem_of_In, List.filter_In. split.
        -- by apply list_elem_of_In.
        -- by apply in_category_own.
    + intros k' items' Hk' Hc''. apply in_category_unique. eauto.
    + intros Hnone. unfold category_of.
      by rewrite (proj2 (first_match_none _ _) Hnone).
  - exact Hperm.
  - rewrite total_len_members.
    apply Permutation_length in Hperm. rewrite length_app in Hperm.
    unfold len. lia.
Qed.

Lemma COMMIT_KEYWORDS_table :
  COMMIT_KEYWORDS =
  [ (py "new_features", keywords_of (py "new_features"));
    (py "bug_fixes", keywords_of (py "bug_fixes"));
    (py "performance", keywords_of (py "performance"));
    (py "refactoring", keywords_of (py "refactoring"));
    (py "documentation", keywords_of (py "documentation"));
    (py "styling", keywords_of (py "styling"));
    (py "configuration", keywords_of (py "configuration")) ].
Proof. vm_compute. reflexivity. Qed.

(** C4, as stated, fails: the commit "css readme" meets every condition
    of the claim, and the classifier files it under [documentation] and
    leaves [styling] empty. *)
Lemma C4_styling_before_documentation_fails :
  let c := css_readme_commit in
  let m := lower (CaseMapping := ascii_case) (message c) in
  any_in SKIP_COMMIT_KEYWORDS m = false /\
  any_in (keywords_of (py "styling")) m = true /\
  any_in (keywords_of (py "documentation")) m = true /\
  any_in (keywords_of (py "new_features")) m = false /\
  any_in (keywords_of (py "bug_fixes")) m = false /\
  any_in (keywords_of (py "performance")) m = false /\
  any_in (keywords_of (py "refactoring")) m = false /\
  any_in (keywords_of (py "configuration")) m = false /\
  exists categories,
    classify_commits (U := ascii_case) [c] = Ok categories /\
    categories !! py "styling" = Some [] /\
    categories !! py "documentation" = Some [c].
Proof.
  repeat (split; [vm_compute; reflexivity|]).
  destruct (classify_commits_spec (U := ascii_case) [css_readme_commit])
    as (categories & Hc & Hl).
  exists categories. split; [exact Hc|].
  rewrite !Hl. split; vm_compute; reflexivity.
Qed.

(** C4, amended.  The first-match order is the order in which
    [COMMIT_KEYWORDS] is declared: new_features, bug_fixes, performance,
    refactoring, documentation, styling, configuration.  A commit that is
    not skipped, matches a keyword of both the styling and the
    documentation list and none of new_features, bug_fixes, performance,
    refactoring and configuration, is filed under [documentation], and
    under no other category. *)
Theorem C4_first_match_follows_keyword_table {U : CaseMapping}
    (commits : list CommitInfo) (c : CommitInfo) :
  c ∈ commits ->
  any_in SKIP_COMMIT_KEYWORDS (lower (message c)) = false ->
  any_in (keywords_of (py "styling")) (lower (message c)) = true ->
  any_in (keywords_of (py "documentation")) (lower (message c)) = true ->
  any_in (keywords_of (py "new_features")) (lower (message c)) = false ->
  any_in (keywords_of (py "bug_fixes")) (lower (message c)) = false ->
  any_in (keywords_of (py "performance")) (lower (message c)) = false ->
  any_in (keywords_of (py "refactoring")) (lower (message c)) = false ->
  any_in (keywords_of (py "configuration")) (lower (message c)) = false ->
  COMMIT_KEYWORDS.*1 =
    [py "new_features"; py "bug_fixes"; py "performance"; py "refactoring";
     py "documentation"; py "styling"; py "configuration"] /\
  exists categories,
    classify_commits commits = Ok categories /\
    (exists items, categories !! py "documentation" = Some items /\ c ∈ items) /\
    (forall k items,
       categories !! k = Some items -> c ∈ items -> k = py "documentation").
Proof.
  intros Hin Hskip _ Hdoc Hnew Hbug Hperf Hrefac _.
  split; [vm_compute; reflexivity|].
  assert (Hcat : category_of c = py "documentation").
  { unfold category_of. rewrite COMMIT_KEYWORDS_table. cbn [first_match].
    by rewrite Hnew, Hbug, Hperf, Hrefac, Hdoc. }
  destruct (classify_commits_spec commits) as (categories & Hc & Hl).
  exists categories. split; [exact Hc|]. split.
  - exists (List.filter (in_category (py "documentation")) commits). split.
    + rewrite Hl. rewrite decide_True; [done|].
      rewrite <- Hcat. apply category_of_in.
    + apply list_elem_of_In, List.filter_In. split; [by apply list_elem_of_In|].
      rewrite <- Hcat. by apply in_category_own.
  - intros k items Hk Hc'. rewrite Hl in Hk. case_decide; [|done].
    injection Hk as <-. apply list_elem_of_In, List.filter_In in Hc'.
    rewrite <- Hcat. apply in_category_unique. tauto.
Qed.

(** The amended C4 on the commit "css readme". *)
Lemma C4_witness :
  exists categories,
    classify_commits (U := ascii_case) [css_readme_commit] = Ok categories /\
    (exists items,
       categories !! py "documentation" = Some items /\
       css_readme_commit ∈ items) /\
    (forall k items,
       categories !! k = Some items -> css_readme_commit ∈ items ->
       k = py "documentation").
Proof.
  refine (proj2 (C4_first_match_follows_keyword_table (U := ascii_case)
            [css_readme_commit] css_readme_commit _ _ _ _ _ _ _ _ _)).
  - left.
  - vm_compute; reflexivity.
  - vm_compute; reflexivity.
  - vm_compute; reflexivity.
  - vm_compute; reflexivity.
  - vm_compute; reflexivity.
  - vm_compute; reflexivity.
  - vm_compute; reflexivity.
  - vm_compute; reflexivity.
Defined.

(* ===================================================================== *)
(** * The formatter *)
(* ===================================================================== *)

Lemma strip_prefix_none {U : CaseMapping} (prefixes : list pystr) (m : pystr) :
  (forall prefix, prefix ∈ prefixes -> startswith (lower m) prefix = false) ->
  strip_prefix prefixes m = m.
Proof.
  induction prefixes as [|p prefixes IH]; intros H; cbn [strip_prefix]; [done|].
  rewrite (H p) by left. apply IH. intros q Hq. apply H. by right.
Qed.

(** C9.  Formatting is idempotent on a message that is free of prefixes
    and already capitalized: when the lower-cased message starts with none
    of [COMMIT_PREFIXES] and its first character is its own upper case,
    formatting the formatted message gives the formatted message. *)
Theorem C9_format_idempotent {U : CaseMapping} (m : pystr) :
  (forall prefix, prefix ∈ COMMIT_PREFIXES ->
     startswith (lower m) prefix = false) ->
  (forall c r, m = c :: r -> upper [c] = [c]) ->
  format_commit_message (format_commit_message m) = format_commit_message m.
Proof.
  intros Hfree Hup.
  assert (Hfix : format_commit_message m = m).
  { unfold format_commit_message. rewrite (strip_prefix_none _ _ Hfree).
    destruct m as [|c r]; [done|]. by rewrite (Hup c r). }
  by rewrite !Hfix.
Qed.

(** C9 on the message "Add dark mode". *)
Lemma C9_witness :
  format_commit_message (U := ascii_case)
    (format_commit_message (U := ascii_case) (py "Add dark mode")) =
  format_commit_message (U := ascii_case) (py "Add dark mode").
Proof.
  apply (C9_format_idempotent (U := ascii_case) (py "Add dark mode")).
  - intros prefix Hin. apply list_elem_of_In in Hin. vm_compute in Hin.
    repeat (destruct Hin as [<-|Hin]; [vm_compute; reflexivity|]).
    destruct Hin.
  - intros c r H. vm_compute in H. injection H as <- <-.
    vm_compute. reflexivity.
Defined.

(* ===================================================================== *)
(** * The basic report *)
(* ===================================================================== *)








(* ===================================================================== *)
(** * Runs *)
(* ===================================================================== *)

Section RunFacts.
Context {A B : Type}.

Lemma bind_outcome (m : M A) (f : A -> M B) (a : A) :
  outcome m = Ok a -> outcome (m ≫= f) = outcome (f a).
Proof.
  destruct m as [evs r]. cbn [outcome snd]. intros ->.
  unfold mbind, M_bind. by destruct (f a).
Qed.

Lemma bind_trace (m : M A) (f : A -> M B) (a : A) :
  outcome m = Ok a -> trace (m ≫= f) = trace m ++ trace (f a).
Proof.
  destruct m as [evs r]. cbn [outcome trace fst snd]. intros ->.
  unfold mbind, M_bind. by destruct (f a).
Qed.

Lemma bind_raise (m : M A) (f : A -> M B) (e : exn) :
  outcome m = Raise e -> m ≫= f = (trace m, Raise e).
Proof. destruct m as [evs r]. cbn [outcome trace fst snd]. by intros ->. Qed.

Lemma no_ai_bind (m : M A) (f : A -> M B) :
  no_ai_call m -> (forall a, outcome m = Ok a -> no_ai_call (f a)) ->
  no_ai_call (m ≫= f).
Proof.
  unfold no_ai_call. destruct m as [evs [a|e]]; intros Hm Hf.
  - rewrite (bind_trace _ _ a) by done. apply Forall_app.
    split; [done | by apply Hf].
  - by rewrite (bind_raise _ _ e).
Qed.

Lemma quiet_bind (m : M A) (f : A -> M B) :
  quiet m -> (forall a, quiet (f a)) -> quiet (m ≫= f).
Proof.
  intros [Hm [a Ha]] Hf. split.
  - apply no_ai_bind; [done|]. intros a' _. apply Hf.
  - destruct (Hf a) as [_ [b Hb]]. exists b. by rewrite (bind_outcome _ _ a).
Qed.

End RunFacts.

Lemma quiet_ret {A} (a : A) : quiet (mret a).
Proof. split; [constructor | by exists a]. Qed.

Lemma quiet_print (text : pystr) : quiet (print text).
Proof. split; [by repeat constructor | by exists tt]. Qed.

Lemma quiet_lift {A} (a : A) : quiet (lift (Ok a)).
Proof. split; [constructor | by exists a]. Qed.

Lemma quiet_run_git (w : World) (cmd : pystr) : quiet (run_git_command w cmd).
Proof. split; [by repeat constructor | by eexists]. Qed.

Lemma quiet_if {A} (b : bool) (m1 m2 : M A) :
  quiet m1 -> quiet m2 -> quiet (if b then m1 else m2).
Proof. by destruct b. Qed.

Lemma quiet_for_each {A} (l : list A) (body : A -> M unit) :
  (forall x, quiet (body x)) -> quiet (for_each l body).
Proof.
  intros H. induction l as [|x l IH]; cbn [for_each].
  - apply quiet_ret.
  - apply quiet_bind; [apply H | intros _; apply IH].
Qed.

Lemma quiet_unit (m : M unit) : quiet m -> outcome m = Ok tt.
Proof. intros [_ [[] H]]. exact H. Qed.

(** Steps through the binds of a run, leaving the calls it does not know. *)
Ltac quiet_steps :=
  repeat first
    [ apply quiet_ret | apply quiet_print | apply quiet_run_git
    | apply quiet_lift
    | apply quiet_for_each; intros ?
    | apply quiet_bind; [|intros ?]
    | apply quiet_if
    | match goal with |- quiet (let '(_, _) := ?p in _) => destruct p end
    | match goal with |- quiet (match ?p with (_, _) => _ end) => destruct p end ].

Section GitFacts.
Variable w : World.

Lemma quiet_get_git_commits from_ref to_ref :
  quiet (get_git_commits w from_ref to_ref).
Proof. unfold get_git_commits. quiet_steps. Qed.

Lemma quiet_get_git_diff_files from_ref to_ref include_ignored :
  quiet (get_git_diff_files w from_ref to_ref include_ignored).
Proof. unfold get_git_diff_files. quiet_steps. Qed.

Lemma quiet_get_git_diff from_ref to_ref files max_lines :
  quiet (get_git_diff w from_ref to_ref files max_lines).
Proof. unfold get_git_diff. quiet_steps. Qed.

Lemma quiet_get_git_diff_stat from_ref to_ref files :
  quiet (get_git_diff_stat w from_ref to_ref files).
Proof. unfold get_git_diff_stat. quiet_steps. Qed.

(** The commits are read by one call of git. *)
Lemma get_git_commits_trace from_ref to_ref :
  trace (get_git_commits w from_ref to_ref) =
  [RunGit (py "git log " ++ from_ref ++ py ".." ++ to_ref ++
           py " --pretty=format:'%H|%an|%ae|%ad|%s' --date=short")].
Proof.
  unfold get_git_commits, run_git_command.
  cbn [mbind M_bind emit mret M_ret app].
  destruct (subprocess_run w _) as [success output].
  by destruct (negb success || negb (truthy (strip output))).
Qed.

End GitFacts.

(* ===================================================================== *)
(** * The pipeline *)
(* ===================================================================== *)

Section PipelineFacts.
Context {U : CaseMapping}.
Variable AI_SYSTEM_PROMPT : pystr.

Lemma quiet_print_dry_run_info commits diff diff_stat prompt :
  quiet (print_dry_run_info AI_SYSTEM_PROMPT commits diff diff_stat prompt).
Proof. unfold print_dry_run_info. cbv zeta. quiet_steps. Qed.

(** In dry-run mode the orchestrator reports and returns its marker; it
    sends nothing. *)
Lemma generate_ai_changelog_dry_run w from_ref to_ref commits all_files
    diff diff_stat provider :
  commits <> [] ->
  no_ai_call (generate_ai_changelog AI_SYSTEM_PROMPT w from_ref to_ref commits
                all_files diff diff_stat provider true) /\
  outcome (generate_ai_changelog AI_SYSTEM_PROMPT w from_ref to_ref commits
             all_files diff diff_stat provider true) = Ok (Some DRY_RUN_SENTINEL).
Proof.
  intros Hne. unfold generate_ai_changelog.
  rewrite (proj2 (truthy_true commits) Hne). cbn [negb]. cbv zeta.
  set (info := print_dry_run_info _ _ _ _ _).
  set (excluded := if truthy _ then _ else _).
  assert (Hinfo : quiet info) by apply quiet_print_dry_run_info.
  assert (Hexcl : quiet excluded) by (unfold excluded; quiet_steps).
  split.
  - apply no_ai_bind; [apply Hinfo | intros _ _].
    apply no_ai_bind; [apply Hexcl | intros _ _]. constructor.
  - rewrite (bind_outcome _ _ tt) by apply quiet_unit, Hinfo.
    by rewrite (bind_outcome _ _ tt) by apply quiet_unit, Hexcl.
Qed.

(** The git functions see the world through [subprocess_run] only. *)
Lemma git_ext (w w' : World) :
  subprocess_run w' = subprocess_run w ->
  get_git_commits w' = get_git_commits w /\
  get_git_diff_files w' = get_git_diff_files w /\
  get_git_diff w' = get_git_diff w /\
  get_git_diff_stat w' = get_git_diff_stat w.
Proof.
  destruct w, w'. cbn [subprocess_run]. intros ->. done.
Qed.

Lemma render_sections_ok (verbose : bool) (categories : gmap pystr (list CommitInfo))
    (display : list (pystr * pystr)) :
  (forall k, k ∈ display.*1 -> is_Some (categories !! k)) ->
  exists parts, render_sections verbose categories display = Ok parts.
Proof.
  induction display as [|[key title] display IH]; intros H; [by eexists|].
  cbn [render_sections]. unfold dict_get.
  destruct (H key) as [items ->]; [left|].
  destruct IH as [parts ->]; [intros k Hk; apply H; by right|].
  by eexists.
Qed.

(** The basic report builder returns. *)
Lemma generate_basic_changelog_ok (commits : list CommitInfo)
    (changed_files : list pystr) (diff_stat : pystr) (verbose : bool) :
  exists body,
    generate_basic_changelog commits changed_files diff_stat verbose = Ok body.
Proof.
  unfold generate_basic_changelog. destruct (truthy commits); cbn [negb];
    [|by eexists].
  destruct (classify_commits_spec commits) as (categories & -> & Hl).
  cbn [mbind res_bind].
  destruct (render_sections_ok verbose categories CATEGORY_DISPLAY) as [parts ->].
  { intros k Hk. rewrite Hl, decide_True by exact Hk. by eexists. }
  by eexists.
Qed.

Section OneRun.
Variable w : World.
Variables from_ref to_ref : pystr.
Variables (commits : list CommitInfo) (all_files : list pystr).
Variables diff diff_stat : pystr.
Hypothesis Hcommits : outcome (get_git_commits w from_ref to_ref) = Ok commits.
Hypothesis Hne : commits <> [].
Hypothesis Hfiles :
  outcome (get_git_diff_files w from_ref to_ref true) = Ok all_files.
Hypothesis Hdiff :
  outcome (get_git_diff w from_ref to_ref (kept_files all_files)
             DEFAULT_MAX_DIFF_LINES) = Ok diff.
Hypothesis Hstat :
  outcome (get_git_diff_stat w from_ref to_ref (kept_files all_files))
  = Ok diff_stat.

(** The run up to the choice of the mode. *)
Lemma generate_changelog_dispatch use_ai provider verbose dry_run :
  outcome (generate_changelog AI_SYSTEM_PROMPT w from_ref to_ref use_ai provider
             verbose dry_run) =
  outcome
    (let changed_files := kept_files all_files in
     let header := make_header from_ref to_ref commits in
     if use_ai || dry_run then
       ai_content ← generate_ai_changelog AI_SYSTEM_PROMPT w from_ref to_ref
                      commits all_files diff diff_stat provider dry_run;
       if dry_run then mret (header ++ DRY_RUN_BODY)
       else
         content ←
           (if truthy (default [] ai_content) then
              let content := default [] ai_content in
              mret (if truthy diff_stat
                    then content ++ ai_stats_footer commits changed_files ++
                         details_block diff_stat
                    else content)
            else
              print (py "⚠️ AI analysis failed, falling back to basic mode");;
              lift (generate_basic_changelog commits changed_files diff_stat
                      verbose));
         mret (header ++ content)
     else
       print (py "🔍 Classifying commits...");;
       content ← lift (generate_basic_changelog commits changed_files diff_stat
                         verbose);
       mret (header ++ content)).
Proof.
  unfold generate_changelog.
  rewrite (bind_outcome _ _ tt) by reflexivity.
  rewrite (bind_outcome _ _ commits) by exact Hcommits.
  rewrite (proj2 (truthy_true commits) Hne). cbn [negb].
  rewrite (bind_outcome _ _ tt) by reflexivity.
  rewrite (bind_outcome _ _ all_files) by exact Hfiles.
  cbv zeta. fold (kept_files all_files).
  rewrite (bind_outcome _ _ tt) by (by destruct (_ >? 0)).
  rewrite (bind_outcome _ _ diff) by exact Hdiff.
  rewrite (bind_outcome _ _ diff_stat) by exact Hstat.
  reflexivity.
Qed.

(** In basic mode the document is the header and the basic report. *)
Lemma generate_changelog_basic provider verbose body :
  generate_basic_changelog commits (kept_files all_files) diff_stat verbose
  = Ok body ->
  outcome (generate_changelog AI_SYSTEM_PROMPT w from_ref to_ref false provider
             verbose false) = Ok (make_header from_ref to_ref commits ++ body).
Proof.
  intros Hbody. rewrite generate_changelog_dispatch. cbn [orb]. cbv zeta.
  rewrite (bind_outcome _ _ tt) by reflexivity.
  rewrite Hbody. reflexivity.
Qed.

(** In ai mode, when the orchestrator returns nothing usable, the
    document is the header and the basic report. *)
Lemma generate_changelog_fallback provider verbose ai_content body :
  outcome (generate_ai_changelog AI_SYSTEM_PROMPT w from_ref to_ref commits
             all_files diff diff_stat provider false) = Ok ai_content ->
  usable ai_content = false ->
  generate_basic_changelog commits (kept_files all_files) diff_stat verbose
  = Ok body ->
  outcome (generate_changelog AI_SYSTEM_PROMPT w from_ref to_ref true provider
             verbose false) = Ok (make_header from_ref to_ref commits ++ body).
Proof.
  intros Hai Huse Hbody. rewrite generate_changelog_dispatch. cbn [orb]. cbv zeta.
  rewrite (bind_outcome _ _ ai_content) by exact Hai.
  unfold usable in Huse. rewrite Huse.
  rewrite (bind_outcome _ _ body).
  - reflexivity.
  - rewrite (bind_outcome _ _ tt) by reflexivity. rewrite Hbody. reflexivity.
Qed.

(** In ai mode, when the orchestrator returns content, the document is
    the header and the content, with the statistics when the diff
    statistics are not empty. *)
Lemma generate_changelog_ai provider verbose content :
  outcome (generate_ai_changelog AI_SYSTEM_PROMPT w from_ref to_ref commits
             all_files diff diff_stat provider false) = Ok (Some content) ->
  content <> [] ->
  outcome (generate_changelog AI_SYSTEM_PROMPT w from_ref to_ref true provider
             verbose false) =
  Ok (make_header from_ref to_ref commits ++ content ++
      (if truthy diff_stat
       then ai_stats_footer commits (kept_files all_files) ++
            details_block diff_stat
       else [])).
Proof.
  intros Hai Hcontent. rewrite generate_changelog_dispatch. cbn [orb]. cbv zeta.
  rewrite (bind_outcome _ _ (Some content)) by exact Hai.
  cbn [from_option]. unfold id. rewrite (proj2 (truthy_true content) Hcontent).
  destruct (truthy diff_stat).
  - reflexivity.
  - by rewrite app_nil_r.
Qed.

(** In dry-run mode nothing is sent to the AI service, and the document
    is the header and the placeholder. *)
Lemma generate_changelog_dry_run use_ai provider verbose :
  no_ai_call (generate_changelog AI_SYSTEM_PROMPT w from_ref to_ref use_ai
                provider verbose true) /\
  outcome (generate_changelog AI_SYSTEM_PROMPT w from_ref to_ref use_ai provider
             verbose true) = Ok (make_header from_ref to_ref commits ++ DRY_RUN_BODY).
Proof.
  split.
  - unfold generate_changelog.
    apply no_ai_bind; [apply quiet_print | intros _ _].
    apply no_ai_bind; [apply quiet_get_git_commits | intros cs _].
    destruct cs as [|c cs]; cbn [truthy negb]; [constructor|].
    apply no_ai_bind; [apply quiet_print | intros _ _].
    apply no_ai_bind; [apply quiet_get_git_diff_files | intros fs _].
    cbv zeta.
    apply no_ai_bind; [apply quiet_if; apply quiet_print | intros _ _].
    apply no_ai_bind; [apply quiet_get_git_diff | intros d _].
    apply no_ai_bind; [apply quiet_get_git_diff_stat | intros ds _].
    rewrite orb_true_r.
    apply no_ai_bind; [|intros _ _; constructor].
    by apply generate_ai_changelog_dry_run.
  - rewrite generate_changelog_dispatch. rewrite orb_true_r. cbv zeta.
    rewrite (bind_outcome _ _ (Some DRY_RUN_SENTINEL)); [reflexivity|].
    by apply generate_ai_changelog_dry_run.
Qed.

End OneRun.

End PipelineFacts.

(** C7.  When git reports no commit for the range, the pipeline returns
    the range header followed by the "no changes" notice, and its whole
    run is the opening message and the one call of [git log]: no call for
    the changed files, the diff or the diff statistics, no message of a
    report builder, no call to the AI service. *)
Theorem C7_empty_range {U : CaseMapping} (AI_SYSTEM_PROMPT : pystr) (w : World)
    (from_ref to_ref : pystr) (use_ai : bool) (provider : pystr)
    (verbose dry_run : bool) :
  outcome (get_git_commits w from_ref to_ref) = Ok [] ->
  generate_changelog AI_SYSTEM_PROMPT w from_ref to_ref use_ai provider verbose
    dry_run =
  ([ Print (py "📊 Analyzing version changes: " ++ from_ref ++ py " → " ++ to_ref);
     RunGit (py "git log " ++ from_ref ++ py ".." ++ to_ref ++
             py " --pretty=format:'%H|%an|%ae|%ad|%s' --date=short") ],
   Ok (range_header from_ref to_ref ++ py "⚠️ 未发现任何变更\n")).
Proof.
  intros Hcommits. unfold generate_changelog.
  pose proof (get_git_commits_trace w from_ref to_ref) as Htrace.
  destruct (get_git_commits w from_ref to_ref) as [evs r].
  cbn [trace outcome fst snd] in Htrace, Hcommits. subst evs r.
  cbn [print emit mbind M_bind mret M_ret truthy negb app].
  replace (py "**\n\n⚠️ 未发现任何变更\n")
    with (py "**\n\n" ++ py "⚠️ 未发现任何变更\n") by (vm_compute; reflexivity).
  unfold range_header. rewrite <- !app_assoc. reflexivity.
Qed.

(** C7 on a repository whose range v1..v1 is empty. *)
Lemma C7_witness :
  generate_changelog (U := ascii_case) sample_system_prompt world_empty_range
    (py "v1") (py "v1") true (py "gemini") false false =
  ([ Print (py "📊 Analyzing version changes: v1 → v1");
     RunGit (py "git log v1..v1 --pretty=format:'%H|%an|%ae|%ad|%s' --date=short") ],
   Ok (py "# 更新日志\n\n**v1 → v1**\n\n⚠️ 未发现任何变更\n")).
Proof.
  rewrite (C7_empty_range (U := ascii_case) sample_system_prompt
             world_empty_range (py "v1") (py "v1") true (py "gemini") false false).
  - vm_compute. reflexivity.
  - vm_compute. reflexivity.
Defined.

(** C6.  In dry-run mode, on a range that holds commits, the pipeline
    sends nothing to the AI completion service, and the document is the
    header followed by the fixed placeholder, whatever the service would
    answer, whatever the environment holds and whichever provider is
    named: the document depends on the answers of git only. *)
Theorem C6_dry_run_placeholder {U : CaseMapping} (AI_SYSTEM_PROMPT : pystr)
    (w : World) (from_ref to_ref : pystr) (use_ai : bool) (provider : pystr)
    (verbose : bool) (commits : list CommitInfo) :
  outcome (get_git_commits w from_ref to_ref) = Ok commits ->
  commits <> [] ->
  no_ai_call (generate_changelog AI_SYSTEM_PROMPT w from_ref to_ref use_ai
                provider verbose true) /\
  outcome (generate_changelog AI_SYSTEM_PROMPT w from_ref to_ref use_ai provider
             verbose true) =
    Ok (make_header from_ref to_ref commits ++ DRY_RUN_BODY) /\
  forall (w' : World) (provider' : pystr),
    subprocess_run w' = subprocess_run w ->
    no_ai_call (generate_changelog AI_SYSTEM_PROMPT w' from_ref to_ref use_ai
                  provider' verbose true) /\
    outcome (generate_changelog AI_SYSTEM_PROMPT w' from_ref to_ref use_ai
               provider' verbose true) =
      Ok (make_header from_ref to_ref commits ++ DRY_RUN_BODY).
Proof.
  intros Hcommits Hne.
  assert (Hall : forall (w' : World) (provider' : pystr),
    subprocess_run w' = subprocess_run w ->
    no_ai_call (generate_changelog AI_SYSTEM_PROMPT w' from_ref to_ref use_ai
                  provider' verbose true) /\
    outcome (generate_changelog AI_SYSTEM_PROMPT w' from_ref to_ref use_ai
               provider' verbose true) =
      Ok (make_header from_ref to_ref commits ++ DRY_RUN_BODY)).
  { intros w' provider' Hw'.
    destruct (git_ext w w' Hw') as (Hc' & _).
    destruct (quiet_get_git_diff_files w' from_ref to_ref true)
      as [_ [all_files Hfiles]].
    destruct (quiet_get_git_diff w' from_ref to_ref (kept_files all_files)
                DEFAULT_MAX_DIFF_LINES) as [_ [diff Hdiff]].
    destruct (quiet_get_git_diff_stat w' from_ref to_ref (kept_files all_files))
      as [_ [diff_stat Hstat]].
    apply (generate_changelog_dry_run AI_SYSTEM_PROMPT w' from_ref to_ref
             commits all_files diff diff_stat); try assumption.
    by rewrite Hc'. }
  destruct (Hall w provider eq_refl) as [H1 H2]. auto.
Qed.

(** C6 on the sample repository, with a key set and a service that answers. *)
Lemma C6_witness :
  let doc := py "# 更新日志\n\n**v1.0 → v1.1**\n\n📅 变更周期: 2024-01-01 ~ 2024-01-05\n\n\n[DRY-RUN Mode - Debug output above, no content generated]\n" in
  no_ai_call (generate_changelog (U := ascii_case) sample_system_prompt
                world_ai_ok (py "v1.0") (py "v1.1") true (py "gemini") false true) /\
  outcome (generate_changelog (U := ascii_case) sample_system_prompt
             world_ai_ok (py "v1.0") (py "v1.1") true (py "gemini") false true)
  = Ok doc.
Proof.
  cbv zeta.
  destruct (C6_dry_run_placeholder (U := ascii_case) sample_system_prompt
              world_ai_ok (py "v1.0") (py "v1.1") true (py "gemini") false
              sample_commits) as (H1 & H2 & _).
  - vm_compute. reflexivity.
  - discriminate.
  - split; [exact H1|]. rewrite H2. vm_compute. reflexivity.
Defined.

(** The causes of a failure of the AI call: an unknown provider, no key
    in the environment, an exception raised by the request, or a reply
    that holds no text.  In each case the call returns nothing usable. *)
Lemma call_ai_api_no_result (AI_SYSTEM_PROMPT : pystr) (w : World)
    (prompt provider : pystr) :
  get_ai_config provider = None \/
  (exists config, get_ai_config provider = Some config /\ api_key w config = []) \/
  (forall req, match urlopen w req with
               | Reply (Some (_ :: _)) => False
               | _ => True
               end) ->
  exists r, outcome (call_ai_api AI_SYSTEM_PROMPT w prompt provider) = Ok r /\
            usable r = false.
Proof.
  unfold call_ai_api. intros [Hcfg | [(config & Hcfg & Hkey) | Hnet]].
  - rewrite Hcfg. by exists None.
  - rewrite Hcfg, Hkey. by exists None.
  - destruct (get_ai_config provider) as [config|]; [|by exists None].
    destruct (truthy (api_key w config)); cbn [negb]; [|by exists None].
    cbv zeta. set (req := if bool_decide _ then _ else _).
    rewrite (bind_outcome _ _ tt) by reflexivity.
    specialize (Hnet req).
    destruct (urlopen w req) as [code [body|] | reason | text | [[|c r]|]];
      try contradiction; by eexists.
Qed.

(** The orchestrator, out of dry-run mode and given commits, returns what
    the AI call returns. *)
Lemma generate_ai_changelog_no_result {U : CaseMapping}
    (AI_SYSTEM_PROMPT : pystr) (w : World) (from_ref to_ref : pystr)
    (commits : list CommitInfo) (all_files : list pystr)
    (diff diff_stat provider : pystr) :
  commits <> [] ->
  get_ai_config provider = None \/
  (exists config, get_ai_config provider = Some config /\ api_key w config = []) \/
  (forall req, match urlopen w req with
               | Reply (Some (_ :: _)) => False
               | _ => True
               end) ->
  exists r,
    outcome (generate_ai_changelog AI_SYSTEM_PROMPT w from_ref to_ref commits
               all_files diff diff_stat provider false) = Ok r /\
    usable r = false.
Proof.
  intros Hne Hcause. unfold generate_ai_changelog.
  rewrite (proj2 (truthy_true commits) Hne). cbn [negb]. cbv zeta.
  rewrite (bind_outcome _ _ tt) by reflexivity.
  by apply call_ai_api_no_result.
Qed.

(** C2.  Silent fallback.  In ai mode, on a range that holds commits,
    when the orchestrator returns nothing usable ([None] or the empty
    string), the pipeline returns the very document of basic mode: the
    same header followed by the basic report with its statistics footer.
    Nothing of the failure is in it: in any world with the same answers
    of git where the orchestrator returns nothing usable, whatever the
    cause and the text of its error, ai mode returns this same document. *)
Theorem C2_ai_failure_falls_back_to_basic {U : CaseMapping}
    (AI_SYSTEM_PROMPT : pystr) (w : World) (from_ref to_ref provider : pystr)
    (verbose : bool) (commits : list CommitInfo) (all_files : list pystr)
    (diff diff_stat : pystr) (ai_content : option pystr) :
  outcome (get_git_commits w from_ref to_ref) = Ok commits ->
  commits <> [] ->
  outcome (get_git_diff_files w from_ref to_ref true) = Ok all_files ->
  outcome (get_git_diff w from_ref to_ref (kept_files all_files)
             DEFAULT_MAX_DIFF_LINES) = Ok diff ->
  outcome (get_git_diff_stat w from_ref to_ref (kept_files all_files))
    = Ok diff_stat ->
  outcome (generate_ai_changelog AI_SYSTEM_PROMPT w from_ref to_ref commits
             all_files diff diff_stat provider false) = Ok ai_content ->
  usable ai_content = false ->
  exists body,
    generate_basic_changelog commits (kept_files all_files) diff_stat verbose
      = Ok body /\
    outcome (generate_changelog AI_SYSTEM_PROMPT w from_ref to_ref true provider
               verbose false) = Ok (make_header from_ref to_ref commits ++ body) /\
    outcome (generate_changelog AI_SYSTEM_PROMPT w from_ref to_ref false provider
               verbose false) = Ok (make_header from_ref to_ref commits ++ body) /\
    forall (w' : World) (provider' : pystr) (ai_content' : option pystr),
      subprocess_run w' = subprocess_run w ->
      outcome (generate_ai_changelog AI_SYSTEM_PROMPT w' from_ref to_ref commits
                 all_files diff diff_stat provider' false) = Ok ai_content' ->
      usable ai_content' = false ->
      outcome (generate_changelog AI_SYSTEM_PROMPT w' from_ref to_ref true
                 provider' verbose false)
      = Ok (make_header from_ref to_ref commits ++ body).
Proof.
  intros Hcommits Hne Hfiles Hdiff Hstat Hai Huse.
  destruct (generate_basic_changelog_ok commits (kept_files all_files) diff_stat
              verbose) as [body Hbody].
  exists body. split; [exact Hbody|]. split; [|split].
  - by apply (generate_changelog_fallback AI_SYSTEM_PROMPT w from_ref to_ref
                commits all_files diff diff_stat) with (ai_content := ai_content).
  - by apply (generate_changelog_basic AI_SYSTEM_PROMPT w from_ref to_ref
                commits all_files diff diff_stat).
  - intros w' provider' ai_content' Hw' Hai' Huse'.
    destruct (git_ext w w' Hw') as (Hc & Hf & Hd & Hs).
    apply (generate_changelog_fallback AI_SYSTEM_PROMPT w' from_ref to_ref
             commits all_files diff diff_stat)
      with (ai_content := ai_content'); try assumption.
    + by rewrite Hc.
    + by rewrite Hf.
    + by rewrite Hd.
    + by rewrite Hs.
Qed.

(** C2 on the sample repository, with no key in the environment. *)
Lemma C2_witness :
  exists doc,
    outcome (generate_changelog (U := ascii_case) sample_system_prompt
               world_no_key (py "v1.0") (py "v1.1") true (py "gemini") false false)
    = Ok doc /\
    outcome (generate_changelog (U := ascii_case) sample_system_prompt
               world_no_key (py "v1.0") (py "v1.1") false (py "gemini") false false)
    = Ok doc.
Proof.
  destruct (C2_ai_failure_falls_back_to_basic (U := ascii_case)
              sample_system_prompt world_no_key (py "v1.0") (py "v1.1")
              (py "gemini") false sample_commits sample_files sample_diff
              sample_diff_stat None) as (body & _ & Hai & Hbasic & _).
  - vm_compute. reflexivity.
  - discriminate.
  - vm_compute. reflexivity.
  - vm_compute. reflexivity.
  - vm_compute. reflexivity.
  - vm_compute. reflexivity.
  - reflexivity.
  - eexists. split; [exact Hai | exact Hbasic].
Defined.

(** C3, as stated, fails: the range holds one commit, which changes the
    changelog only, so that no file is left after the ignore filter and
    the diff statistics are empty; the AI service returns a summary, and
    the document is the header and the summary, with no statistics
    footer. *)
Lemma C3_no_footer_without_diff_stat :
  let w := world_changelog_only in
  let run := generate_changelog (U := ascii_case) sample_system_prompt w
               (py "v1.0") (py "v1.1") true (py "gemini") false false in
  outcome (get_git_commits w (py "v1.0") (py "v1.1")) = Ok [changelog_commit] /\
  outcome (get_git_diff_files w (py "v1.0") (py "v1.1") true)
    = Ok [py "CHANGELOG.md"] /\
  kept_files [py "CHANGELOG.md"] = [] /\
  outcome (get_git_diff_stat w (py "v1.0") (py "v1.1") []) = Ok [] /\
  outcome (generate_ai_changelog sample_system_prompt w (py "v1.0") (py "v1.1")
             [changelog_commit] [py "CHANGELOG.md"] [] [] (py "gemini") false)
    = Ok (Some sample_summary) /\
  sample_summary <> [] /\
  outcome run
    = Ok (make_header (py "v1.0") (py "v1.1") [changelog_commit] ++ sample_summary) /\
  outcome run
    <> Ok (make_header (py "v1.0") (py "v1.1") [changelog_commit] ++
           sample_summary ++ ai_stats_footer [changelog_commit] []).
Proof.
  cbv zeta. repeat split; try (vm_compute; reflexivity); vm_compute; discriminate.
Qed.

(** C3, amended.  In ai mode, on a range that holds commits, when the
    orchestrator returns a non-empty result the body of the document is
    that result, followed, when the diff statistics are not empty, by the
    statistics footer, which reports the number of commits and the number
    of changed files, and by the collapsible block of the diff
    statistics; when the diff statistics are empty the body is the result
    alone. *)
Theorem C3_ai_result_and_footer {U : CaseMapping} (AI_SYSTEM_PROMPT : pystr)
    (w : World) (from_ref to_ref provider : pystr) (verbose : bool)
    (commits : list CommitInfo) (all_files : list pystr)
    (diff diff_stat content : pystr) :
  outcome (get_git_commits w from_ref to_ref) = Ok commits ->
  commits <> [] ->
  outcome (get_git_diff_files w from_ref to_ref true) = Ok all_files ->
  outcome (get_git_diff w from_ref to_ref (kept_files all_files)
             DEFAULT_MAX_DIFF_LINES) = Ok diff ->
  outcome (get_git_diff_stat w from_ref to_ref (kept_files all_files))
    = Ok diff_stat ->
  outcome (generate_ai_changelog AI_SYSTEM_PROMPT w from_ref to_ref commits
             all_files diff diff_stat provider false) = Ok (Some content) ->
  content <> [] ->
  outcome (generate_changelog AI_SYSTEM_PROMPT w from_ref to_ref true provider
             verbose false) =
  Ok (make_header from_ref to_ref commits ++ content ++
      (if truthy diff_stat
       then py "\n\n---\n\n**变更统计**: " ++ str_of_Z (len commits) ++
            py " 次提交，涉及 " ++ str_of_Z (len (kept_files all_files)) ++
            py " 个文件\n" ++ details_block diff_stat
       else [])).
Proof.
  intros Hcommits Hne Hfiles Hdiff Hstat Hai Hcontent.
  rewrite (generate_changelog_ai AI_SYSTEM_PROMPT w from_ref to_ref commits
             all_files diff diff_stat Hcommits Hne Hfiles Hdiff Hstat provider
             verbose content Hai Hcontent).
  unfold ai_stats_footer. by rewrite <- !app_assoc.
Qed.

(** The amended C3 on the sample repository, whose diff statistics are not
    empty. *)
Lemma C3_witness :
  outcome (generate_changelog (U := ascii_case) sample_system_prompt world_ai_ok
             (py "v1.0") (py "v1.1") true (py "gemini") false false) =
  Ok (make_header (py "v1.0") (py "v1.1") sample_commits ++ sample_summary ++
      py "\n\n---\n\n**变更统计**: 2 次提交，涉及 1 个文件\n" ++
      details_block sample_diff_stat).
Proof.
  rewrite (C3_ai_result_and_footer (U := ascii_case) sample_system_prompt
             world_ai_ok (py "v1.0") (py "v1.1") (py "gemini") false
             sample_commits sample_files sample_diff sample_diff_stat
             sample_summary).
  - vm_compute. reflexivity.
  - vm_compute. reflexivity.
  - discriminate.
  - vm_compute. reflexivity.
  - vm_compute. reflexivity.
  - vm_compute. reflexivity.
  - vm_compute. reflexivity.
  - vm_compute. discriminate.
Defined.

(* ===================================================================== *)
(** * The prompt *)
(* ===================================================================== *)

Lemma slice_to_nonneg {A} (k : Z) (s : list A) :
  0 <= k -> slice_to k s = firstn (Z.to_nat k) s.
Proof. intros H. unfold slice_to. by rewrite (proj2 (Z.ltb_ge k 0) H). Qed.

Lemma len_slice_to {A} (k : Z) (s : list A) :
  0 <= k <= len s -> len (slice_to k s) = k.
Proof.
  intros H. rewrite slice_to_nonneg by lia. unfold len in *.
  rewrite length_firstn. lia.
Qed.

(** A diff over the budget is cut to the budget, and the closing text of
    the template follows the cut. *)
Lemma build_ai_prompt_cut (from_ref to_ref : pystr) (commits : list CommitInfo)
    (diff diff_stat : pystr) :
  len diff > DEFAULT_MAX_DIFF_CHARS ->
  build_ai_prompt from_ref to_ref commits diff diff_stat =
  prompt_head from_ref to_ref commits diff_stat ++
  slice_to DEFAULT_MAX_DIFF_CHARS diff ++ prompt_tail.
Proof.
  intros H. unfold build_ai_prompt. cbv zeta.
  by rewrite (proj2 (Z.gtb_gt _ _) H).
Qed.

Lemma build_ai_prompt_whole (from_ref to_ref : pystr) (commits : list CommitInfo)
    (diff diff_stat : pystr) :
  len diff <= DEFAULT_MAX_DIFF_CHARS ->
  build_ai_prompt from_ref to_ref commits diff diff_stat =
  prompt_head from_ref to_ref commits diff_stat ++ diff ++ prompt_tail.
Proof.
  intros H. unfold build_ai_prompt. cbv zeta.
  destruct (len diff >? DEFAULT_MAX_DIFF_CHARS) eqn:E; [|done].
  apply Z.gtb_gt in E. lia.
Qed.

Lemma long_diff_len : len long_diff = 50001.
Proof. unfold long_diff, len. rewrite length_replicate. by rewrite Z2Nat.id. Qed.

(** C5, as stated, fails: for a diff of 50001 characters no text stands
    in the prompt between the first 50000 characters of the diff and the
    closing text of the template. *)
Lemma C5_no_truncation_notice :
  len long_diff > DEFAULT_MAX_DIFF_CHARS /\
  ~ exists notice : pystr,
      notice <> [] /\
      build_ai_prompt (py "v1.0") (py "v1.1") sample_commits long_diff
        sample_diff_stat =
      prompt_head (py "v1.0") (py "v1.1") sample_commits sample_diff_stat ++
      slice_to DEFAULT_MAX_DIFF_CHARS long_diff ++ notice ++ prompt_tail.
Proof.
  assert (Hlen : len long_diff > DEFAULT_MAX_DIFF_CHARS).
  { rewrite long_diff_len. unfold DEFAULT_MAX_DIFF_CHARS. lia. }
  split; [exact Hlen|]. intros (notice & Hne & H).
  rewrite build_ai_prompt_cut in H by exact Hlen.
  do 2 apply app_inv_head in H.
  apply (f_equal (@length char)) in H. rewrite length_app in H.
  destruct notice as [|c notice]; [congruence|].
  rewrite length_cons in H. lia.
Qed.

(** C5, amended.  For every diff longer than 50000 characters the prompt
    embeds the first 50000 characters of the diff and nothing of the
    rest, and never fails; no truncation notice is added: the cut diff is
    followed at once by the closing text of the template, and the prompt
    is the one built for the cut diff as a diff of its own. *)
Theorem C5_prompt_diff_hard_cutoff (from_ref to_ref : pystr)
    (commits : list CommitInfo) (diff diff_stat : pystr) :
  len diff > DEFAULT_MAX_DIFF_CHARS ->
  build_ai_prompt from_ref to_ref commits diff diff_stat =
    prompt_head from_ref to_ref commits diff_stat ++
    slice_to DEFAULT_MAX_DIFF_CHARS diff ++ prompt_tail /\
  len (slice_to DEFAULT_MAX_DIFF_CHARS diff) = 50000 /\
  (exists rest, rest <> [] /\ diff = slice_to DEFAULT_MAX_DIFF_CHARS diff ++ rest) /\
  build_ai_prompt from_ref to_ref commits diff diff_stat =
    build_ai_prompt from_ref to_ref commits
      (slice_to DEFAULT_MAX_DIFF_CHARS diff) diff_stat.
Proof.
  intros H.
  assert (Hkept : len (slice_to DEFAULT_MAX_DIFF_CHARS diff) = 50000).
  { apply len_slice_to. unfold DEFAULT_MAX_DIFF_CHARS in *. lia. }
  split; [by apply build_ai_prompt_cut|]. split; [exact Hkept|]. split.
  - exists (skipn (Z.to_nat DEFAULT_MAX_DIFF_CHARS) diff). split.
    + intros Hnil. apply (f_equal (@length char)) in Hnil.
      rewrite length_skipn in Hnil. cbn [length] in Hnil.
      unfold len, DEFAULT_MAX_DIFF_CHARS in *. lia.
    + rewrite slice_to_nonneg by (unfold DEFAULT_MAX_DIFF_CHARS; lia).
      by rewrite firstn_skipn.
  - rewrite build_ai_prompt_cut by exact H.
    rewrite build_ai_prompt_whole; [done|].
    rewrite Hkept. unfold DEFAULT_MAX_DIFF_CHARS. lia.
Qed.

(** The amended C5 on a diff of 50001 characters. *)
Lemma C5_witness :
  build_ai_prompt (py "v1.0") (py "v1.1") sample_commits long_diff
    sample_diff_stat =
  prompt_head (py "v1.0") (py "v1.1") sample_commits sample_diff_stat ++
  slice_to DEFAULT_MAX_DIFF_CHARS long_diff ++ prompt_tail.
Proof.
  refine (proj1 (C5_prompt_diff_hard_cutoff (py "v1.0") (py "v1.1")
                   sample_commits long_diff sample_diff_stat _)).
  rewrite long_diff_len. unfold DEFAULT_MAX_DIFF_CHARS. lia.
Defined.

(* ===================================================================== *)
(** * The webhook truncation *)
(* ===================================================================== *)

Lemma utf8_encode_char_length (c : char) (bs : list N) :
  utf8_encode_char c = Some bs -> 1 <= len bs <= 4.
Proof.
  unfold utf8_encode_char, len.
  repeat match goal with |- context [if ?b then _ else _] => destruct b end;
    intros [= <-]; cbn [length]; lia.
Qed.

Lemma encode_utf8_app (a b : pystr) :
  encode_utf8 (a ++ b) =
  match encode_utf8 a, encode_utf8 b with
  | Some x, Some y => Some (x ++ y)
  | _, _ => None
  end.
Proof.
  induction a as [|c a IH]; cbn [encode_utf8 app].
  - by destruct (encode_utf8 b).
  - rewrite IH. destruct (utf8_encode_char c), (encode_utf8 a), (encode_utf8 b);
      try reflexivity. by rewrite app_assoc.
Qed.

Lemma utf8_len_app (a b : pystr) (x y : Z) :
  utf8_len a = Ok x -> utf8_len b = Ok y -> utf8_len (a ++ b) = Ok (x + y).
Proof.
  unfold utf8_len. rewrite encode_utf8_app.
  destruct (encode_utf8 a), (encode_utf8 b); try discriminate.
  intros [= <-] [= <-]. by rewrite len_app.
Qed.

Lemma utf8_len_app_inv (a b : pystr) (n : Z) :
  utf8_len (a ++ b) = Ok n ->
  exists x y, utf8_len a = Ok x /\ utf8_len b = Ok y /\ n = x + y.
Proof.
  unfold utf8_len. rewrite encode_utf8_app.
  destruct (encode_utf8 a) as [ea|], (encode_utf8 b) as [eb|]; try discriminate.
  intros [= <-]. exists (len ea), (len eb). by rewrite len_app.
Qed.

Lemma utf8_len_bounds (s : pystr) (n : Z) :
  utf8_len s = Ok n -> len s <= n <= 4 * len s.
Proof.
  revert n. induction s as [|c s IH]; intros n.
  - intros [= <-]. unfold len. cbn [length]. lia.
  - change (c :: s) with ([c] ++ s). intros H.
    apply utf8_len_app_inv in H as (x & y & Hx & Hy & ->).
    specialize (IH y Hy). rewrite len_app.
    unfold utf8_len in Hx. cbn [encode_utf8] in Hx.
    destruct (utf8_encode_char c) as [bs|] eqn:E; [|discriminate].
    apply utf8_encode_char_length in E. injection Hx as <-.
    rewrite app_nil_r. change (len [c]) with 1. lia.
Qed.

(** Every prefix of a string that encodes encodes, in no more bytes. *)
Lemma utf8_len_take (s : pystr) (n : Z) (k : nat) :
  utf8_len s = Ok n ->
  exists x, utf8_len (take k s) = Ok x /\ 0 <= x <= n.
Proof.
  intros H. rewrite <- (take_drop k s) in H.
  apply utf8_len_app_inv in H as (x & y & Hx & Hy & ->).
  exists x. split; [exact Hx|].
  apply utf8_len_bounds in Hx, Hy.
  pose proof (len_nonneg (take k s)). pose proof (len_nonneg (drop k s)). lia.
Qed.

Lemma utf8_len_take_mono (s : pystr) (k1 k2 : nat) (x1 x2 : Z) :
  (k1 <= k2)%nat ->
  utf8_len (take k1 s) = Ok x1 -> utf8_len (take k2 s) = Ok x2 -> x1 <= x2.
Proof.
  intros Hk H1 H2. destruct (utf8_len_take _ _ k1 H2) as (x & Hx & Hle).
  rewrite take_take, Nat.min_l in Hx by exact Hk.
  rewrite H1 in Hx. injection Hx as <-. lia.
Qed.

Lemma char_eqb_eq (a b : char) : char_eqb a b = true <-> a = b.
Proof. apply N.eqb_eq. Qed.




Lemma utf8_len_notice : utf8_len TRUNCATION_NOTICE = Ok 78.
Proof. vm_compute. reflexivity. Qed.




(* ===================================================================== *)
(** * Further properties: the classifier *)
(* ===================================================================== *)

Section ClassifierMore.
Context {U : CaseMapping}.

Lemma filter_sublist {A} (f : A -> bool) (l : list A) :
  List.filter f l `sublist_of` l.
Proof.
  induction l as [|x l IH]; cbn [List.filter]; [constructor|].
  destruct (f x); by constructor.
Qed.

(** X1.  The classification always has the eight keys of
    [CATEGORY_DISPLAY], also for an empty list, and under each key stand
    the commits of that category, all of them and no other: the commits
    given that hold no skip keyword and whose first matching keyword list
    is that of the key, or, under [others], that match no list; they stand
    in the order they were given, so that each list is a subsequence of
    the input. *)
Theorem X1_classify_keeps_keys_and_order (commits : list CommitInfo) :
  exists categories,
    classify_commits commits = Ok categories /\
    (forall k, is_Some (categories !! k) <-> k ∈ CATEGORIES) /\
    (forall k, k ∈ CATEGORIES ->
       categories !! k =
       Some (List.filter
               (fun c =>
                  negb (any_in SKIP_COMMIT_KEYWORDS (lower (message c))) &&
                  bool_decide
                    (default (py "others")
                       (first_match COMMIT_KEYWORDS (lower (message c))) = k))
               commits)) /\
    (forall k items, categories !! k = Some items -> items `sublist_of` commits) /\
    (commits = [] -> forall k, k ∈ CATEGORIES -> categories !! k = Some []).
Proof.
  destruct (classify_commits_spec commits) as (categories & Hc & Hl).
  exists categories. split; [exact Hc|]. split_and!.
  - intros k. rewrite Hl. destruct (decide (k ∈ CATEGORIES)) as [Hk|Hk].
    + split; [intros _; exact Hk | intros _; exact (mk_is_Some _ _ eq_refl)].
    + split; [intros [x Hx]; discriminate | intros H; contradiction].
  - intros k Hk. rewrite Hl. by rewrite decide_True.
  - intros k items. rewrite Hl. case_decide; [|done].
    intros [= <-]. apply filter_sublist.
  - intros -> k Hk. rewrite Hl. by rewrite decide_True.
Qed.

(** X2.  Classifying two lists one after the other is classifying each
    and appending, key by key: the place of a commit depends on its own
    message only. *)
Theorem X2_classify_app (commits1 commits2 : list CommitInfo) :
  exists c1 c2 c12,
    classify_commits commits1 = Ok c1 /\
    classify_commits commits2 = Ok c2 /\
    classify_commits (commits1 ++ commits2) = Ok c12 /\
    forall k items1 items2,
      c1 !! k = Some items1 -> c2 !! k = Some items2 ->
      c12 !! k = Some (items1 ++ items2).
Proof.
  destruct (classify_commits_spec commits1) as (c1 & H1 & Hl1).
  destruct (classify_commits_spec commits2) as (c2 & H2 & Hl2).
  destruct (classify_commits_spec (commits1 ++ commits2)) as (c12 & H12 & Hl12).
  exists c1, c2, c12. split_and!; try done.
  intros k items1 items2. rewrite Hl1, Hl2, Hl12.
  case_decide; [|done]. intros [= <-] [= <-]. by rewrite List.filter_app.
Qed.

End ClassifierMore.

(* ===================================================================== *)
(** * Further properties: the basic report *)
(* ===================================================================== *)

Section ReportMore.
Context {U : CaseMapping}.

Lemma section_of_pair (verbose : bool) (commits : list CommitInfo)
    (key title : pystr) :
  section_of verbose commits (key, title) =
  if truthy (List.filter (in_category key) commits)
  then Some (render_section verbose title (List.filter (in_category key) commits))
  else None.
Proof. reflexivity. Qed.

Lemma render_sections_spec (verbose : bool) (commits : list CommitInfo)
    (categories : gmap pystr (list CommitInfo)) (display : list (pystr * pystr)) :
  (forall k, k ∈ display.*1 ->
     categories !! k = Some (List.filter (in_category k) commits)) ->
  render_sections verbose categories display =
  Ok (omap (section_of verbose commits) display).
Proof.
  induction display as [|[key title] display IH]; intros H; [done|].
  cbn [render_sections]. unfold dict_get. rewrite (H key) by left.
  cbn [mbind res_bind]. rewrite IH by (intros k Hk; apply H; by right).
  cbn [mbind res_bind omap list_omap]. rewrite section_of_pair.
  by destruct (truthy (List.filter (in_category key) commits)).
Qed.

Lemma filter_split_length {A} (f : A -> bool) (l : list A) :
  (length (List.filter f l) + length (List.filter (fun x => negb (f x)) l)
   = length l)%nat.
Proof.
  induction l as [|x l IH]; [done|]. cbn [List.filter].
  destruct (f x); cbn [negb length]; lia.
Qed.

(** The classified count is the number of commits that are not skipped. *)
Lemma total_len_classified (commits : list CommitInfo)
    (categories : gmap pystr (list CommitInfo)) :
  classify_commits commits = Ok categories ->
  total_len categories =
  len (List.filter (fun c => negb (skipped c)) commits).
Proof.
  intros Hc. rewrite total_len_members. unfold len. f_equal.
  pose proof (Permutation_length (partition_perm commits)) as Hp.
  rewrite length_app in Hp.
  rewrite (Permutation_length (classify_commits_members _ _ Hc)).
  pose proof (filter_split_length skipped commits). lia.
Qed.

Lemma basic_report_contents (commits : list CommitInfo)
    (changed_files : list pystr) (diff_stat : pystr) (verbose : bool) :
  generate_basic_changelog commits changed_files diff_stat verbose =
  Ok (if truthy commits then
        join (py "\n\n") (omap (section_of verbose commits) CATEGORY_DISPLAY) ++
        stats_footer (len (List.filter (fun c => negb (skipped c)) commits))
          changed_files ++
        (if truthy diff_stat then details_block diff_stat else [])
      else py "⚠️ No changes found\n").
Proof.
  unfold generate_basic_changelog. destruct (truthy commits); cbn [negb]; [|done].
  destruct (classify_commits_spec commits) as (categories & Hc & Hl).
  rewrite Hc. cbn [mbind res_bind].
  rewrite (render_sections_spec verbose commits).
  - cbn [mbind res_bind]. rewrite (total_len_classified _ _ Hc).
    rewrite <- !app_assoc.
    destruct (truthy diff_stat); [reflexivity | by rewrite app_nil_r].
  - intros k Hk. rewrite Hl. by rewrite decide_True.
Qed.

(** X3.  The basic report.  For an empty list it is the "no changes"
    notice.  Otherwise it holds, in display order and joined by blank
    lines, one section for each category that has a commit and none for
    the others; then the statistics line, whose count is the number of
    commits that are not skipped, which can be less than the number of
    commits; then the collapsible block when the diff statistics are not
    empty. *)
Theorem X3_basic_report_contents (commits : list CommitInfo)
    (changed_files : list pystr) (diff_stat : pystr) (verbose : bool) :
  generate_basic_changelog commits changed_files diff_stat verbose =
  Ok (if truthy commits then
        join (py "\n\n") (omap (section_of verbose commits) CATEGORY_DISPLAY) ++
        stats_footer (len (List.filter (fun c => negb (skipped c)) commits))
          changed_files ++
        (if truthy diff_stat then details_block diff_stat else [])
      else py "⚠️ No changes found\n").
Proof. apply basic_report_contents. Qed.

Lemma filter_none {A} (f : A -> bool) (l : list A) :
  (forall x, x ∈ l -> f x = false) -> List.filter f l = [].
Proof.
  induction l as [|x l IH]; intros H; [done|]. cbn [List.filter].
  rewrite (H x) by left. apply IH. intros y Hy. apply H. by right.
Qed.

Lemma omap_single (verbose : bool) (commits : list CommitInfo)
    (k title : pystr) (display : list (pystr * pystr)) :
  NoDup display.*1 -> (k, title) ∈ display ->
  (forall c, c ∈ commits -> skipped c = false -> category_of c = k) ->
  List.filter (fun c => negb (skipped c)) commits <> [] ->
  omap (section_of verbose commits) display =
  [render_section verbose title
     (List.filter (fun c => negb (skipped c)) commits)].
Proof.
  intros Hnd Hin Hall Hne.
  assert (Hown : List.filter (in_category k) commits =
                 List.filter (fun c => negb (skipped c)) commits).
  { apply List.filter_ext_in. intros c Hc. unfold in_category.
    destruct (skipped c) eqn:Hs; [done|]. cbn [negb andb].
    apply bool_decide_eq_true_2, Hall; [by apply list_elem_of_In | done]. }
  assert (Hother : forall k', k' <> k -> List.filter (in_category k') commits = []).
  { intros k' Hk'. apply filter_none. intros c Hc. unfold in_category.
    destruct (skipped c) eqn:Hs; [done|]. cbn [negb andb].
    apply bool_decide_eq_false_2. rewrite (Hall c Hc Hs). congruence. }
  assert (Hnone : forall l : list (pystr * pystr),
            k ∉ l.*1 -> omap (section_of verbose commits) l = []).
  { intros l. induction l as [|[k' t'] l IHl]; intros Hk; [done|].
    cbn [omap list_omap]. rewrite section_of_pair, Hother.
    - cbn [truthy]. apply IHl. intros Hin'. apply Hk. by right.
    - intros ->. apply Hk. left. }
  destruct (list_elem_of_split _ _ Hin) as (l1 & l2 & ->).
  rewrite fmap_app in Hnd. cbn [fmap list_fmap fst] in Hnd.
  apply NoDup_app in Hnd as (_ & Hl1 & Hl2%NoDup_cons).
  rewrite omap_app. cbn [omap list_omap].
  rewrite section_of_pair, Hown, (proj2 (truthy_true _) Hne).
  rewrite !Hnone; [done | tauto |].
  intros Hk1. apply (Hl1 k Hk1). left.
Qed.

(** X4.  A report with one category.  When every commit that is not
    skipped falls into the same category, and there is such a commit, the
    report has exactly one section, that of the category, followed by the
    statistics and, when the diff statistics are not empty, by the
    collapsible block that holds them. *)
Theorem X4_single_category_report (commits : list CommitInfo)
    (changed_files : list pystr) (diff_stat : pystr) (verbose : bool)
    (k title : pystr) :
  (k, title) ∈ CATEGORY_DISPLAY ->
  (forall c, c ∈ commits -> skipped c = false -> category_of c = k) ->
  (exists c, c ∈ commits /\ skipped c = false) ->
  generate_basic_changelog commits changed_files diff_stat verbose =
  Ok (join [LF]
        ((py "## " ++ title ++ py "\n") ::
         map (render_item verbose)
             (List.filter (fun c => negb (skipped c)) commits)) ++
      stats_footer (len (List.filter (fun c => negb (skipped c)) commits))
        changed_files ++
      (if truthy diff_stat then details_block diff_stat else [])).
Proof.
  intros Hk Hall (c & Hc & Hs).
  assert (Hne : List.filter (fun c => negb (skipped c)) commits <> []).
  { intros Hnil. apply list_elem_of_In in Hc.
    assert (Hin : In c (List.filter (fun c => negb (skipped c)) commits)).
    { apply List.filter_In. split; [done | by rewrite Hs]. }
    by rewrite Hnil in Hin. }
  rewrite basic_report_contents.
  destruct commits as [|c0 commits]; [by apply list_elem_of_In in Hc|].
  cbn [truthy].
  rewrite (omap_single verbose _ k title CATEGORY_DISPLAY); try done.
  apply CATEGORIES_NoDup.
Qed.

End ReportMore.

(** X4 on a merge commit and a fix, with diff statistics. *)
Lemma X4_witness :
  generate_basic_changelog (U := ascii_case)
    [commit_of "2024-01-06" "Merge branch 'dev'";
     commit_of "2024-01-05" "fix: crash on empty input"]
    [py "src/app.py"] (py " src/app.py | 2 +-") false =
  Ok (py "## 🐛 问题修复\n\n- Crash on empty input\n\n---\n\n**变更统计**: 1 项变更，涉及 1 个文件\n\n<details>\n<summary>📈 文件变更详情</summary>\n\n```\n src/app.py | 2 +-\n```\n</details>\n").
Proof.
  rewrite (X4_single_category_report (U := ascii_case) _ _ _ _
             (py "bug_fixes") (py "🐛 问题修复")).
  - vm_compute. reflexivity.
  - apply list_elem_of_In. vm_compute. right. left. reflexivity.
  - intros c Hc Hs. apply list_elem_of_In in Hc.
    destruct Hc as [<-|[<-|[]]]; [vm_compute in Hs; discriminate|].
    vm_compute. reflexivity.
  - exists (commit_of "2024-01-05" "fix: crash on empty input").
    split; [right; left | vm_compute; reflexivity].
Defined.

(* ===================================================================== *)
(** * Further properties: reading the log of git *)
(* ===================================================================== *)

Lemma char_eqb_refl (c : char) : char_eqb c c = true.
Proof. apply N.eqb_refl. Qed.

Lemma char_eqb_ne (a b : char) : a <> b -> char_eqb a b = false.
Proof. intros H. by apply N.eqb_neq. Qed.

Lemma split_cons_eq (c : char) (r : pystr) : split c (c :: r) = [] :: split c r.
Proof. cbn [split]. by rewrite char_eqb_refl. Qed.

Lemma split_inv (c : char) (s : pystr) : exists w ws, split c s = w :: ws.
Proof.
  destruct s as [|x r]; cbn [split]; [by eexists _, _|].
  destruct (char_eqb x c); [by eexists _, _|].
  destruct (split c r); by eexists _, _.
Qed.

Lemma join_cons (sep p q : pystr) (ps : list pystr) :
  join sep (p :: q :: ps) = p ++ sep ++ join sep (q :: ps).
Proof. reflexivity. Qed.

(** Joining what was split gives the text back. *)
Lemma join_split (c : char) (s : pystr) : join [c] (split c s) = s.
Proof.
  induction s as [|x r IH]; [done|]. cbn [split].
  destruct (split_inv c r) as (w & ws & Hs). rewrite Hs in IH |- *.
  destruct (char_eqb x c) eqn:E.
  - apply char_eqb_eq in E as ->. rewrite join_cons, IH. reflexivity.
  - destruct ws as [|w' ws].
    + cbn [join] in IH |- *. by rewrite IH.
    + rewrite join_cons in IH |- *. by rewrite <- IH.
Qed.

Lemma split_plain (c : char) (a : pystr) : c ∉ a -> split c a = [a].
Proof.
  induction a as [|x a IH]; intros H; [done|]. cbn [split].
  apply not_elem_of_cons in H as [Hx Ha].
  rewrite char_eqb_ne by congruence. by rewrite IH.
Qed.

Lemma split_app (c : char) (a b : pystr) :
  c ∉ a -> split c (a ++ c :: b) = a :: split c b.
Proof.
  induction a as [|x a IH]; intros H; cbn [app].
  - apply split_cons_eq.
  - apply not_elem_of_cons in H as [Hx Ha]. cbn [split].
    rewrite char_eqb_ne by congruence. by rewrite IH.
Qed.

(** Splitting what was joined gives the parts back, when no part holds
    the separator. *)
Lemma split_join (c : char) (parts : list pystr) :
  parts <> [] -> Forall (fun p => c ∉ p) parts ->
  split c (join [c] parts) = parts.
Proof.
  induction parts as [|p parts IH]; intros Hne Hall; [done|].
  inversion Hall as [|? ? Hp Hps]; subst.
  destruct parts as [|p' parts].
  - cbn [join]. by apply split_plain.
  - rewrite join_cons. cbn [app]. rewrite split_app by done. by rewrite IH.
Qed.

Lemma py_bar : py "|" = [124%N].
Proof. vm_compute. reflexivity. Qed.

Lemma parse_log_line (c : CommitInfo) :
  124%N ∉ hash c -> 124%N ∉ author c -> 124%N ∉ email c -> 124%N ∉ date c ->
  parse_commit_line (log_line c) = Some c.
Proof.
  intros Hh Ha He Hd. destruct c as [h a e d m]. cbn [hash author email date message] in *.
  unfold parse_commit_line, log_line. cbn [hash author email date message].
  rewrite py_bar. cbn [app].
  rewrite !split_app by done.
  destruct (split_inv 124%N m) as (w & ws & Hs). rewrite Hs.
  by rewrite <- Hs, join_split.
Qed.

(** X5.  One line of the log is read back as the commit it was printed
    for, whenever the hash, the author, the mail address and the date
    hold no bar; the bars of the message stay in the message. *)
Theorem X5_parse_commit_line_roundtrip (c : CommitInfo) :
  124%N ∉ hash c -> 124%N ∉ author c -> 124%N ∉ email c -> 124%N ∉ date c ->
  parse_commit_line (log_line c) = Some c.
Proof. apply parse_log_line. Qed.

(** X5 on a commit whose message holds two bars. *)
Lemma X5_witness :
  parse_commit_line
    (py "3f2a9c1d5e7b8a6f4c2d1e0f9a8b7c6d5e4f3a2b|dev|dev@example.org|2024-01-05|fix: a|b || c")
  = Some (commit_of "2024-01-05" "fix: a|b || c").
Proof.
  refine (eq_trans _ (X5_parse_commit_line_roundtrip
                        (commit_of "2024-01-05" "fix: a|b || c") _ _ _ _)).
  - vm_compute. reflexivity.
  - apply (bool_decide_unpack _). vm_compute. exact I.
  - apply (bool_decide_unpack _). vm_compute. exact I.
  - apply (bool_decide_unpack _). vm_compute. exact I.
  - apply (bool_decide_unpack _). vm_compute. exact I.
Defined.

Lemma lstrip_head (x : char) (r : pystr) :
  isspace x = false -> lstrip (x :: r) = x :: r.
Proof. intros H. cbn [lstrip]. by rewrite H. Qed.

(** Stripping leaves a text that neither begins nor ends with white
    space as it is. *)
Lemma strip_id (s r r' : pystr) (x y : char) :
  s = x :: r -> isspace x = false -> s = r' ++ [y] -> isspace y = false ->
  strip s = s.
Proof.
  intros Hx Hsx Hy Hsy. unfold strip.
  rewrite Hx, lstrip_head by done. rewrite <- Hx, Hy.
  rewrite rev_app_distr. cbn [rev app]. rewrite lstrip_head by done.
  change (y :: rev r') with (rev [y] ++ rev r').
  by rewrite <- rev_app_distr, rev_involutive.
Qed.

Lemma log_line_no_lf (c : CommitInfo) : printable c -> LF ∉ log_line c.
Proof.
  intros (H1 & H2 & H3 & H4 & H5 & _). unfold log_line. rewrite py_bar.
  rewrite !not_elem_of_app. split_and!; try done;
    apply not_elem_of_cons; (split; [discriminate | apply not_elem_of_nil]).
Qed.

Lemma log_lines_ends (commits : list CommitInfo) :
  commits <> [] -> Forall printable commits ->
  (exists x r, join [LF] (map log_line commits) = x :: r /\ isspace x = false) /\
  (exists r y, join [LF] (map log_line commits) = r ++ [y] /\ isspace y = false).
Proof.
  induction commits as [|c commits IH]; intros Hne Hall; [done|].
  inversion Hall as [|? ? Hc Hcs]; subst.
  pose proof Hc as (_ & _ & _ & _ & _ & _ & _ & _ & _ &
                    (x & rh & Hh & Hx) & (rm & y & Hm & Hy)).
  destruct commits as [|c' commits].
  - cbn [map join]. unfold log_line. rewrite Hh, Hm. split.
    + exists x. eexists. split; [|exact Hx]. reflexivity.
    + exists (x :: rh ++ py "|" ++ author c ++ py "|" ++ email c ++ py "|" ++
              date c ++ py "|" ++ rm), y.
      split; [|exact Hy]. cbn [app]. f_equal. by rewrite <- !app_assoc.
  - destruct (IH ltac:(done) Hcs) as [_ (r & y' & Hr & Hy')].
    cbn [map] in Hr |- *. rewrite join_cons, Hr. cbn [app]. split.
    + unfold log_line. rewrite Hh. exists x. eexists. split; [|exact Hx].
      reflexivity.
    + exists (log_line c ++ LF :: r), y'. split; [|exact Hy'].
      by rewrite <- app_assoc.
Qed.

(** X6.  When git succeeds and prints one line for each commit of a
    non-empty list, [get_git_commits] runs the one command and returns
    these commits, in the order printed. *)
Theorem X6_get_git_commits_reads_log (w : World) (from_ref to_ref : pystr)
    (commits : list CommitInfo) :
  commits <> [] ->
  Forall printable commits ->
  subprocess_run w
    (py "git log " ++ from_ref ++ py ".." ++ to_ref ++
     py " --pretty=format:'%H|%an|%ae|%ad|%s' --date=short")
  = (true, join [LF] (map log_line commits)) ->
  get_git_commits w from_ref to_ref =
  ([RunGit (py "git log " ++ from_ref ++ py ".." ++ to_ref ++
            py " --pretty=format:'%H|%an|%ae|%ad|%s' --date=short")],
   Ok commits).
Proof.
  intros Hne Hall Hrun. unfold get_git_commits, run_git_command.
  cbn [mbind M_bind emit mret M_ret app]. rewrite Hrun.
  destruct (log_lines_ends commits Hne Hall)
    as [(x & r & Hx & Hsx) (r' & y & Hy & Hsy)].
  rewrite (strip_id _ r r' x y Hx Hsx Hy Hsy).
  rewrite Hx at 1. cbn [truthy negb orb]. do 2 f_equal.
  rewrite split_join.
  - clear Hne Hrun Hx Hy. induction Hall as [|c cs Hc Hcs IH]; [done|].
    cbn [map omap list_omap].
    pose proof Hc as (_ & _ & _ & _ & _ & Hb1 & Hb2 & Hb3 & Hb4 &
                      (x' & rh & Hh & _) & _).
    rewrite parse_log_line by done.
    assert (Ht : truthy (log_line c) = true).
    { unfold log_line. by rewrite Hh. }
    rewrite Ht. by rewrite IH.
  - by destruct commits.
  - apply Forall_fmap. eapply Forall_impl; [exact Hall|].
    intros c Hc. by apply log_line_no_lf.
Qed.

(** X6 on the sample repository. *)
Lemma X6_witness :
  get_git_commits world_ai_ok (py "v1.0") (py "v1.1") =
  ([RunGit (py "git log " ++ py "v1.0" ++ py ".." ++ py "v1.1" ++
            py " --pretty=format:'%H|%an|%ae|%ad|%s' --date=short")],
   Ok sample_commits).
Proof.
  apply (X6_get_git_commits_reads_log world_ai_ok (py "v1.0") (py "v1.1")
           sample_commits).
  - discriminate.
  - assert (Hp : forall c, c ∈ sample_commits -> printable c).
    { intros c Hc. apply list_elem_of_In in Hc.
      destruct Hc as [<-|[<-|[]]];
        (unfold printable; split_and!;
         first [ apply (bool_decide_unpack _); vm_compute; exact I
               | eexists _, _; split; [vm_compute; reflexivity|];
                 vm_compute; reflexivity
               | match goal with
                 | |- exists r y, ?m = _ /\ _ =>
                   exists (removelast m), (List.last m 0%N)
                 end; split; vm_compute; reflexivity ]). }
    by apply Forall_forall.
  - vm_compute. reflexivity.
Defined.

(* ===================================================================== *)
(** * Further properties: the ignored files *)
(* ===================================================================== *)

Lemma fnmatch_plain (p name : pystr) :
  plain p -> fnmatch_pat p name = true <-> name = p.
Proof.
  intros Hp. revert name. induction Hp as [|c p Hc Hp IH]; intros name.
  - destruct name; split; intros H; first [reflexivity | discriminate H].
  - cbn [fnmatch_pat]. rewrite (char_eqb_ne c 42%N Hc).
    destruct name as [|x name]; [split; intros H; discriminate H|].
    rewrite andb_true_iff, char_eqb_eq, IH. split.
    + by intros [-> ->].
    + by intros [= -> ->].
Qed.

Lemma fnmatch_star_unfold (b name : pystr) :
  fnmatch_pat (42%N :: b) name =
  fnmatch_pat b name ||
  match name with
  | [] => false
  | _ :: name' => fnmatch_pat (42%N :: b) name'
  end.
Proof. by destruct name. Qed.

Lemma fnmatch_star (b name : pystr) :
  plain b -> fnmatch_pat (42%N :: b) name = true <-> exists x, name = x ++ b.
Proof.
  intros Hb. induction name as [|y name IH]; rewrite fnmatch_star_unfold.
  - rewrite orb_false_r, (fnmatch_plain b [] Hb). split.
    + intros <-. by exists [].
    + intros (x & Hx). symmetry in Hx. by apply app_eq_nil in Hx as [_ ->].
  - rewrite orb_true_iff, (fnmatch_plain b (y :: name) Hb), IH. split.
    + intros [<- | (x & ->)]; [by exists [] | by exists (y :: x)].
    + intros ([|y' x] & Hx); cbn [app] in Hx.
      * by left.
      * injection Hx as <- ->. right. by exists x.
Qed.

(** A pattern with one star matches the names that begin with what is
    before the star and end with what is after it. *)
Lemma fnmatch_one_star (a b name : pystr) :
  plain a -> plain b ->
  fnmatch_pat (a ++ 42%N :: b) name = true <-> exists x, name = a ++ x ++ b.
Proof.
  intros Ha Hb. revert name. induction Ha as [|c a Hc Ha IH]; intros name.
  - cbn [app]. by apply fnmatch_star.
  - cbn [app fnmatch_pat]. rewrite (char_eqb_ne c 42%N Hc).
    destruct name as [|y name].
    + split; [discriminate | by intros (x & Hx)].
    + rewrite andb_true_iff, char_eqb_eq, IH. split.
      * intros [-> (x & ->)]. by exists x.
      * intros (x & [= -> ->]). split; [done | by exists x].
Qed.

Lemma IGNORE_PATTERNS_table :
  IGNORE_PATTERNS =
  [ py "CHANGELOG" ++ py ".md"; py "CHANGELOG" ++ 42%N :: py ".md";
    py "package-lock.json"; py "yarn.lock"; py "pnpm-lock.yaml" ].
Proof. vm_compute. reflexivity. Qed.

Ltac plain_literal := apply (bool_decide_unpack _); vm_compute; exact I.

(** What one name has to be for a pattern to match it. *)
Lemma ignore_patterns_match (name : pystr) :
  existsb (fun pattern => fnmatch name pattern) IGNORE_PATTERNS = true <->
  ignored_name name.
Proof.
  rewrite IGNORE_PATTERNS_table. unfold fnmatch, ignored_name. cbn [existsb].
  rewrite orb_false_r, !orb_true_iff.
  rewrite (fnmatch_one_star (py "CHANGELOG") (py ".md"))
    by (unfold plain; plain_literal).
  rewrite !fnmatch_plain by (unfold plain; plain_literal).
  rewrite !elem_of_cons, elem_of_nil. split.
  - intros [-> | [H | [-> | [-> | ->]]]]; eauto 6.
  - intros [[-> | [-> | [-> | []]]] | H]; eauto 6.
Qed.

Lemma existsb_or {A} (f g : A -> bool) (l : list A) :
  existsb (fun x => f x || g x) l = existsb f l || existsb g l.
Proof.
  induction l as [|x l IH]; [done|]. cbn [existsb]. rewrite IH.
  destruct (f x), (g x), (existsb f l), (existsb g l); reflexivity.
Qed.

Lemma should_ignore_file_iff (filepath : pystr) :
  should_ignore_file filepath = true <->
  ignored_name filepath \/ ignored_name (basename filepath).
Proof.
  unfold should_ignore_file. cbv zeta.
  rewrite existsb_or, orb_true_iff. by rewrite !ignore_patterns_match.
Qed.

(** X7.  A file is ignored exactly when its path, or the last component
    of its path, is [package-lock.json], [yarn.lock], [pnpm-lock.yaml],
    or begins with [CHANGELOG] and ends with [.md]. *)
Theorem X7_should_ignore_file_iff (filepath : pystr) :
  should_ignore_file filepath = true <->
  ignored_name filepath \/ ignored_name (basename filepath).
Proof. apply should_ignore_file_iff. Qed.

Lemma split_last (c : char) (a b : pystr) :
  c ∉ b -> exists p pre, split c (a ++ c :: b) = p :: pre ++ [b].
Proof.
  intros Hb. induction a as [|x a IH]; cbn [app].
  - exists [], []. by rewrite split_cons_eq, split_plain.
  - destruct IH as (p & pre & Hpre). cbn [split]. rewrite Hpre.
    destruct (char_eqb x c).
    + exists [], (p :: pre). reflexivity.
    + exists (x :: p), pre. reflexivity.
Qed.

Lemma basename_join (dir name : pystr) :
  47%N ∉ name -> basename (dir ++ py "/" ++ name) = name.
Proof.
  intros H. unfold basename.
  replace (py "/") with [47%N] by (vm_compute; reflexivity). cbn [app].
  destruct (split_last 47%N dir name H) as (p & pre & ->).
  apply (last_last (p :: pre)).
Qed.

(** X8.  The directory does not matter: a file whose name is matched by
    the ignore patterns is ignored in whatever directory it lies. *)
Theorem X8_ignored_in_any_directory (dir name : pystr) :
  47%N ∉ name -> ignored_name name ->
  should_ignore_file (dir ++ py "/" ++ name) = true.
Proof.
  intros Hname Hign. apply should_ignore_file_iff. right.
  by rewrite basename_join.
Qed.

(** X8 on a lock file three directories down. *)
Lemma X8_witness :
  should_ignore_file (py "web/packages/ui" ++ py "/" ++ py "package-lock.json")
  = true.
Proof.
  apply X8_ignored_in_any_directory.
  - apply (bool_decide_unpack _). vm_compute. exact I.
  - left. left.
Defined.

(* ===================================================================== *)
(** * Further properties: the changed files and the diff *)
(* ===================================================================== *)

(** X9.  The filter of [get_git_diff_files] is the filter of the
    pipeline: with [include_ignored] unset the function runs the same
    command and returns the files it returns with [include_ignored] set,
    less the ignored ones, in the same order; none of them is ignored. *)
Theorem X9_diff_files_filter (w : World) (from_ref to_ref : pystr) :
  trace (get_git_diff_files w from_ref to_ref false) =
    trace (get_git_diff_files w from_ref to_ref true) /\
  exists files,
    outcome (get_git_diff_files w from_ref to_ref true) = Ok files /\
    outcome (get_git_diff_files w from_ref to_ref false) = Ok (kept_files files) /\
    Forall (fun f => should_ignore_file f = false) (kept_files files).
Proof.
  assert (Hkept : forall files,
            Forall (fun f => should_ignore_file f = false) (kept_files files)).
  { intros files. apply Forall_forall. intros f Hf.
    apply list_elem_of_In, List.filter_In in Hf as [_ Hf].
    by apply negb_true_iff in Hf. }
  unfold get_git_diff_files, run_git_command.
  cbn [mbind M_bind emit mret M_ret app].
  destruct (subprocess_run w _) as [success output].
  destruct (negb success || negb (truthy (strip output))).
  - split; [done|]. exists []. by split_and!.
  - split; [done|]. eexists. split_and!; [reflexivity | reflexivity | apply Hkept].
Qed.

Lemma join_app (sep : pystr) (a b : list pystr) :
  a <> [] -> b <> [] -> join sep (a ++ b) = join sep a ++ sep ++ join sep b.
Proof.
  intros Ha Hb. induction a as [|p a IH]; [done|].
  destruct a as [|q a].
  - destruct b as [|r b]; [done|]. reflexivity.
  - change ((p :: q :: a) ++ b) with (p :: q :: (a ++ b)).
    rewrite !join_cons. change (q :: a ++ b) with ((q :: a) ++ b).
    rewrite IH by done. by rewrite <- !app_assoc.
Qed.

(** The first lines of a text, joined again, are a prefix of the text. *)
Lemma join_take_prefix (c : char) (s : pystr) (k : nat) :
  join [c] (take k (split c s)) `prefix_of` s.
Proof.
  rewrite <- (join_split c s) at 2. rewrite <- (take_drop k (split c s)) at 2.
  destruct (take k (split c s)) as [|p a] eqn:Ea.
  - apply prefix_nil.
  - destruct (drop k (split c s)) as [|q b] eqn:Eb.
    + by rewrite app_nil_r.
    + rewrite join_app by done. by apply prefix_app_r.
Qed.

Lemma if_mret {A} (b : bool) (x y : A) :
  (if b then mret x else mret y) = (mret (if b then x else y) : M A).
Proof. by destruct b. Qed.

Lemma py_lf : py "\n" = [LF].
Proof. vm_compute. reflexivity. Qed.

(** X10.  The diff is cut by lines, never in the middle of one.  With a
    line budget that is not negative, [get_git_diff] runs at most two
    git commands and returns; what it returns is empty, or comes from the
    output of one of these commands that succeeded: that output itself
    when it has no more lines than the budget, and otherwise its first
    lines, as many as the budget, which are a prefix of the output,
    followed by a notice that gives the number of lines of the output. *)
Theorem X10_get_git_diff_line_cap (w : World) (from_ref to_ref : pystr)
    (files : list pystr) (max_lines : Z) :
  0 <= max_lines ->
  (count_events is_git_call (get_git_diff w from_ref to_ref files max_lines)
   <= 2)%nat /\
  exists diff,
    outcome (get_git_diff w from_ref to_ref files max_lines) = Ok diff /\
    (diff = [] \/
     exists cmd output,
       RunGit cmd ∈ trace (get_git_diff w from_ref to_ref files max_lines) /\
       subprocess_run w cmd = (true, output) /\
       let lines := split LF output in
       let kept := join (py "\n") (take (Z.to_nat max_lines) lines) in
       (len lines <= max_lines -> diff = output) /\
       (len lines > max_lines ->
        kept `prefix_of` output /\
        diff = kept ++ py "\n\n... (diff too long, truncated, total " ++
               str_of_Z (len lines) ++ py " lines) ...")).
Proof.
  intros Hmax.
  assert (Hcap : forall cmd output (ev : list event),
    subprocess_run w cmd = (true, output) -> RunGit cmd ∈ ev ->
    exists diff,
      (let lines := split LF output in
       if len lines >? max_lines then
         join (py "\n") (slice_to max_lines lines) ++
         py "\n\n... (diff too long, truncated, total " ++
         str_of_Z (len lines) ++ py " lines) ..."
       else output) = diff /\
      (diff = [] \/
       exists cmd output,
         RunGit cmd ∈ ev /\ subprocess_run w cmd = (true, output) /\
         let lines := split LF output in
         let kept := join (py "\n") (take (Z.to_nat max_lines) lines) in
         (len lines <= max_lines -> diff = output) /\
         (len lines > max_lines ->
          kept `prefix_of` output /\
          diff = kept ++ py "\n\n... (diff too long, truncated, total " ++
                 str_of_Z (len lines) ++ py " lines) ..."))).
  { intros cmd output ev Hrun Hev. eexists. split; [reflexivity|].
    right. exists cmd, output. split; [exact Hev|]. split; [exact Hrun|].
    cbv zeta. rewrite slice_to_nonneg by exact Hmax.
    destruct (len (split LF output) >? max_lines) eqn:E.
    - apply Z.gtb_gt in E. split; [lia|]. intros _. split; [|done].
      rewrite py_lf. apply join_take_prefix.
    - rewrite Z.gtb_ltb in E. apply Z.ltb_ge in E. split; [done | lia]. }
  unfold get_git_diff, run_git_command, count_events.
  destruct files as [|f files]; cbn [truthy negb].
  { split; [cbn; lia|]. exists []. split; [done | by left]. }
  cbn [mbind M_bind emit mret M_ret app trace outcome fst snd].
  destruct (subprocess_run w _) as [[] o1] eqn:E1; cbn [negb].
  - cbn [mbind M_bind emit mret M_ret app negb]. rewrite if_mret.
    cbn [mbind M_bind emit mret M_ret app trace outcome fst snd
         List.filter is_git_call length].
    split; [lia|].
    edestruct Hcap as (diff & Hd & Hprop); [exact E1 | | ].
    2:{ exists diff. split; [by rewrite <- Hd | exact Hprop]. }
    left.
  - cbn [mbind M_bind emit mret M_ret app trace outcome fst snd].
    destruct (subprocess_run w (py "git diff " ++ from_ref ++ py ".." ++ to_ref))
      as [[] o2] eqn:E2;
      cbn [mbind M_bind emit mret M_ret app negb]; rewrite ?if_mret;
      cbn [mbind M_bind emit mret M_ret app trace outcome fst snd
           List.filter is_git_call length].
    + split; [lia|].
      edestruct Hcap as (diff & Hd & Hprop); [exact E2 | | ].
      2:{ exists diff. split; [by rewrite <- Hd | exact Hprop]. }
      right. left.
    + split; [lia|]. exists []. split; [done | by left].
Qed.

(** X10 on the sample repository with a budget of two lines. *)
Lemma X10_witness :
  (count_events is_git_call
     (get_git_diff world_ai_ok (py "v1.0") (py "v1.1") [py "src/app.py"] 2)
   <= 2)%nat.
Proof.
  refine (proj1 (X10_get_git_diff_line_cap world_ai_ok (py "v1.0") (py "v1.1")
                   [py "src/app.py"] 2 _)).
  lia.
Defined.

(* ===================================================================== *)
(** * Further properties: the effects of a run *)
(* ===================================================================== *)

Section Within.
Variable p : event -> bool.

Lemma within_mono {A} (n n' : nat) (m : M A) :
  within p n m -> (n <= n')%nat -> within p n' m.
Proof. intros [H1 H2] Hn. split; [lia | exact H2]. Qed.

Lemma within_bind {A B} (n1 n2 : nat) (m : M A) (f : A -> M B) :
  within p n1 m -> (forall a, within p n2 (f a)) ->
  within p (n1 + n2) (m ≫= f).
Proof.
  intros [H1 [a Ha]] Hf. destruct (Hf a) as [H2 [b Hb]]. split.
  - unfold count_events in *. rewrite (bind_trace m f a Ha).
    rewrite List.filter_app, length_app. lia.
  - exists b. by rewrite (bind_outcome m f a Ha).
Qed.

Lemma within_ret {A} (a : A) : within p 0 (mret a).
Proof. split; [done | by exists a]. Qed.

Lemma within_lift {A} (a : A) : within p 0 (lift (Ok a)).
Proof. split; [done | by exists a]. Qed.

Lemma within_if {A} (b : bool) (n1 n2 : nat) (m1 m2 : M A) :
  within p n1 m1 -> within p n2 m2 ->
  within p (Nat.max n1 n2) (if b then m1 else m2).
Proof.
  intros H1 H2.
  destruct b; [apply (within_mono n1) | apply (within_mono n2)]; try done; lia.
Qed.

Lemma within_for_each {A} (l : list A) (body : A -> M unit) :
  (forall x, within p 0 (body x)) -> within p 0 (for_each l body).
Proof.
  intros Hbody. induction l as [|x l IH]; [apply within_ret|].
  cbn [for_each]. apply (within_bind 0 0); [apply Hbody | intros _; exact IH].
Qed.

End Within.

Lemma within_print (p : event -> bool) (text : pystr) :
  (forall t, p (Print t) = false) -> within p 0 (print text).
Proof.
  intros Hp. split; [|by exists tt].
  unfold count_events, print, emit. cbn [trace fst List.filter]. by rewrite Hp.
Qed.

Lemma quiet_within {A} (m : M A) : quiet m <-> within is_ai_call 0 m.
Proof.
  unfold quiet, within, no_ai_call, count_events. split; intros [H1 H2].
  - split; [|exact H2]. induction H1 as [|e l He _ IH]; [done|].
    cbn [List.filter]. by rewrite He.
  - split; [|exact H2]. induction (trace m) as [|e l IH]; [constructor|].
    cbn [List.filter] in H1. destruct (is_ai_call e) eqn:He.
    + cbn [length] in H1. lia.
    + constructor; [exact He | by apply IH].
Qed.

Lemma within_bind0 {A B} (p : event -> bool) (m : M A) (f : A -> M B) :
  within p 0 m -> (forall a, within p 0 (f a)) -> within p 0 (m ≫= f).
Proof. intros Hm Hf. apply (within_bind p 0 0); assumption. Qed.

Lemma within_if0 {A} (p : event -> bool) (b : bool) (m1 m2 : M A) :
  within p 0 m1 -> within p 0 m2 -> within p 0 (if b then m1 else m2).
Proof. intros H1 H2. by destruct b. Qed.

(** Steps through the binds of a run and adds up the bounds of its
    parts; [leaf] settles the calls the steps do not know. *)
Ltac within_steps leaf :=
  repeat first
    [ leaf
    | match goal with
      | |- within _ _ (mret _) => apply within_ret
      | |- within _ _ (lift (Ok _)) => apply within_lift
      | |- within _ _ (print _) => apply within_print; [intros ?; reflexivity]
      | |- within _ _ (for_each _ _) => apply within_for_each; intros ?
      | |- within _ ?n (_ ≫= _) =>
        tryif is_evar n then (eapply within_bind; [|intros ?])
        else (apply within_bind0; [|intros ?])
      | |- within _ ?n (if _ then _ else _) =>
        tryif is_evar n then eapply within_if else apply within_if0
      | |- within _ _ (let '(_, _) := ?x in _) => destruct x
      | |- within _ _ (match ?x with (_, _) => _ end) => destruct x
      end
    | progress cbv zeta ].

Lemma within_run_git (w : World) (cmd : pystr) :
  within is_git_call 1 (run_git_command w cmd).
Proof. split; [done | by eexists]. Qed.

Ltac git_leaf :=
  match goal with
  | |- within _ _ (run_git_command _ _) => apply within_run_git
  end.

Lemma within_get_git_commits (w : World) (from_ref to_ref : pystr) :
  within is_git_call 1 (get_git_commits w from_ref to_ref).
Proof.
  eapply within_mono.
  - unfold get_git_commits. within_steps ltac:(idtac; git_leaf).
  - cbn. lia.
Qed.

Lemma within_get_git_diff_files (w : World) (from_ref to_ref : pystr)
    (include_ignored : bool) :
  within is_git_call 1 (get_git_diff_files w from_ref to_ref include_ignored).
Proof.
  eapply within_mono.
  - unfold get_git_diff_files. within_steps ltac:(idtac; git_leaf).
  - cbn. lia.
Qed.

Lemma within_get_git_diff (w : World) (from_ref to_ref : pystr)
    (files : list pystr) (max_lines : Z) :
  within is_git_call 2 (get_git_diff w from_ref to_ref files max_lines).
Proof.
  eapply within_mono.
  - unfold get_git_diff. within_steps ltac:(idtac; git_leaf).
  - cbn. lia.
Qed.

Lemma within_get_git_diff_stat (w : World) (from_ref to_ref : pystr)
    (files : list pystr) :
  within is_git_call 2 (get_git_diff_stat w from_ref to_ref files).
Proof.
  eapply within_mono.
  - unfold get_git_diff_stat. within_steps ltac:(idtac; git_leaf).
  - cbn. lia.
Qed.

(** The orchestrator runs no git command, and the request, if any, is the
    only one. *)
Lemma within_call_ai_api (AI_SYSTEM_PROMPT : pystr) (w : World)
    (prompt provider : pystr) :
  within is_git_call 0 (call_ai_api AI_SYSTEM_PROMPT w prompt provider) /\
  within is_ai_call 1 (call_ai_api AI_SYSTEM_PROMPT w prompt provider).
Proof.
  unfold call_ai_api.
  destruct (get_ai_config provider) as [config|]; [|by split; split; eauto].
  destruct (negb (truthy (api_key w config))); [by split; split; eauto|].
  destruct (urlopen w _) as [code [text|] | reason | text | content];
    by split; split; eauto.
Qed.

Section PipelineEffects.
Context {U : CaseMapping}.
Variable AI_SYSTEM_PROMPT : pystr.
Variable w : World.

Lemma within_print_dry_run_info (p : event -> bool) commits diff diff_stat prompt :
  (forall t, p (Print t) = false) ->
  within p 0 (print_dry_run_info AI_SYSTEM_PROMPT commits diff diff_stat prompt).
Proof.
  intros Hp. unfold print_dry_run_info.
  repeat first
    [ apply within_ret
    | apply within_print; [exact Hp]
    | apply within_for_each; intros ?
    | apply within_bind0; [|intros ?]
    | apply within_if0
    | progress cbv zeta ].
Qed.

Lemma within_generate_ai_changelog from_ref to_ref commits all_files diff
    diff_stat provider dry_run :
  within is_git_call 0
    (generate_ai_changelog AI_SYSTEM_PROMPT w from_ref to_ref commits all_files
       diff diff_stat provider dry_run) /\
  within is_ai_call (if dry_run then 0 else 1)
    (generate_ai_changelog AI_SYSTEM_PROMPT w from_ref to_ref commits all_files
       diff diff_stat provider dry_run).
Proof.
  unfold generate_ai_changelog.
  destruct (negb (truthy commits)).
  { split; [apply within_ret|]. eapply within_mono; [apply within_ret | lia]. }
  cbv zeta. destruct dry_run.
  - split.
    + within_steps ltac:(idtac;
        match goal with
        | |- within _ _ (print_dry_run_info _ _ _ _ _) =>
          apply within_print_dry_run_info; intros ?; reflexivity
        end).
    + within_steps ltac:(idtac;
        match goal with
        | |- within _ _ (print_dry_run_info _ _ _ _ _) =>
          apply within_print_dry_run_info; intros ?; reflexivity
        end).
  - split.
    + apply within_bind0; [by apply within_print | intros _].
      apply within_call_ai_api.
    + apply (within_bind is_ai_call 0 1); [by apply within_print | intros _].
      apply within_call_ai_api.
Qed.

Lemma within_generate_changelog from_ref to_ref use_ai provider verbose dry_run :
  within is_git_call 6
    (generate_changelog AI_SYSTEM_PROMPT w from_ref to_ref use_ai provider
       verbose dry_run) /\
  within is_ai_call (if use_ai && negb dry_run then 1 else 0)
    (generate_changelog AI_SYSTEM_PROMPT w from_ref to_ref use_ai provider
       verbose dry_run).
Proof.
  split.
  - eapply within_mono.
    + unfold generate_changelog.
      within_steps ltac:(idtac;
        match goal with
        | |- within _ _ (get_git_commits _ _ _) => apply within_get_git_commits
        | |- within _ _ (get_git_diff_files _ _ _ _) =>
          apply within_get_git_diff_files
        | |- within _ _ (get_git_diff _ _ _ _ _) => apply within_get_git_diff
        | |- within _ _ (get_git_diff_stat _ _ _ _) =>
          apply within_get_git_diff_stat
        | |- within _ _ (generate_ai_changelog _ _ _ _ _ _ _ _ _ _) =>
          apply within_generate_ai_changelog
        | |- within _ _ (lift (generate_basic_changelog ?c ?f ?d ?v)) =>
          destruct (generate_basic_changelog_ok c f d v) as [? ->]
        end).
    + cbn. lia.
  - assert (Hbasic : forall cs fs ds v,
              within is_ai_call 0 (lift (generate_basic_changelog cs fs ds v))).
    { intros cs fs ds v.
      destruct (generate_basic_changelog_ok cs fs ds v) as [? ->].
      apply within_lift. }
    unfold generate_changelog.
    destruct use_ai, dry_run; cbn [orb andb negb]; (eapply within_mono; [|shelve]).
    all: within_steps ltac:(idtac;
        match goal with
        | |- within _ _ (get_git_commits _ _ _) =>
          apply quiet_within, quiet_get_git_commits
        | |- within _ _ (get_git_diff_files _ _ _ _) =>
          apply quiet_within, quiet_get_git_diff_files
        | |- within _ _ (get_git_diff _ _ _ _ _) =>
          apply quiet_within, quiet_get_git_diff
        | |- within _ _ (get_git_diff_stat _ _ _ _) =>
          apply quiet_within, quiet_get_git_diff_stat
        | |- within _ _ (generate_ai_changelog _ _ _ _ _ _ _ _ _ _) =>
          apply within_generate_ai_changelog
        | |- within _ _ (lift (generate_basic_changelog _ _ _ _)) => apply Hbasic
        end).
    Unshelve. all: cbn; lia.
Qed.

End PipelineEffects.

Lemma make_header_prefix (from_ref to_ref : pystr) (commits : list CommitInfo) :
  range_header from_ref to_ref `prefix_of` make_header from_ref to_ref commits.
Proof.
  unfold make_header. destruct commits as [|newest commits]; [done|].
  cbv zeta. by apply prefix_app_r.
Qed.

(** With a reply of the service that is a string or [None], as
    [http_outcome] types it, and a standard output that takes what is
    printed, a run comes to a document that begins with the range
    header. *)
Lemma generate_changelog_header {U : CaseMapping}
    (AI_SYSTEM_PROMPT : pystr) (w : World) (from_ref to_ref : pystr)
    (use_ai : bool) (provider : pystr) (verbose dry_run : bool) :
  exists doc,
    outcome (generate_changelog AI_SYSTEM_PROMPT w from_ref to_ref use_ai
               provider verbose dry_run) = Ok doc /\
    range_header from_ref to_ref `prefix_of` doc.
Proof.
  destruct (quiet_get_git_commits w from_ref to_ref) as [_ [commits Hcommits]].
  destruct (decide (commits = [])) as [-> | Hne].
  { exists (range_header from_ref to_ref ++ py "⚠️ 未发现任何变更\n").
    split; [|by apply prefix_app_r].
    unfold generate_changelog.
    rewrite (bind_outcome _ _ tt) by done.
    rewrite (bind_outcome _ _ [] Hcommits).
    cbn [truthy negb mret M_ret outcome snd].
    replace (py "**\n\n⚠️ 未发现任何变更\n")
      with (py "**\n\n" ++ py "⚠️ 未发现任何变更\n") by (vm_compute; reflexivity).
    unfold range_header. by rewrite <- !app_assoc. }
  destruct (quiet_get_git_diff_files w from_ref to_ref true)
    as [_ [all_files Hfiles]].
  destruct (quiet_get_git_diff w from_ref to_ref (kept_files all_files)
              DEFAULT_MAX_DIFF_LINES) as [_ [diff Hdiff]].
  destruct (quiet_get_git_diff_stat w from_ref to_ref (kept_files all_files))
    as [_ [diff_stat Hstat]].
  destruct (generate_basic_changelog_ok commits (kept_files all_files) diff_stat
              verbose) as [body Hbody].
  assert (Hpre : forall rest,
            range_header from_ref to_ref `prefix_of`
              make_header from_ref to_ref commits ++ rest).
  { intros rest. apply prefix_app_r, make_header_prefix. }
  destruct dry_run.
  { eexists. split; [|apply Hpre].
    apply (generate_changelog_dry_run AI_SYSTEM_PROMPT w from_ref to_ref commits
             all_files diff diff_stat Hcommits Hne Hfiles Hdiff Hstat). }
  destruct use_ai.
  2:{ eexists. split; [|apply Hpre].
      by apply (generate_changelog_basic AI_SYSTEM_PROMPT w from_ref to_ref
                  commits all_files diff diff_stat Hcommits Hne Hfiles Hdiff
                  Hstat). }
  destruct (proj2 (proj2 (within_generate_ai_changelog AI_SYSTEM_PROMPT w
              from_ref to_ref commits all_files diff diff_stat provider false)))
    as [ai_content Hai].
  destruct (usable ai_content) eqn:Husable.
  - destruct ai_content as [content|]; [|discriminate Husable].
    eexists. split; [|apply Hpre].
    apply (generate_changelog_ai AI_SYSTEM_PROMPT w from_ref to_ref commits
             all_files diff diff_stat Hcommits Hne Hfiles Hdiff Hstat provider
             verbose content Hai).
    by intros ->.
  - eexists. split; [|apply Hpre].
    by apply (generate_changelog_fallback AI_SYSTEM_PROMPT w from_ref to_ref
                commits all_files diff diff_stat Hcommits Hne Hfiles Hdiff Hstat
                provider verbose ai_content body).
Qed.

(** X11.  Every document that [generate_changelog] returns begins with
    the range header, in every mode and whatever git, the environment and
    the service answer: the "no changes" document, the dry-run document,
    the basic report and the AI report all start with it. *)
Theorem X11_generate_changelog_header {U : CaseMapping}
    (AI_SYSTEM_PROMPT : pystr) (w : World) (from_ref to_ref : pystr)
    (use_ai : bool) (provider : pystr) (verbose dry_run : bool) (doc : pystr) :
  outcome (generate_changelog AI_SYSTEM_PROMPT w from_ref to_ref use_ai provider
             verbose dry_run) = Ok doc ->
  range_header from_ref to_ref `prefix_of` doc.
Proof.
  intros Hdoc.
  destruct (generate_changelog_header AI_SYSTEM_PROMPT w from_ref to_ref use_ai
              provider verbose dry_run) as (doc' & Hdoc' & Hpre).
  rewrite Hdoc in Hdoc'. by injection Hdoc' as ->.
Qed.

(** X11 on the sample repository in dry-run mode. *)
Lemma X11_witness :
  range_header (py "v1.0") (py "v1.1") `prefix_of`
  py "# 更新日志\n\n**v1.0 → v1.1**\n\n📅 变更周期: 2024-01-01 ~ 2024-01-05\n\n\n[DRY-RUN Mode - Debug output above, no content generated]\n".
Proof.
  refine (X11_generate_changelog_header (U := ascii_case) sample_system_prompt
            world_ai_ok (py "v1.0") (py "v1.1") true (py "gemini") false true
            _ _).
  vm_compute. reflexivity.
Defined.

(** X12.  Whatever the mode, a run of the pipeline starts at most six git
    commands: one for the commits, one for the changed files, and at
    most two each for the diff and for its statistics. *)
Theorem X12_generate_changelog_git_calls {U : CaseMapping}
    (AI_SYSTEM_PROMPT : pystr) (w : World) (from_ref to_ref : pystr)
    (use_ai : bool) (provider : pystr) (verbose dry_run : bool) :
  (count_events is_git_call
     (generate_changelog AI_SYSTEM_PROMPT w from_ref to_ref use_ai provider
        verbose dry_run) <= 6)%nat.
Proof.
  exact (proj1 (proj1 (within_generate_changelog AI_SYSTEM_PROMPT w from_ref
                         to_ref use_ai provider verbose dry_run))).
Qed.

(** X13.  A run of the pipeline sends at most one request to the AI
    service, and none at all unless AI mode is asked for and dry-run mode
    is not: the basic mode and the dry-run mode never reach the
    service. *)
Theorem X13_generate_changelog_ai_calls {U : CaseMapping}
    (AI_SYSTEM_PROMPT : pystr) (w : World) (from_ref to_ref : pystr)
    (use_ai : bool) (provider : pystr) (verbose dry_run : bool) :
  (count_events is_ai_call
     (generate_changelog AI_SYSTEM_PROMPT w from_ref to_ref use_ai provider
        verbose dry_run) <= 1)%nat /\
  (use_ai && negb dry_run = false ->
   no_ai_call (generate_changelog AI_SYSTEM_PROMPT w from_ref to_ref use_ai
                 provider verbose dry_run)).
Proof.
  pose proof (proj2 (within_generate_changelog AI_SYSTEM_PROMPT w from_ref to_ref
                       use_ai provider verbose dry_run)) as H.
  split.
  - destruct H as [H _]. destruct (use_ai && negb dry_run); lia.
  - intros Hmode. rewrite Hmode in H. by apply quiet_within in H as [H _].
Qed.

(** X13 on the sample repository in basic mode. *)
Lemma X13_witness :
  no_ai_call (generate_changelog (U := ascii_case) sample_system_prompt
                world_ai_ok (py "v1.0") (py "v1.1") false (py "gemini") false
                false).
Proof.
  refine (proj2 (X13_generate_changelog_ai_calls (U := ascii_case)
                   sample_system_prompt world_ai_ok (py "v1.0") (py "v1.1")
                   false (py "gemini") false false) _).
  reflexivity.
Defined.

(* ===================================================================== *)
(** * Further properties: the key and the request *)
(* ===================================================================== *)

(** X14.  The orchestrator sends a request exactly when [validate_api_key]
    accepts the provider, that is when the provider is known and its key
    is set and not empty; and a content it returns is the reply to the
    one request of a run that printed nothing. *)
Theorem X14_request_iff_key (AI_SYSTEM_PROMPT : pystr) (w : World)
    (prompt provider : pystr) :
  (validate_api_key w provider = true <->
   exists req,
     UrlOpen req ∈ trace (call_ai_api AI_SYSTEM_PROMPT w prompt provider)) /\
  (forall content,
     outcome (call_ai_api AI_SYSTEM_PROMPT w prompt provider) = Ok (Some content) ->
     exists req,
       trace (call_ai_api AI_SYSTEM_PROMPT w prompt provider) = [UrlOpen req] /\
       urlopen w req = Reply (Some content)).
Proof.
  unfold validate_api_key, get_api_key, call_ai_api.
  destruct (get_ai_config provider) as [config|].
  2:{ split.
      - split; [done|]. intros [req Hreq].
        apply list_elem_of_singleton in Hreq. discriminate Hreq.
      - intros content H. discriminate H. }
  destruct (truthy (api_key w config)) eqn:Hkey; cbn [negb].
  - split.
    + split; [|done]. intros _. eexists.
      unfold emit. cbn [mbind M_bind trace fst].
      destruct (urlopen w _) as [code [text|] | reason | text | content];
        apply list_elem_of_here.
    + intros content. unfold emit. cbn [mbind M_bind].
      destruct (urlopen w _) as [code [text|] | reason | text | reply] eqn:Hreply;
        cbn [print emit mbind M_bind mret M_ret outcome trace fst snd app];
        intros [= H].
      subst reply. eexists. split; [reflexivity | exact Hreply].
  - split.
    + split; [done|]. intros [req Hreq].
      cbn [print emit mbind M_bind mret M_ret trace fst app] in Hreq.
      apply elem_of_cons in Hreq as [Hreq | Hreq]; [discriminate Hreq|].
      apply list_elem_of_singleton in Hreq. discriminate Hreq.
    + intros content H. discriminate H.
Qed.

(* ===================================================================== *)
(** * Further properties: the webhook *)
(* ===================================================================== *)

(** One turn of the loop keeps a prefix, shorter unless it is empty:
    under a hundred characters the index of the slice is negative and
    counts from the end. *)
Lemma slice_hundred (s : pystr) (k : nat) :
  (k <= length s)%nat ->
  exists k2 : nat,
    (k2 <= k)%nat /\ ((0 < k)%nat -> (k2 < k)%nat) /\
    slice_to (len (take k s) - 100) (take k s) = take k2 s.
Proof.
  intros Hk.
  assert (Hlen : len (take k s) = Z.of_nat k).
  { unfold len. by rewrite length_take_le. }
  unfold slice_to. rewrite Hlen.
  destruct (Z.of_nat k - 100 <? 0) eqn:E.
  - apply Z.ltb_lt in E.
    exists (Nat.min (Z.to_nat (Z.of_nat k + (Z.of_nat k - 100))) k).
    split_and!; [lia | lia | by rewrite take_take].
  - apply Z.ltb_ge in E.
    exists (Nat.min (Z.to_nat (Z.of_nat k - 100)) k).
    split_and!; [lia | lia | by rewrite take_take].
Qed.

(** The loop on any budget that is not negative. *)
Lemma truncate_loop_returns (content : pystr) (n target : Z) :
  utf8_len content = Ok n -> 0 <= target ->
  forall (fuel k : nat), (k <= length content)%nat -> (k < fuel)%nat ->
  exists (k' : nat) (m : Z),
    (k' <= k)%nat /\
    truncate_loop fuel target (take k content) = Some (Ok (take k' content)) /\
    utf8_len (take k' content) = Ok m /\ m <= target /\
    (k' = k \/ exists x, utf8_len (take k content) = Ok x /\ x > target).
Proof.
  intros Hn Htarget. induction fuel as [|fuel IH]; intros k Hk Hfuel; [lia|].
  cbn [truncate_loop].
  destruct (utf8_len_take content n k Hn) as (x & Hx & Hxn). rewrite Hx.
  destruct (x >? target) eqn:E.
  - apply Z.gtb_gt in E.
    destruct (slice_hundred content k Hk) as (k2 & Hk2 & Hlt & ->).
    assert (0 < k)%nat.
    { destruct k; [|lia]. vm_compute in Hx. injection Hx as <-. lia. }
    destruct (IH k2) as (k' & m & Hk' & Hloop & Hm & Hle & _); [lia | lia |].
    exists k', m. split_and!; try done; try lia. right. by exists x.
  - assert (Hle : x <= target).
    { rewrite Z.gtb_ltb in E. by apply Z.ltb_ge in E. }
    exists k, x. split_and!; try done. by left.
Qed.

(** On a negative budget the loop never ends. *)
Lemma truncate_loop_diverges (target : Z) :
  target < 0 ->
  forall (fuel : nat) (s : pystr) (n : Z),
    utf8_len s = Ok n -> truncate_loop fuel target s = None.
Proof.
  intros Htarget. induction fuel as [|fuel IH]; intros s n Hn; [done|].
  cbn [truncate_loop]. rewrite Hn.
  pose proof (utf8_len_bounds s n Hn) as Hb.
  assert (Hgt : (n >? target) = true) by (apply Z.gtb_gt; unfold len in Hb; lia).
  rewrite Hgt. unfold slice_to.
  destruct (len s - 100 <? 0).
  - destruct (utf8_len_take s n (Z.to_nat (len s + (len s - 100))) Hn)
      as (x & Hx & _).
    exact (IH _ x Hx).
  - destruct (utf8_len_take s n (Z.to_nat (len s - 100)) Hn) as (x & Hx & _).
    exact (IH _ x Hx).
Qed.

Lemma cut_at_newline_take (s : pystr) :
  exists j : nat, cut_at_newline s = take j s.
Proof.
  unfold cut_at_newline, slice_to.
  destruct (rfind LF s >? len s / 2); [|exists (length s); by rewrite firstn_all].
  destruct (rfind LF s <? 0); by eexists.
Qed.

(** The truncation under any limit of a hundred bytes or more. *)
Lemma truncate_fits (content : pystr) (n max_bytes : Z) (fuel : nat) :
  100 <= max_bytes ->
  utf8_len content = Ok n ->
  (length content < fuel)%nat ->
  exists (out : pystr) (m : Z),
    truncate_content_for_wecom fuel content max_bytes = Some (Ok out) /\
    utf8_len out = Ok m /\ m <= max_bytes /\
    (n <= max_bytes -> out = content) /\
    (n > max_bytes ->
     exists kept : nat,
       (kept < length content)%nat /\
       out = take kept content ++ TRUNCATION_NOTICE).
Proof.
  intros Hmax Hn Hfuel. unfold truncate_content_for_wecom. rewrite Hn.
  destruct (n <=? max_bytes) eqn:E.
  - apply Z.leb_le in E. exists content, n. split_and!; try done; lia.
  - apply Z.leb_gt in E. cbv zeta.
    destruct (truncate_loop_returns content n (max_bytes - 100) Hn ltac:(lia)
                fuel (length content) ltac:(lia) Hfuel)
      as (k' & m0 & Hk' & Hloop & Hm0 & Hle0 & _).
    rewrite firstn_all in Hloop. rewrite Hloop.
    assert (Hlt : (k' < length content)%nat).
    { destruct (decide (k' = length content)) as [->|]; [|lia].
      rewrite firstn_all, Hn in Hm0. injection Hm0 as <-. lia. }
    destruct (cut_at_newline_take (take k' content)) as [j ->].
    rewrite take_take.
    destruct (utf8_len_take content n (Nat.min j k') Hn) as (y & Hy & _).
    pose proof (utf8_len_take_mono content (Nat.min j k') k' y m0
                  ltac:(lia) Hy Hm0).
    exists (take (Nat.min j k') content ++ TRUNCATION_NOTICE), (y + 78).
    split_and!; try done.
    + apply utf8_len_app; [exact Hy | exact utf8_len_notice].
    + lia.
    + lia.
    + intros _. exists (Nat.min j k'). split; [lia | done].
Qed.

(** X15.  Under any limit of a hundred bytes or more,
    [truncate_content_for_wecom] returns on every text that encodes,
    once its fuel exceeds the number of characters; the result encodes
    within the limit; it is the text itself when the text fits, and
    otherwise a strictly shorter prefix of the text followed by the
    notice. *)
Theorem X15_truncate_within_any_limit (content : pystr) (n max_bytes : Z)
    (fuel : nat) :
  100 <= max_bytes ->
  utf8_len content = Ok n ->
  (length content < fuel)%nat ->
  exists (out : pystr) (m : Z),
    truncate_content_for_wecom fuel content max_bytes = Some (Ok out) /\
    utf8_len out = Ok m /\ m <= max_bytes /\
    (n <= max_bytes -> out = content) /\
    (n > max_bytes ->
     exists kept : nat,
       (kept < length content)%nat /\
       out = take kept content ++ TRUNCATION_NOTICE).
Proof. exact (truncate_fits content n max_bytes fuel). Qed.

(** X15 on six letters under a limit of a hundred bytes: nothing is
    cut. *)
Lemma X15_witness :
  exists (out : pystr) (m : Z),
    truncate_content_for_wecom 7 (py "abcdef") 100 = Some (Ok out) /\
    utf8_len out = Ok m /\ m <= 100.
Proof.
  destruct (X15_truncate_within_any_limit (py "abcdef") 6 100 7)
    as (out & m & H1 & H2 & H3 & _).
  - lia.
  - vm_compute. reflexivity.
  - vm_compute. lia.
  - exists out, m. by split_and!.
Defined.

(** X16.  Under a limit below a hundred bytes the function does not
    return on a text that encodes in more bytes than the limit: the
    budget of the loop is negative, and no prefix fits it, not even the
    empty one. *)
Theorem X16_truncate_diverges_below_hundred (content : pystr) (n max_bytes : Z) :
  max_bytes < 100 ->
  utf8_len content = Ok n ->
  n > max_bytes ->
  forall fuel : nat, truncate_content_for_wecom fuel content max_bytes = None.
Proof.
  intros Hmax Hn Hgt fuel. unfold truncate_content_for_wecom. rewrite Hn.
  rewrite (proj2 (Z.leb_gt n max_bytes)) by lia. cbv zeta.
  by rewrite (truncate_loop_diverges (max_bytes - 100) ltac:(lia) fuel content n Hn).
Qed.

(** X16 on five letters under a limit of three bytes, with fuel for a
    thousand turns of the loop. *)
Lemma X16_witness :
  truncate_content_for_wecom 1000 (py "hello") 3 = None.
Proof.
  refine (X16_truncate_diverges_below_hundred (py "hello") 5 3 _ _ _ 1000%nat).
  - lia.
  - vm_compute. reflexivity.
  - lia.
Defined.

(** X17.  The truncation is idempotent: under a limit of a hundred bytes
    or more, what it returns on a text that encodes is returned as it is
    by a second truncation under the same limit, whatever the fuel. *)
Theorem X17_truncate_idempotent (content : pystr) (n max_bytes : Z) (fuel : nat) :
  100 <= max_bytes ->
  utf8_len content = Ok n ->
  (length content < fuel)%nat ->
  exists out : pystr,
    truncate_content_for_wecom fuel content max_bytes = Some (Ok out) /\
    forall fuel' : nat,
      truncate_content_for_wecom fuel' out max_bytes = Some (Ok out).
Proof.
  intros Hmax Hn Hfuel.
  destruct (truncate_fits content n max_bytes fuel Hmax Hn Hfuel)
    as (out & m & Hout & Hm & Hle & _).
  exists out. split; [exact Hout|]. intros fuel'.
  unfold truncate_content_for_wecom. rewrite Hm.
  by rewrite (proj2 (Z.leb_le m max_bytes) Hle).
Qed.

(** X17 on the document of 5000 bytes under the default limit. *)
Lemma X17_witness :
  exists out : pystr,
    truncate_content_for_wecom (Z.to_nat 5001) doc5000 4096 = Some (Ok out) /\
    forall fuel' : nat, truncate_content_for_wecom fuel' out 4096 = Some (Ok out).
Proof.
  refine (X17_truncate_idempotent doc5000 5000 4096 (Z.to_nat 5001) _ _ _).
  - lia.
  - vm_compute. reflexivity.
  - vm_compute. lia.
Defined.

(** On a text that encodes the loop raises nothing. *)
Lemma truncate_loop_no_raise (target : Z) (e : exn) :
  forall (fuel : nat) (s : pystr) (n : Z),
    utf8_len s = Ok n -> truncate_loop fuel target s <> Some (Raise e).
Proof.
  induction fuel as [|fuel IH]; intros s n Hn; [done|].
  cbn [truncate_loop]. rewrite Hn.
  destruct (n >? target); [|done]. unfold slice_to.
  destruct (len s - 100 <? 0).
  - destruct (utf8_len_take s n (Z.to_nat (len s + (len s - 100))) Hn)
      as (x & Hx & _).
    exact (IH _ x Hx).
  - destruct (utf8_len_take s n (Z.to_nat (len s - 100)) Hn) as (x & Hx & _).
    exact (IH _ x Hx).
Qed.

(** X18.  What [send_changelog_to_wecom] hands to the service: on a
    changelog that encodes it returns, having set out to send at most one
    request, and none when the URL is empty; the request goes to the URL
    given,
    and the content of its payload encodes in at most 4096 bytes and is
    the changelog itself when that fits. *)
Theorem X18_wecom_delivery (post : http_request -> wecom_outcome)
    (webhook_url changelog : pystr) (n : Z) (fuel : nat) :
  utf8_len changelog = Ok n ->
  (length changelog < fuel)%nat ->
  exists (reqs : list http_request) (result : bool * pystr),
    send_changelog_to_wecom fuel post webhook_url changelog
      = Some (Ok (reqs, result)) /\
    (length reqs <= 1)%nat /\
    (webhook_url = [] -> reqs = []) /\
    forall req, req ∈ reqs ->
      req_url req = webhook_url /\
      exists (content : pystr) (m : Z),
        req_data req = wecom_payload content /\
        utf8_len content = Ok m /\ m <= 4096 /\
        (n <= 4096 -> content = changelog).
Proof.
  intros Hn Hfuel.
  destruct (truncate_fits changelog n WECOM_MAX_BYTES fuel ltac:(done) Hn Hfuel)
    as (out & m & Hout & Hm & Hle & Hsame & _).
  unfold send_changelog_to_wecom. rewrite Hout. unfold send_wecom_message.
  destruct webhook_url as [|c url]; cbn [truthy negb].
  - eexists _, _. split; [reflexivity|]. split_and!; [cbn; lia | done |].
    intros req Hreq. by apply elem_of_nil in Hreq.
  - eexists _, _. split; [reflexivity|]. split_and!; [cbn; lia | done |].
    intros req Hreq. apply list_elem_of_singleton in Hreq. subst req.
    split; [done|]. exists out, m. by split_and!.
Qed.

(** X18 on a short changelog. *)
Lemma X18_witness :
  exists (reqs : list http_request) (result : bool * pystr),
    send_changelog_to_wecom 7 (fun _ => WResult (Some 0) None)
      (py "https://example.org/hook") (py "abcdef")
      = Some (Ok (reqs, result)) /\
    (length reqs <= 1)%nat.
Proof.
  destruct (X18_wecom_delivery (fun _ => WResult (Some 0) None)
              (py "https://example.org/hook") (py "abcdef") 6 7)
    as (reqs & result & H1 & H2 & _).
  - vm_compute. reflexivity.
  - vm_compute. lia.
  - exists reqs, result. by split.
Defined.

(** X19.  [send_wecom_message] reports success exactly when it set out
    to send a request and the service replied with [errcode] 0; with an
    empty URL it sends nothing and reports a failure; and it never sends
    more than one request. *)
Theorem X19_wecom_success_iff (post : http_request -> wecom_outcome)
    (webhook_url content : pystr) :
  let run := send_wecom_message post webhook_url content in
  (run.2.1 = true <->
   exists req errmsg, run.1 = [req] /\ post req = WResult (Some 0) errmsg) /\
  (webhook_url = [] -> run.1 = [] /\ run.2.1 = false) /\
  (length run.1 <= 1)%nat.
Proof.
  cbv zeta. unfold send_wecom_message.
  destruct webhook_url as [|c url]; cbn [truthy negb fst snd].
  - split_and!; [|done|cbn; lia].
    split; [done|]. intros (req & errmsg & H & _). discriminate H.
  - split_and!; [|done|cbn; lia].
    destruct (post _) as [code reason | reason | text | text | errcode errmsg]
      eqn:Hpost; cbn [fst snd].
    1-4: split; [done|]; intros (req & errmsg' & [= <-] & H); congruence.
    destruct (decide (errcode = Some 0)) as [-> | Hne].
    + rewrite bool_decide_eq_true_2 by done. cbn [fst].
      split; [|done]. intros _. by eexists _, errmsg.
    + rewrite bool_decide_eq_false_2 by done. cbn [fst].
      split; [done|]. intros (req & errmsg' & [= <-] & H). congruence.
Qed.

(** X20.  [send_changelog_to_wecom] raises exactly when the changelog
    cannot be encoded in UTF-8, as with a lone surrogate: the exception
    is that of the first test of the truncation, before the [try] of
    [send_wecom_message], which is never reached. *)
Theorem X20_wecom_raises_iff_unencodable (fuel : nat)
    (post : http_request -> wecom_outcome) (webhook_url changelog : pystr)
    (e : exn) :
  send_changelog_to_wecom fuel post webhook_url changelog = Some (Raise e) <->
  utf8_len changelog = Raise e.
Proof.
  unfold send_changelog_to_wecom, truncate_content_for_wecom.
  destruct (utf8_len changelog) as [n|e'] eqn:Hn.
  - split; [|done]. intros H. exfalso.
    destruct (n <=? WECOM_MAX_BYTES); [done|]. cbv zeta in H.
    pose proof (truncate_loop_no_raise (WECOM_MAX_BYTES - 100) e fuel changelog
                  n Hn) as Hloop.
    destruct (truncate_loop fuel (WECOM_MAX_BYTES - 100) changelog)
      as [[t|e'']|]; [done | | done].
    injection H as ->. by apply Hloop.
  - split; intros [= ->]; done.
Qed.

(* ===================================================================== *)
(** * Further properties: the .env file *)
(* ===================================================================== *)

Lemma load_env_line_subseteq (line : pystr) (env env' : gmap pystr pystr) :
  load_env_line line env = Some env' -> env ⊆ env'.
Proof.
  unfold load_env_line.
  destruct (negb (truthy (strip line)) || startswith (strip line) (py "#"));
    [by intros [= ->]|].
  destruct (contains (py "=") (strip line)); [|by intros [= ->]].
  destruct (partition 61%N (strip line)) as [[key found] value].
  destruct (truthy (strip key)); cbn [andb]; [|by intros [= ->]].
  destruct (decide (is_Some (env !! strip key))) as [Hin | Hout].
  - rewrite bool_decide_eq_true_2 by done. by intros [= ->].
  - rewrite bool_decide_eq_false_2 by done. cbn [negb]. unfold setenv.
    destruct (_ || _); [done|]. intros [= <-].
    apply insert_subseteq. by apply eq_None_not_Some.
Qed.

Lemma load_env_lines_subseteq (lines : list pystr) :
  forall env : gmap pystr pystr, env ⊆ load_env_lines lines env.
Proof.
  induction lines as [|line lines IH]; intros env; [done|].
  cbn [load_env_lines].
  destruct (load_env_line line env) as [env'|] eqn:Hline; [|done].
  etrans; [by apply (load_env_line_subseteq line env env') | apply IH].
Qed.

(** X21.  [load_env_file] only adds to the environment: whatever the
    file holds, and whether or not the loading is cut short by an error,
    every variable set before the call keeps its value. *)
Theorem X21_load_env_file_only_adds (file : option (list pystr))
    (env : gmap pystr pystr) :
  env ⊆ load_env_file file env.
Proof.
  destruct file as [lines|]; [apply load_env_lines_subseteq | done].
Qed.

Lemma lstrip_same_or_shorter (s : pystr) :
  lstrip s = s \/ (length (lstrip s) < length s)%nat.
Proof.
  induction s as [|c r IH]; [by left|]. cbn [lstrip].
  destruct (isspace c); [|by left]. right. cbn [length]. destruct IH as [-> | H]; lia.
Qed.

Lemma lstrip_fixed (x : char) (r : pystr) :
  lstrip (x :: r) = x :: r -> isspace x = false.
Proof.
  cbn [lstrip]. destruct (isspace x); [|done]. intros H.
  apply (f_equal (@length char)) in H. cbn [length] in H.
  destruct (lstrip_same_or_shorter r) as [Hr | Hr]; [rewrite Hr in H|]; lia.
Qed.

(** A text that [strip] leaves as it is neither begins nor ends with
    white space. *)
Lemma strip_fixed (s : pystr) :
  strip s = s -> lstrip s = s /\ lstrip (rev s) = rev s.
Proof.
  unfold strip. intros H.
  assert (Hl : lstrip s = s).
  { destruct (lstrip_same_or_shorter s) as [Hs | Hs]; [done|]. exfalso.
    apply (f_equal (@length char)) in H. rewrite length_rev in H.
    destruct (lstrip_same_or_shorter (rev (lstrip s))) as [Hr | Hr].
    - rewrite Hr, length_rev in H. lia.
    - rewrite length_rev in Hr. lia. }
  split; [exact Hl|]. rewrite Hl in H.
  apply (f_equal (@rev char)) in H. by rewrite rev_involutive in H.
Qed.

Lemma strip_assignment (key raw : pystr) :
  key <> [] -> strip key = key -> strip raw = raw ->
  strip (key ++ 61%N :: raw) = key ++ 61%N :: raw.
Proof.
  intros Hne Hkey Hraw.
  destruct (strip_fixed key Hkey) as [Hk _].
  destruct (strip_fixed raw Hraw) as [_ Hr].
  destruct key as [|x k]; [done|]. apply lstrip_fixed in Hk.
  destruct (rev raw) as [|y t] eqn:Hrev.
  - apply (f_equal (@rev char)) in Hrev. rewrite rev_involutive in Hrev.
    subst raw. by apply (strip_id _ (k ++ [61%N]) (x :: k) x 61%N).
  - apply lstrip_fixed in Hr.
    apply (f_equal (@rev char)) in Hrev. rewrite rev_involutive in Hrev.
    subst raw. cbn [rev].
    apply (strip_id _ (k ++ 61%N :: rev t ++ [y]) (x :: k ++ 61%N :: rev t) x y);
      try done.
    cbn [app]. f_equal. rewrite <- app_assoc. reflexivity.
Qed.

Lemma startswith_nil (s : pystr) : startswith s [] = true.
Proof. by destruct s. Qed.

Lemma contains_here (c : char) (a b : pystr) : contains [c] (a ++ c :: b) = true.
Proof.
  induction a as [|x a IH]; cbn [app contains startswith].
  - by rewrite char_eqb_refl, startswith_nil.
  - rewrite IH. apply orb_true_r.
Qed.

Lemma partition_first (c : char) (a b : pystr) :
  c ∉ a -> partition c (a ++ c :: b) = (a, [c], b).
Proof.
  intros Ha. induction a as [|x a IH]; cbn [app partition].
  - by rewrite char_eqb_refl.
  - apply not_elem_of_cons in Ha as [Hx Ha].
    rewrite char_eqb_ne by done. by rewrite IH.
Qed.

Lemma existsb_absent (c : char) (s : pystr) :
  c ∉ s -> existsb (char_eqb c) s = false.
Proof.
  intros Hs. induction s as [|x s IH]; [done|].
  apply not_elem_of_cons in Hs as [Hx Hs]. cbn [existsb].
  rewrite char_eqb_ne by done. by apply IH.
Qed.

(** A line [KEY=RAW] whose parts are written without white space around
    them assigns to a variable not yet set the value read from [RAW]. *)
Lemma load_env_line_assigns (key raw : pystr) (env : gmap pystr pystr) :
  key <> [] -> strip key = key -> 61%N ∉ key ->
  startswith key (py "#") = false ->
  strip raw = raw ->
  env !! key = None ->
  load_env_line (key ++ py "=" ++ raw) env =
  setenv key
    (if (startswith raw DQUOTE && endswith raw DQUOTE) ||
        (startswith raw (py "'") && endswith raw (py "'"))
     then slice 1 (-1) raw else raw)
    env.
Proof.
  intros Hne Hkey Heq Hhash Hraw Henv. unfold load_env_line.
  replace (py "=") with [61%N] by (vm_compute; reflexivity). cbn [app].
  rewrite strip_assignment by done.
  assert (Hstart : startswith (key ++ 61%N :: raw) (py "#") = false).
  { destruct key as [|x k]; [done|]. revert Hhash.
    replace (py "#") with [35%N] by (vm_compute; reflexivity).
    cbn [app startswith]. by rewrite !startswith_nil. }
  rewrite Hstart.
  assert (Htruthy : truthy (key ++ 61%N :: raw) = true) by (by destruct key).
  rewrite Htruthy. cbn [negb orb].
  rewrite contains_here, partition_first by done.
  rewrite Hkey, Hraw.
  assert (Hk : truthy key = true) by (by destruct key).
  rewrite Hk. rewrite bool_decide_eq_false_2.
  - reflexivity.
  - rewrite Henv. by intros [v Hv].
Qed.

(** X22.  A line [KEY=VALUE] sets the variable: when the key is not
    empty, holds no [=] and no NUL, does not begin with [#] and is not
    yet set, when the value holds no NUL and is not quoted, and when
    neither has white space around it, the loop body on that line sets
    the key to the value and changes nothing else. *)
Theorem X22_env_line_sets_variable (key value : pystr)
    (env : gmap pystr pystr) :
  key <> [] -> strip key = key -> 61%N ∉ key -> 0%N ∉ key ->
  startswith key (py "#") = false ->
  strip value = value -> 0%N ∉ value ->
  (startswith value DQUOTE && endswith value DQUOTE) ||
  (startswith value (py "'") && endswith value (py "'")) = false ->
  env !! key = None ->
  load_env_line (key ++ py "=" ++ value) env = Some (<[key := value]> env).
Proof.
  intros Hne Hkey Heq Hnul Hhash Hvalue Hvnul Hquote Henv.
  rewrite load_env_line_assigns by done. rewrite Hquote.
  unfold setenv. by rewrite !existsb_absent.
Qed.

(** X22 on the line [GOOGLE_API_KEY=abc123] in an empty environment. *)
Lemma X22_witness :
  load_env_line (py "GOOGLE_API_KEY" ++ py "=" ++ py "abc123") ∅ =
  Some (<[py "GOOGLE_API_KEY" := py "abc123"]> ∅).
Proof.
  refine (X22_env_line_sets_variable (py "GOOGLE_API_KEY") (py "abc123") ∅
            _ _ _ _ _ _ _ _ _).
  - vm_compute. discriminate.
  - vm_compute. reflexivity.
  - apply (bool_decide_unpack _). vm_compute. exact I.
  - apply (bool_decide_unpack _). vm_compute. exact I.
  - vm_compute. reflexivity.
  - vm_compute. reflexivity.
  - apply (bool_decide_unpack _). vm_compute. exact I.
  - vm_compute. reflexivity.
  - apply lookup_empty.
Defined.

Lemma slice_inner (x y : char) (v : pystr) :
  slice 1 (-1) (x :: v ++ [y]) = v.
Proof.
  unfold slice, len. cbn [length]. rewrite length_app. cbn [length].
  replace (1 <? 0) with false by reflexivity.
  replace (-1 <? 0) with true by reflexivity.
  rewrite !Z.min_r, !Z.max_r by lia.
  replace (Z.to_nat 1) with 1%nat by reflexivity. cbn [drop].
  replace (Z.to_nat _) with (length v) by lia.
  rewrite drop_0. by rewrite take_app_length.
Qed.

(** X23.  Quotes around a value are removed, and nothing else of it is
    touched: a line [KEY="TEXT"], with the key as in X22, sets the key to
    the text between the quotes, whatever white space or quotes the text
    holds. *)
Theorem X23_env_line_unquotes (key text : pystr) (env : gmap pystr pystr) :
  key <> [] -> strip key = key -> 61%N ∉ key -> 0%N ∉ key ->
  startswith key (py "#") = false ->
  0%N ∉ text ->
  env !! key = None ->
  load_env_line (key ++ py "=" ++ DQUOTE ++ text ++ DQUOTE) env =
  Some (<[key := text]> env).
Proof.
  intros Hne Hkey Heq Hnul Hhash Htnul Henv.
  assert (Hstrip : strip (DQUOTE ++ text ++ DQUOTE) = DQUOTE ++ text ++ DQUOTE).
  { by apply (strip_id _ (text ++ DQUOTE) (DQUOTE ++ text) 34%N 34%N). }
  rewrite load_env_line_assigns by done.
  assert (Hq : startswith (DQUOTE ++ text ++ DQUOTE) DQUOTE &&
               endswith (DQUOTE ++ text ++ DQUOTE) DQUOTE = true).
  { unfold endswith, DQUOTE. rewrite !rev_app_distr. cbn [rev app startswith].
    by rewrite char_eqb_refl, !startswith_nil. }
  rewrite Hq. cbn [orb]. unfold DQUOTE. cbn [app]. rewrite slice_inner.
  unfold setenv. by rewrite !existsb_absent.
Qed.

(** X23 on a value with a space in it. *)
Lemma X23_witness :
  load_env_line (py "TITLE" ++ py "=" ++ DQUOTE ++ py " a b " ++ DQUOTE) ∅ =
  Some (<[py "TITLE" := py " a b "]> ∅).
Proof.
  refine (X23_env_line_unquotes (py "TITLE") (py " a b ") ∅ _ _ _ _ _ _ _).
  - vm_compute. discriminate.
  - vm_compute. reflexivity.
  - apply (bool_decide_unpack _). vm_compute. exact I.
  - apply (bool_decide_unpack _). vm_compute. exact I.
  - vm_compute. reflexivity.
  - apply (bool_decide_unpack _). vm_compute. exact I.
  - apply lookup_empty.
Defined.

(* ===================================================================== *)
(** * Further properties: the statistics and the prompt *)
(* ===================================================================== *)

(** X24.  The statistics of the diff come from a git command that
    succeeded: [get_git_diff_stat] runs at most two commands and returns
    the output of one of them that succeeded, or the empty string; it
    runs none for an empty list of files, and a second one only when the
    first has failed. *)
Theorem X24_diff_stat_from_successful_command (w : World)
    (from_ref to_ref : pystr) (files : list pystr) :
  let run := get_git_diff_stat w from_ref to_ref files in
  (count_events is_git_call run <= 2)%nat /\
  (files = [] -> trace run = []) /\
  (exists stat,
     outcome run = Ok stat /\
     (stat = [] \/
      exists cmd, RunGit cmd ∈ trace run /\ subprocess_run w cmd = (true, stat))) /\
  (forall e1 e2 rest, trace run = e1 :: e2 :: rest ->
     exists cmd output,
       e1 = RunGit cmd /\ subprocess_run w cmd = (false, output)).
Proof.
  cbv zeta. unfold get_git_diff_stat, run_git_command, count_events.
  destruct files as [|f files]; cbn [truthy negb].
  { split_and!; [cbn; lia | done | by exists []; split; [|left] | done]. }
  cbn [mbind M_bind emit mret M_ret app trace outcome fst snd].
  destruct (subprocess_run w _) as [[] o1] eqn:E1; cbn [negb].
  - cbn [mbind M_bind emit mret M_ret app trace outcome fst snd
         List.filter is_git_call length].
    split_and!; [lia | done | | done].
    exists o1. split; [done|]. right. eexists. split; [|exact E1].
    apply list_elem_of_here.
  - cbn [mbind M_bind emit mret M_ret app trace outcome fst snd].
    destruct (subprocess_run w
                (py "git diff " ++ from_ref ++ py ".." ++ to_ref ++ py " --stat"))
      as [[] o2] eqn:E2;
      cbn [mbind M_bind emit mret M_ret app trace outcome fst snd
           List.filter is_git_call length].
    + split_and!; [lia | done | | ].
      * exists o2. split; [done|]. right. eexists. split; [|exact E2].
        apply list_elem_of_further, list_elem_of_here.
      * intros e1 e2 rest [= <- _ _]. by eexists _, _.
    + split_and!; [lia | done | by exists []; split; [|left] | ].
      intros e1 e2 rest [= <- _ _]. by eexists _, _.
Qed.

(** X25.  The prompt embeds a prefix of the diff of at most 50000
    characters, whatever the diff: its length is the smaller of the
    length of the diff and the bound, and it stands between the head and
    the end of the template. *)
Theorem X25_prompt_embeds_bounded_diff (from_ref to_ref : pystr)
    (commits : list CommitInfo) (diff diff_stat : pystr) :
  exists diff_content,
    build_ai_prompt from_ref to_ref commits diff diff_stat =
      prompt_head from_ref to_ref commits diff_stat ++ diff_content ++
      prompt_tail /\
    diff_content `prefix_of` diff /\
    len diff_content = Z.min (len diff) DEFAULT_MAX_DIFF_CHARS.
Proof.
  destruct (decide (len diff > DEFAULT_MAX_DIFF_CHARS)) as [Hlong | Hshort].
  - exists (slice_to DEFAULT_MAX_DIFF_CHARS diff). split_and!.
    + by apply build_ai_prompt_cut.
    + rewrite slice_to_nonneg by done. apply prefix_take.
    + rewrite len_slice_to; unfold DEFAULT_MAX_DIFF_CHARS in *; lia.
  - exists diff. split_and!.
    + apply build_ai_prompt_whole. lia.
    + done.
    + lia.
Qed.
